(** * Vulkan tutorials 00-03: a shallow embedding and its properties

    The four tutorial programs are straight-line sequences of calls into
    the native Vulkan loader and the C heap.  They are embedded as
    computations in a small state-and-fault monad over an explicit
    machine state (event trace, heap, live handles); the native layer is
    a record of history-dependent oracles, so a statement quantified
    over the native layer covers every execution. *)

From Stdlib Require Import ZArith List String Lia Bool.
From stdpp Require Import base option gmap.

Open Scope string_scope.
Open Scope list_scope.
Open Scope Z_scope.

(** ** Machine integers and pointers *)

(** [uint32_t] arithmetic. *)
Definition wrap32 (x : Z) : Z := x mod 2 ^ 32.
(** [size_t] arithmetic on the LP64 targets the tutorials are built for. *)
Definition wrap_size (x : Z) : Z := x mod 2 ^ 64.

Definition NULL : Z := 0.

(** ** Constants of vulkan.h *)

Definition VkResult : Type := Z.
Definition VK_SUCCESS : VkResult := 0.
Definition VK_INCOMPLETE : VkResult := 5.
Definition VK_ERROR_OUT_OF_HOST_MEMORY : VkResult := -1.
Definition VK_ERROR_OUT_OF_DEVICE_MEMORY : VkResult := -2.
Definition VK_ERROR_INITIALIZATION_FAILED : VkResult := -3.
Definition VK_ERROR_LAYER_NOT_PRESENT : VkResult := -6.
Definition VK_ERROR_EXTENSION_NOT_PRESENT : VkResult := -7.
Definition VK_ERROR_INCOMPATIBLE_DRIVER : VkResult := -9.

Definition VK_STRUCTURE_TYPE_APPLICATION_INFO : Z := 0.
Definition VK_STRUCTURE_TYPE_INSTANCE_CREATE_INFO : Z := 1.
Definition VK_STRUCTURE_TYPE_DEVICE_QUEUE_CREATE_INFO : Z := 2.
Definition VK_STRUCTURE_TYPE_DEVICE_CREATE_INFO : Z := 3.

Definition VK_QUEUE_GRAPHICS_BIT : Z := 0x1.
Definition VK_QUEUE_COMPUTE_BIT : Z := 0x2.
Definition VK_QUEUE_TRANSFER_BIT : Z := 0x4.
Definition VK_QUEUE_SPARSE_BINDING_BIT : Z := 0x8.

(** [sizeof(VkPhysicalDevice)]: a dispatchable handle is a pointer. *)
Definition sizeof_VkPhysicalDevice : Z := 8.
(** [sizeof(VkQueueFamilyProperties)]: three [uint32_t] and a [VkExtent3D]. *)
Definition sizeof_VkQueueFamilyProperties : Z := 24.

(** ** API version macros (tutorial01, lines 22-24) *)

Definition VK_API_MAJOR_VERSION (x : Z) : Z := Z.land (Z.shiftr x 22) 0x3FF.
Definition VK_API_MINOR_VERSION (x : Z) : Z := Z.land (Z.shiftr x 12) 0x3FF.
Definition VK_API_PATCH_VERSION (x : Z) : Z := Z.land x 0xFFF.

(** The packed 32-bit value [(major<<22)|(minor<<12)|patch]. *)
Definition pack_version (major minor patch : Z) : Z :=
  wrap32 (Z.lor (Z.lor (Z.shiftl major 22) (Z.shiftl minor 12)) patch).

(** ** Descriptor records *)

(** Application identity descriptor. *)
Module VkApplicationInfo.
Record t : Type := mk {
  sType : Z;
  pNext : Z;
  pApplicationName : option string;
  applicationVersion : Z;
  pEngineName : option string;
  engineVersion : Z;
  apiVersion : Z
}.
(** The initialiser [= {}]: every member zero or null. *)
Definition zero : t := mk 0 0 None 0 None 0 0.
Definition set_sType (v : Z) (r : t) : t :=
  mk v (pNext r) (pApplicationName r) (applicationVersion r) (pEngineName
     r) (engineVersion r) (apiVersion r).
Definition set_pNext (v : Z) (r : t) : t :=
  mk (sType r) v (pApplicationName r) (applicationVersion r) (pEngineName
     r) (engineVersion r) (apiVersion r).
Definition set_pApplicationName (v : option string) (r : t) : t :=
  mk (sType r) (pNext r) v (applicationVersion r) (pEngineName r)
     (engineVersion r) (apiVersion r).
Definition set_pEngineName (v : option string) (r : t) : t :=
  mk (sType r) (pNext r) (pApplicationName r) (applicationVersion r) v
     (engineVersion r) (apiVersion r).
Definition set_engineVersion (v : Z) (r : t) : t :=
  mk (sType r) (pNext r) (pApplicationName r) (applicationVersion r)
     (pEngineName r) v (apiVersion r).
Definition set_apiVersion (v : Z) (r : t) : t :=
  mk (sType r) (pNext r) (pApplicationName r) (applicationVersion r)
     (pEngineName r) (engineVersion r) v.
End VkApplicationInfo.

(** Instance creation options.  [pApplicationInfo] holds the descriptor
    the pointer refers to, as the callee reads it during the call. *)
Module VkInstanceCreateInfo.
Record t : Type := mk {
  sType : Z;
  pNext : Z;
  flags : Z;
  pApplicationInfo : option VkApplicationInfo.t;
  enabledLayerCount : Z;
  ppEnabledLayerNames : Z;
  enabledExtensionCount : Z;
  ppEnabledExtensionNames : Z
}.
(** The initialiser [= {}]: every member zero or null. *)
Definition zero : t := mk 0 0 0 None 0 0 0 0.
Definition set_sType (v : Z) (r : t) : t :=
  mk v (pNext r) (flags r) (pApplicationInfo r) (enabledLayerCount r)
     (ppEnabledLayerNames r) (enabledExtensionCount r)
     (ppEnabledExtensionNames r).
Definition set_pNext (v : Z) (r : t) : t :=
  mk (sType r) v (flags r) (pApplicationInfo r) (enabledLayerCount r)
     (ppEnabledLayerNames r) (enabledExtensionCount r)
     (ppEnabledExtensionNames r).
Definition set_flags (v : Z) (r : t) : t :=
  mk (sType r) (pNext r) v (pApplicationInfo r) (enabledLayerCount r)
     (ppEnabledLayerNames r) (enabledExtensionCount r)
     (ppEnabledExtensionNames r).
Definition set_pApplicationInfo (v : option VkApplicationInfo.t) (r : t) : t :=
  mk (sType r) (pNext r) (flags r) v (enabledLayerCount r)
     (ppEnabledLayerNames r) (enabledExtensionCount r)
     (ppEnabledExtensionNames r).
Definition set_enabledLayerCount (v : Z) (r : t) : t :=
  mk (sType r) (pNext r) (flags r) (pApplicationInfo r) v
     (ppEnabledLayerNames r) (enabledExtensionCount r)
     (ppEnabledExtensionNames r).
Definition set_ppEnabledLayerNames (v : Z) (r : t) : t :=
  mk (sType r) (pNext r) (flags r) (pApplicationInfo r) (enabledLayerCount
     r) v (enabledExtensionCount r) (ppEnabledExtensionNames r).
Definition set_enabledExtensionCount (v : Z) (r : t) : t :=
  mk (sType r) (pNext r) (flags r) (pApplicationInfo r) (enabledLayerCount
     r) (ppEnabledLayerNames r) v (ppEnabledExtensionNames r).
End VkInstanceCreateInfo.

(** One queue request.  [pQueuePriorities] points at a single binary32
    value, kept as its bit pattern. *)
Module VkDeviceQueueCreateInfo.
Record t : Type := mk {
  sType : Z;
  pNext : Z;
  flags : Z;
  queueFamilyIndex : Z;
  queueCount : Z;
  pQueuePriorities : option Z
}.
(** The initialiser [= {}]: every member zero or null. *)
Definition zero : t := mk 0 0 0 0 0 None.
Definition set_sType (v : Z) (r : t) : t :=
  mk v (pNext r) (flags r) (queueFamilyIndex r) (queueCount r)
     (pQueuePriorities r).
Definition set_pNext (v : Z) (r : t) : t :=
  mk (sType r) v (flags r) (queueFamilyIndex r) (queueCount r)
     (pQueuePriorities r).
Definition set_flags (v : Z) (r : t) : t :=
  mk (sType r) (pNext r) v (queueFamilyIndex r) (queueCount r)
     (pQueuePriorities r).
Definition set_queueFamilyIndex (v : Z) (r : t) : t :=
  mk (sType r) (pNext r) (flags r) v (queueCount r) (pQueuePriorities r).
Definition set_queueCount (v : Z) (r : t) : t :=
  mk (sType r) (pNext r) (flags r) (queueFamilyIndex r) v
     (pQueuePriorities r).
Definition set_pQueuePriorities (v : option Z) (r : t) : t :=
  mk (sType r) (pNext r) (flags r) (queueFamilyIndex r) (queueCount r) v.
End VkDeviceQueueCreateInfo.

(** Logical device creation options. *)
Module VkDeviceCreateInfo.
Record t : Type := mk {
  sType : Z;
  pNext : Z;
  flags : Z;
  queueCreateInfoCount : Z;
  pQueueCreateInfos : option VkDeviceQueueCreateInfo.t;
  enabledLayerCount : Z;
  ppEnabledLayerNames : Z;
  enabledExtensionCount : Z;
  ppEnabledExtensionNames : Z;
  pEnabledFeatures : Z
}.
(** The initialiser [= {}]: every member zero or null. *)
Definition zero : t := mk 0 0 0 0 None 0 0 0 0 0.
Definition set_sType (v : Z) (r : t) : t :=
  mk v (pNext r) (flags r) (queueCreateInfoCount r) (pQueueCreateInfos r)
     (enabledLayerCount r) (ppEnabledLayerNames r) (enabledExtensionCount
     r) (ppEnabledExtensionNames r) (pEnabledFeatures r).
Definition set_pNext (v : Z) (r : t) : t :=
  mk (sType r) v (flags r) (queueCreateInfoCount r) (pQueueCreateInfos r)
     (enabledLayerCount r) (ppEnabledLayerNames r) (enabledExtensionCount
     r) (ppEnabledExtensionNames r) (pEnabledFeatures r).
Definition set_flags (v : Z) (r : t) : t :=
  mk (sType r) (pNext r) v (queueCreateInfoCount r) (pQueueCreateInfos r)
     (enabledLayerCount r) (ppEnabledLayerNames r) (enabledExtensionCount
     r) (ppEnabledExtensionNames r) (pEnabledFeatures r).
Definition set_queueCreateInfoCount (v : Z) (r : t) : t :=
  mk (sType r) (pNext r) (flags r) v (pQueueCreateInfos r)
     (enabledLayerCount r) (ppEnabledLayerNames r) (enabledExtensionCount
     r) (ppEnabledExtensionNames r) (pEnabledFeatures r).
Definition set_pQueueCreateInfos (v : option VkDeviceQueueCreateInfo.t) (r : t) : t :=
  mk (sType r) (pNext r) (flags r) (queueCreateInfoCount r) v
     (enabledLayerCount r) (ppEnabledLayerNames r) (enabledExtensionCount
     r) (ppEnabledExtensionNames r) (pEnabledFeatures r).
Definition set_enabledLayerCount (v : Z) (r : t) : t :=
  mk (sType r) (pNext r) (flags r) (queueCreateInfoCount r)
     (pQueueCreateInfos r) v (ppEnabledLayerNames r)
     (enabledExtensionCount r) (ppEnabledExtensionNames r)
     (pEnabledFeatures r).
Definition set_ppEnabledLayerNames (v : Z) (r : t) : t :=
  mk (sType r) (pNext r) (flags r) (queueCreateInfoCount r)
     (pQueueCreateInfos r) (enabledLayerCount r) v (enabledExtensionCount
     r) (ppEnabledExtensionNames r) (pEnabledFeatures r).
Definition set_enabledExtensionCount (v : Z) (r : t) : t :=
  mk (sType r) (pNext r) (flags r) (queueCreateInfoCount r)
     (pQueueCreateInfos r) (enabledLayerCount r) (ppEnabledLayerNames r) v
     (ppEnabledExtensionNames r) (pEnabledFeatures r).
Definition set_ppEnabledExtensionNames (v : Z) (r : t) : t :=
  mk (sType r) (pNext r) (flags r) (queueCreateInfoCount r)
     (pQueueCreateInfos r) (enabledLayerCount r) (ppEnabledLayerNames r)
     (enabledExtensionCount r) v (pEnabledFeatures r).
End VkDeviceCreateInfo.
Module VkExtent3D.
Record t : Type := mk { width : Z; height : Z; depth : Z }.
End VkExtent3D.

Module VkQueueFamilyProperties.
Record t : Type := mk {
  queueFlags : Z;
  queueCount : Z;
  timestampValidBits : Z;
  minImageTransferGranularity : VkExtent3D.t
}.
End VkQueueFamilyProperties.

(** The members of [VkPhysicalDeviceProperties] the tutorials read. *)
Module VkPhysicalDeviceProperties.
Record t : Type := mk {
  apiVersion : Z;
  driverVersion : Z;
  deviceType : Z;
  deviceName : string
}.
End VkPhysicalDeviceProperties.

(** ** Events: every call that leaves the program *)

Inductive parg : Type :=
| PInt (z : Z)
| PStr (s : string).

Inductive event : Type :=
| EvCreateInstance (info : VkInstanceCreateInfo.t) (res : VkResult) (inst : Z)
| EvDestroyInstance (inst : Z)
| EvEnumeratePhysicalDevices (inst buf cap : Z) (res : VkResult) (count : Z)
| EvGetPhysicalDeviceProperties (dev : Z)
| EvGetPhysicalDeviceQueueFamilyProperties (dev buf cap count : Z)
| EvCreateDevice (phys : Z) (info : VkDeviceCreateInfo.t) (res : VkResult) (dev : Z)
| EvDestroyDevice (dev : Z)
| EvMalloc (size p : Z)
| EvFree (p : Z)
| EvPrintf (fmt : string) (args : list parg).

(** ** The native layer

    Each entry point answers as a function of the history of calls so
    far, which makes the record cover every behaviour of the loader,
    the driver and the allocator.  [VK_API_VERSION] is the header's
    macro. *)
Record Native : Type := {
  VK_API_VERSION : Z;
  drv_vkCreateInstance : list event -> VkInstanceCreateInfo.t -> VkResult * Z;
  (** query with a null destination: status and reported count *)
  drv_vkEnumeratePhysicalDevices_count : list event -> Z -> VkResult * Z;
  (** query with a destination of the given capacity: status and handles *)
  drv_vkEnumeratePhysicalDevices_fill : list event -> Z -> Z -> VkResult * list Z;
  drv_vkGetPhysicalDeviceProperties : list event -> Z -> VkPhysicalDeviceProperties.t;
  drv_vkGetPhysicalDeviceQueueFamilyProperties_count : list event -> Z -> Z;
  drv_vkGetPhysicalDeviceQueueFamilyProperties_fill :
    list event -> Z -> Z -> list VkQueueFamilyProperties.t;
  drv_vkCreateDevice : list event -> Z -> VkDeviceCreateInfo.t -> VkResult * Z;
  (** does the next [malloc] of the given size succeed *)
  drv_malloc : list event -> Z -> bool;
  drv_errno : list event -> Z
}.

(** ** Machine state *)

Inductive cells : Type :=
| Uninit
| PhysDevs (l : list Z)
| QuFams (l : list VkQueueFamilyProperties.t).

Record block : Type := { blk_bytes : Z; blk_cells : cells }.

Record state : Type := {
  trace : list event;
  heap : gmap Z block;
  brk : Z;
  instances : gset Z;
  devices : gset Z
}.

Definition init : state :=
  {| trace := []; heap := ∅; brk := 4096; instances := ∅; devices := ∅ |}.

Definition log (e : event) (s : state) : state :=
  {| trace := trace s ++ [e]; heap := heap s; brk := brk s;
     instances := instances s; devices := devices s |}.
Definition set_heap (h : gmap Z block) (s : state) : state :=
  {| trace := trace s; heap := h; brk := brk s;
     instances := instances s; devices := devices s |}.
Definition set_brk (b : Z) (s : state) : state :=
  {| trace := trace s; heap := heap s; brk := b;
     instances := instances s; devices := devices s |}.
Definition set_instances (i : gset Z) (s : state) : state :=
  {| trace := trace s; heap := heap s; brk := brk s;
     instances := i; devices := devices s |}.
Definition set_devices (d : gset Z) (s : state) : state :=
  {| trace := trace s; heap := heap s; brk := brk s;
     instances := instances s; devices := d |}.

(** ** The monad: state, with a fault for undefined behaviour *)

Inductive result (A : Type) : Type :=
| Done (a : A) (s : state)
| Fault (s : state).
Arguments Done {A} a s.
Arguments Fault {A} s.

Definition M (A : Type) : Type := state -> result A.

Definition ret {A : Type} (a : A) : M A := fun s => Done a s.
Definition bind {A B : Type} (m : M A) (k : A -> M B) : M B :=
  fun s => match m s with
           | Done a s' => k a s'
           | Fault s' => Fault s'
           end.
Definition fault {A : Type} : M A := fun s => Fault s.

Declare Scope prog_scope.
Delimit Scope prog_scope with prog.
Notation "x <- m ;; k" := (bind m (fun x => k))
  (at level 20, m at level 99, k at level 200, only parsing) : prog_scope.
Notation "' p <- m ;; k" := (bind m (fun x => match x with p => k end))
  (at level 20, p pattern, m at level 99, k at level 200, only parsing)
  : prog_scope.
Notation "m ;;; k" := (bind m (fun _ => k))
  (at level 100, k at level 200, right associativity, only parsing)
  : prog_scope.
Open Scope prog_scope.

Definition final_state {A : Type} (r : result A) : state :=
  match r with Done _ s => s | Fault s => s end.
Definition events {A : Type} (r : result A) : list event := trace (final_state r).
Definition value {A : Type} (r : result A) : option A :=
  match r with Done a _ => Some a | Fault _ => None end.

(** [for (i = 0; i < n; i++) body], threading the locals [a] that the
    body updates. *)
Fixpoint for_loop_from {A : Type} (i : Z) (n : nat) (body : Z -> A -> M A) (a : A)
  : M A :=
  match n with
  | O => ret a
  | S n' => a' <- body i a ;; for_loop_from (i + 1) n' body a'
  end.
Definition for_loop {A : Type} (n : Z) (body : Z -> A -> M A) (a : A) : M A :=
  for_loop_from 0 (Z.to_nat n) body a.

Definition when (b : bool) (m : M unit) : M unit := if b then m else ret tt.

(** ** Primitive operations *)

Section Program.

Variable native : Native.

Definition emit (e : event) : M unit := fun s => Done tt (log e s).

Definition printf (fmt : string) (args : list parg) : M unit :=
  emit (EvPrintf fmt args).

Definition errno : M Z := fun s => Done (drv_errno native (trace s)) s.

(** [malloc]: a fresh block, or null when the allocator refuses. *)
Definition malloc (size : Z) : M Z := fun s =>
  if drv_malloc native (trace s) size then
    let p := brk s in
    Done p (log (EvMalloc size p)
             (set_brk (p + Z.max size 1)
               (set_heap (<[p := {| blk_bytes := size; blk_cells := Uninit |}]> (heap s)) s)))
  else Done NULL (log (EvMalloc size NULL) s).

(** [free]: null is accepted; any other pointer must be a live block. *)
Definition free (p : Z) : M unit := fun s =>
  if Z.eqb p NULL then Done tt (log (EvFree p) s)
  else match heap s !! p with
       | Some _ => Done tt (log (EvFree p) (set_heap (delete p (heap s)) s))
       | None => Fault (log (EvFree p) s)
       end.

(** [vkPhysDev[i]] *)
Definition load_VkPhysicalDevice (p i : Z) : M Z := fun s =>
  match heap s !! p with
  | Some {| blk_bytes := _; blk_cells := PhysDevs l |} =>
      match l !! Z.to_nat i with
      | Some d => if Z.leb 0 i then Done d s else Fault s
      | None => Fault s
      end
  | _ => Fault s
  end.

(** [vkQuFamProp[j]] *)
Definition load_VkQueueFamilyProperties (p j : Z) : M VkQueueFamilyProperties.t :=
  fun s =>
  match heap s !! p with
  | Some {| blk_bytes := _; blk_cells := QuFams l |} =>
      match l !! Z.to_nat j with
      | Some q => if Z.leb 0 j then Done q s else Fault s
      | None => Fault s
      end
  | _ => Fault s
  end.

(** Writing [n] elements of [elt] bytes each through [p]. *)
Definition store (p : Z) (elt : Z) (n : nat) (c : cells) : M unit := fun s =>
  match heap s !! p with
  | Some b =>
      if Z.leb (elt * Z.of_nat n) (blk_bytes b)
      then Done tt (set_heap (<[p := {| blk_bytes := blk_bytes b; blk_cells := c |}]> (heap s)) s)
      else Fault s
  | None => if Nat.eqb n 0 then Done tt s else Fault s
  end.

(** [vkCreateInstance(&info, NULL, pInstance)]: the new value of
    [*pInstance] comes with the status.  On failure [*pInstance] is left
    as it was; a null handle names no object. *)
Definition vkCreateInstance (info : VkInstanceCreateInfo.t) (old : Z)
  : M (VkResult * Z) := fun s =>
  let '(res, h) := drv_vkCreateInstance native (trace s) info in
  if Z.eqb res VK_SUCCESS
  then Done (res, h) (log (EvCreateInstance info res h)
                       (if Z.eqb h 0 then s
                        else set_instances ({[h]} ∪ instances s) s))
  else Done (res, old) (log (EvCreateInstance info res old) s).

(** [vkDestroyInstance(instance, NULL)]: a null handle is ignored; any
    other handle must be live and have no live child device. *)
Definition vkDestroyInstance (h : Z) : M unit := fun s =>
  if Z.eqb h 0 then Done tt (log (EvDestroyInstance h) s)
  else if bool_decide (h ∈ instances s) && bool_decide (devices s = ∅)
  then Done tt (log (EvDestroyInstance h) (set_instances (instances s ∖ {[h]}) s))
  else Fault (log (EvDestroyInstance h) s).

(** [vkEnumeratePhysicalDevices(instance, &count, buf)]: returns the
    status and the new value of [count]. *)
Definition vkEnumeratePhysicalDevices (inst count buf : Z) : M (VkResult * Z) :=
  if Z.eqb buf NULL then
    fun s =>
      let '(res, c) := drv_vkEnumeratePhysicalDevices_count native (trace s) inst in
      Done (res, wrap32 c) (log (EvEnumeratePhysicalDevices inst buf count res (wrap32 c)) s)
  else
    fun s =>
      let '(res, l) := drv_vkEnumeratePhysicalDevices_fill native (trace s) inst count in
      let written := take (Z.to_nat count) l in
      let c := Z.of_nat (length written) in
      (store buf sizeof_VkPhysicalDevice (length written) (PhysDevs written) ;;;
       emit (EvEnumeratePhysicalDevices inst buf count res c) ;;;
       ret (res, c)) s.

Definition vkGetPhysicalDeviceProperties (dev : Z) : M VkPhysicalDeviceProperties.t :=
  fun s => Done (drv_vkGetPhysicalDeviceProperties native (trace s) dev)
                (log (EvGetPhysicalDeviceProperties dev) s).

(** [vkGetPhysicalDeviceQueueFamilyProperties(dev, &count, buf)]: no
    status; returns the new value of [count]. *)
Definition vkGetPhysicalDeviceQueueFamilyProperties (dev count buf : Z) : M Z :=
  if Z.eqb buf NULL then
    fun s =>
      let c := wrap32 (drv_vkGetPhysicalDeviceQueueFamilyProperties_count native (trace s) dev) in
      Done c (log (EvGetPhysicalDeviceQueueFamilyProperties dev buf count c) s)
  else
    fun s =>
      let l := drv_vkGetPhysicalDeviceQueueFamilyProperties_fill native (trace s) dev count in
      let written := take (Z.to_nat count) l in
      let c := Z.of_nat (length written) in
      (store buf sizeof_VkQueueFamilyProperties (length written) (QuFams written) ;;;
       emit (EvGetPhysicalDeviceQueueFamilyProperties dev buf count c) ;;;
       ret c) s.

(** [vkCreateDevice(phys, &info, NULL, pDevice)] *)
Definition vkCreateDevice (phys : Z) (info : VkDeviceCreateInfo.t) (old : Z)
  : M (VkResult * Z) := fun s =>
  let '(res, h) := drv_vkCreateDevice native (trace s) phys info in
  if Z.eqb res VK_SUCCESS
  then Done (res, h) (log (EvCreateDevice phys info res h)
                       (if Z.eqb h 0 then s
                        else set_devices ({[h]} ∪ devices s) s))
  else Done (res, old) (log (EvCreateDevice phys info res old) s).

(** [vkDestroyDevice(device, NULL)]: a null handle is ignored. *)
Definition vkDestroyDevice (h : Z) : M unit := fun s =>
  if Z.eqb h 0 then Done tt (log (EvDestroyDevice h) s)
  else if bool_decide (h ∈ devices s)
  then Done tt (log (EvDestroyDevice h) (set_devices (devices s ∖ {[h]}) s))
  else Fault (log (EvDestroyDevice h) s).

(** ** Helpers the tutorials share

    [createInstance], [createPhysicalDevicesArray] and
    [getQueueFamilyProperites] are repeated verbatim in tutorial01,
    tutorial02 and tutorial03 (only [g_appName] differs).  Output
    parameters are returned next to the status. *)

Definition createInstance (g_appName : string) (vkInst : Z) : M (VkResult * Z) :=
  let appInfo := VkApplicationInfo.zero in
  let instInfo := VkInstanceCreateInfo.zero in
  let res := VK_SUCCESS in
  let appInfo := VkApplicationInfo.set_sType VK_STRUCTURE_TYPE_APPLICATION_INFO appInfo in
  let appInfo := VkApplicationInfo.set_pNext NULL appInfo in
  let appInfo := VkApplicationInfo.set_pApplicationName (Some g_appName) appInfo in
  let appInfo := VkApplicationInfo.set_pEngineName None appInfo in
  let appInfo := VkApplicationInfo.set_engineVersion 1 appInfo in
  let appInfo := VkApplicationInfo.set_apiVersion (VK_API_VERSION native) appInfo in
  let instInfo := VkInstanceCreateInfo.set_sType VK_STRUCTURE_TYPE_INSTANCE_CREATE_INFO instInfo in
  let instInfo := VkInstanceCreateInfo.set_pNext NULL instInfo in
  let instInfo := VkInstanceCreateInfo.set_flags 0 instInfo in
  let instInfo := VkInstanceCreateInfo.set_pApplicationInfo (Some appInfo) instInfo in
  let instInfo := VkInstanceCreateInfo.set_enabledLayerCount 0 instInfo in
  let instInfo := VkInstanceCreateInfo.set_ppEnabledLayerNames NULL instInfo in
  let instInfo := VkInstanceCreateInfo.set_enabledExtensionCount 0 instInfo in
  (* the source assigns [enabledExtensionCount] a second time, with NULL *)
  let instInfo := VkInstanceCreateInfo.set_enabledExtensionCount NULL instInfo in
  '(res, vkInst) <- vkCreateInstance instInfo vkInst ;;
  ret (res, vkInst).

Definition createPhysicalDevicesArray (vkInst i_devCount vkPhysDev : Z)
  : M (VkResult * Z * Z) :=
  let res := VK_SUCCESS in
  '(res, i_devCount) <- vkEnumeratePhysicalDevices vkInst i_devCount NULL ;;
  if negb (res =? VK_SUCCESS) then
    printf "Failed to query number of physical devices present: %d\n" [PInt res] ;;;
    ret (res, i_devCount, vkPhysDev)
  else if i_devCount =? 0 then
    printf "Couldn't detect any device present with Vulkan support: %d\n" [PInt res] ;;;
    ret (res, i_devCount, vkPhysDev)
  else
    vkPhysDev <- malloc (wrap_size (sizeof_VkPhysicalDevice * i_devCount)) ;;
    if vkPhysDev =? NULL then
      e <- errno ;;
      printf "Couldn't allocate memory for the physical device array: %d\n" [PInt e] ;;;
      ret (VK_ERROR_OUT_OF_HOST_MEMORY, i_devCount, vkPhysDev)
    else
      '(res, i_devCount) <- vkEnumeratePhysicalDevices vkInst i_devCount vkPhysDev ;;
      if negb (res =? VK_SUCCESS) then
        printf "Failed to enumerate physical devices present: %d\n" [PInt res] ;;;
        ret (res, i_devCount, vkPhysDev)
      else ret (res, i_devCount, vkPhysDev).

Definition getQueueFamilyProperites (vkPhysDev i_Count vkQuFamProps : Z)
  : M (VkResult * Z * Z) :=
  i_Count <- vkGetPhysicalDeviceQueueFamilyProperties vkPhysDev i_Count NULL ;;
  vkQuFamProps <- malloc (wrap_size (sizeof_VkQueueFamilyProperties * i_Count)) ;;
  if vkQuFamProps =? NULL then
    e <- errno ;;
    printf "Couldn't allocate memory for the physical device array: %d\n" [PInt e] ;;;
    ret (VK_ERROR_OUT_OF_HOST_MEMORY, i_Count, vkQuFamProps)
  else
    i_Count <- vkGetPhysicalDeviceQueueFamilyProperties vkPhysDev i_Count vkQuFamProps ;;
    ret (VK_SUCCESS, i_Count, vkQuFamProps).

End Program.

(** ** tutorial00/main.cpp *)

Module Tutorial00.
Section Tutorial00.
Variable native : Native.

Definition g_appName : string := "vulkan-tut00".

Definition main : M Z :=
  let appInfo := VkApplicationInfo.zero in
  let instInfo := VkInstanceCreateInfo.zero in
  let vkInst := 0 (* not initialised; written before it is read *) in
  let res := VK_SUCCESS in
  let appInfo := VkApplicationInfo.set_sType VK_STRUCTURE_TYPE_APPLICATION_INFO appInfo in
  let appInfo := VkApplicationInfo.set_pNext NULL appInfo in
  let appInfo := VkApplicationInfo.set_pApplicationName (Some g_appName) appInfo in
  let appInfo := VkApplicationInfo.set_pEngineName None appInfo in
  let appInfo := VkApplicationInfo.set_engineVersion 1 appInfo in
  let appInfo := VkApplicationInfo.set_apiVersion (VK_API_VERSION native) appInfo in
  let instInfo := VkInstanceCreateInfo.set_sType VK_STRUCTURE_TYPE_INSTANCE_CREATE_INFO instInfo in
  let instInfo := VkInstanceCreateInfo.set_pNext NULL instInfo in
  let instInfo := VkInstanceCreateInfo.set_flags 0 instInfo in
  let instInfo := VkInstanceCreateInfo.set_pApplicationInfo (Some appInfo) instInfo in
  let instInfo := VkInstanceCreateInfo.set_enabledLayerCount 0 instInfo in
  let instInfo := VkInstanceCreateInfo.set_ppEnabledLayerNames NULL instInfo in
  let instInfo := VkInstanceCreateInfo.set_enabledExtensionCount 0 instInfo in
  let instInfo := VkInstanceCreateInfo.set_enabledExtensionCount NULL instInfo in
  '(res, vkInst) <- vkCreateInstance native instInfo vkInst ;;
  if negb (res =? VK_SUCCESS) then
    printf "Failed to create instance: %d\n" [PInt res] ;;;
    ret (-1)
  else
    printf "Instance created successfully\n" [] ;;;
    vkDestroyInstance vkInst ;;;
    printf "Instance destroyed\n" [] ;;;
    ret 0.

End Tutorial00.
End Tutorial00.

(** ** tutorial01/main.cpp *)

Module Tutorial01.
Section Tutorial01.
Variable native : Native.

Definition g_appName : string := "vulkan-tut01".

Definition printPhysicalDevicesProperties (i_devCount vkPhysDev : Z) : M unit :=
  printf " %d physical device(s) found: \n" [PInt i_devCount] ;;;
  for_loop i_devCount (fun i _ =>
    d <- load_VkPhysicalDevice vkPhysDev i ;;
    vkDevProp <- vkGetPhysicalDeviceProperties native d ;;
    printf "\tAPI Version: %d.%d.%d\n"
      [PInt (VK_API_MAJOR_VERSION (VkPhysicalDeviceProperties.apiVersion vkDevProp));
       PInt (VK_API_MINOR_VERSION (VkPhysicalDeviceProperties.apiVersion vkDevProp));
       PInt (VK_API_PATCH_VERSION (VkPhysicalDeviceProperties.apiVersion vkDevProp))] ;;;
    printf "\tDriver Version: %d\n"
      [PInt (VkPhysicalDeviceProperties.driverVersion vkDevProp)] ;;;
    printf "\tDevice Name: %s\n"
      [PStr (VkPhysicalDeviceProperties.deviceName vkDevProp)] ;;;
    printf "\tDevice Type: %d\n"
      [PInt (VkPhysicalDeviceProperties.deviceType vkDevProp)] ;;;
    printf "\n" []) tt.

Definition main : M Z :=
  let vkInst := 0 (* not initialised; written before it is read *) in
  let vkDev := NULL in
  let res := VK_SUCCESS in
  let i_devCount := 0 in
  '(res, vkInst) <- createInstance native g_appName vkInst ;;
  if negb (res =? VK_SUCCESS) then
    printf "Failed to create instance: %d\n" [PInt res] ;;;
    ret (-1)
  else
    '(res, i_devCount, vkDev) <- createPhysicalDevicesArray native vkInst i_devCount vkDev ;;
    if negb (res =? VK_SUCCESS) then
      printf "Failed to create instance: %d\n" [PInt res] ;;;
      ret (-1)
    else
      printPhysicalDevicesProperties i_devCount vkDev ;;;
      when (negb (vkDev =? NULL)) (free vkDev) ;;;
      vkDestroyInstance vkInst ;;;
      ret 0.

End Tutorial01.
End Tutorial01.

(** ** tutorial02/main.cpp *)

Module Tutorial02.
Section Tutorial02.
Variable native : Native.

Definition g_appName : string := "vulkan-tut02".

(** The body of the inner loop; [vkQuFamProp[j]] is read once. *)
Definition printQueueFamily (vkQuFamProp j : Z) : M unit :=
  printf "\t Index: %d\n" [PInt j] ;;;
  q <- load_VkQueueFamilyProperties vkQuFamProp j ;;
  printf "\t Count of Queues: %d\n" [PInt (VkQueueFamilyProperties.queueCount q)] ;;;
  printf "\t Minimum Image Transfer Granularity (Width Height Depth): (%d %d %d)\n"
    [PInt (VkExtent3D.width (VkQueueFamilyProperties.minImageTransferGranularity q));
     PInt (VkExtent3D.height (VkQueueFamilyProperties.minImageTransferGranularity q));
     PInt (VkExtent3D.depth (VkQueueFamilyProperties.minImageTransferGranularity q))] ;;;
  printf "\t Supported operations on this queue:\n" [] ;;;
  when (negb (Z.land (VkQueueFamilyProperties.queueFlags q) VK_QUEUE_GRAPHICS_BIT =? 0))
    (printf "\t\t Graphics\n" []) ;;;
  when (negb (Z.land (VkQueueFamilyProperties.queueFlags q) VK_QUEUE_COMPUTE_BIT =? 0))
    (printf "\t\t Compute\n" []) ;;;
  when (negb (Z.land (VkQueueFamilyProperties.queueFlags q) VK_QUEUE_TRANSFER_BIT =? 0))
    (printf "\t\t Transfer\n" []) ;;;
  when (negb (Z.land (VkQueueFamilyProperties.queueFlags q) VK_QUEUE_SPARSE_BINDING_BIT =? 0))
    (printf "\t\t Sparse Binding\n" []) ;;;
  printf "\n" [].

(** The body of the outer loop; the local [vkQuFamProp] lives across
    iterations. *)
Definition printQueueFamilyInfo_body (vkPhysDev i vkQuFamProp : Z) : M Z :=
  let i_famCount := 0 in
  d <- load_VkPhysicalDevice vkPhysDev i ;;
  vkDevProp <- vkGetPhysicalDeviceProperties native d ;;
  printf " Device Name: %s (Type: %d)\n"
    [PStr (VkPhysicalDeviceProperties.deviceName vkDevProp);
     PInt (VkPhysicalDeviceProperties.deviceType vkDevProp)] ;;;
  d <- load_VkPhysicalDevice vkPhysDev i ;;
  '(res, i_famCount, vkQuFamProp) <-
     getQueueFamilyProperites native d i_famCount vkQuFamProp ;;
  printf " Device Queue Family Count: %d\n" [PInt i_famCount] ;;;
  (if negb (res =? VK_SUCCESS) then
     printf "\tError: Could no get the list of queue families: %d\n" [PInt res]
   else
     for_loop i_famCount (fun j _ => printQueueFamily vkQuFamProp j) tt) ;;;
  if negb (vkQuFamProp =? NULL) then
    free vkQuFamProp ;;;
    ret NULL
  else ret vkQuFamProp.

Definition printQueueFamilyInfo (vkPhysDev i_Count : Z) : M unit :=
  let vkQuFamProp := NULL in
  for_loop i_Count (printQueueFamilyInfo_body vkPhysDev) vkQuFamProp ;;;
  ret tt.

(** The statements from the label [cleanup] to the end of [main]. *)
Definition cleanup (vkPhysDev vkInst : Z) : M Z :=
  when (negb (vkPhysDev =? NULL)) (free vkPhysDev) ;;;
  vkDestroyInstance vkInst ;;;
  printf " Cleanup done.\n" [] ;;;
  ret 0.

Definition main : M Z :=
  let vkInst := 0 in
  let vkPhysDev := NULL in
  let res := VK_SUCCESS in
  let i_devCount := 0 in
  '(res, vkInst) <- createInstance native g_appName vkInst ;;
  if negb (res =? VK_SUCCESS) then
    printf "Failed to create instance: %d\n" [PInt res] ;;;
    ret (-1)
  else
    '(res, i_devCount, vkPhysDev) <-
       createPhysicalDevicesArray native vkInst i_devCount vkPhysDev ;;
    if negb (res =? VK_SUCCESS) then
      printf "Failed to create physical devices list: %d\n" [PInt res] ;;;
      cleanup vkPhysDev vkInst
    else
      printQueueFamilyInfo vkPhysDev i_devCount ;;;
      cleanup vkPhysDev vkInst.

End Tutorial02.
End Tutorial02.

(** ** tutorial03/main.cpp *)

Module Tutorial03.
Section Tutorial03.
Variable native : Native.

Definition g_appName : string := "vulkan-tut03".

(** The statements from the label [cleanup] to the end of [createDevice]. *)
Definition createDevice_cleanup (res : VkResult) (vkQuFamProps vkDev : Z)
  : M (VkResult * Z) :=
  when (negb (vkQuFamProps =? NULL)) (free vkQuFamProps) ;;;
  ret (res, vkDev).

Definition createDevice (vkPhysDev vkDev : Z) : M (VkResult * Z) :=
  let vkDevInfo := VkDeviceCreateInfo.zero in
  let vkQuFamProps := NULL in
  let vkDevQuInfo := VkDeviceQueueCreateInfo.zero in
  let res := VK_SUCCESS in
  let i_quFamCnt := 0 in
  (* binary32 1.0 *)
  let f_quPriority := 0x3F800000 in
  let vkDevInfo := VkDeviceCreateInfo.set_sType VK_STRUCTURE_TYPE_DEVICE_CREATE_INFO vkDevInfo in
  let vkDevInfo := VkDeviceCreateInfo.set_pNext NULL vkDevInfo in
  let vkDevInfo := VkDeviceCreateInfo.set_flags 0 vkDevInfo in
  let vkDevInfo := VkDeviceCreateInfo.set_enabledLayerCount 0 vkDevInfo in
  let vkDevInfo := VkDeviceCreateInfo.set_ppEnabledLayerNames NULL vkDevInfo in
  let vkDevInfo := VkDeviceCreateInfo.set_enabledExtensionCount 0 vkDevInfo in
  let vkDevInfo := VkDeviceCreateInfo.set_ppEnabledExtensionNames NULL vkDevInfo in
  '(res, i_quFamCnt, vkQuFamProps) <-
     getQueueFamilyProperites native vkPhysDev i_quFamCnt vkQuFamProps ;;
  if negb (res =? VK_SUCCESS) then
    createDevice_cleanup res vkQuFamProps vkDev
  else
    let vkDevQuInfo :=
      VkDeviceQueueCreateInfo.set_sType VK_STRUCTURE_TYPE_DEVICE_QUEUE_CREATE_INFO vkDevQuInfo in
    let vkDevQuInfo := VkDeviceQueueCreateInfo.set_pNext NULL vkDevQuInfo in
    let vkDevQuInfo := VkDeviceQueueCreateInfo.set_flags 0 vkDevQuInfo in
    let vkDevQuInfo := VkDeviceQueueCreateInfo.set_queueFamilyIndex 0 vkDevQuInfo in
    let vkDevQuInfo := VkDeviceQueueCreateInfo.set_queueCount 1 vkDevQuInfo in
    let vkDevQuInfo := VkDeviceQueueCreateInfo.set_pQueuePriorities (Some f_quPriority) vkDevQuInfo in
    let vkDevInfo := VkDeviceCreateInfo.set_queueCreateInfoCount 1 vkDevInfo in
    let vkDevInfo := VkDeviceCreateInfo.set_pQueueCreateInfos (Some vkDevQuInfo) vkDevInfo in
    '(res, vkDev) <- vkCreateDevice native vkPhysDev vkDevInfo vkDev ;;
    createDevice_cleanup res vkQuFamProps vkDev.

(** The statements from the label [cleanup] to the end of [main]. *)
Definition cleanup (vkDev vkPhysDev vkInst : Z) : M Z :=
  vkDestroyDevice vkDev ;;;
  when (negb (vkPhysDev =? NULL)) (free vkPhysDev) ;;;
  vkDestroyInstance vkInst ;;;
  printf " Cleanup done.\n" [] ;;;
  ret 0.

Definition main : M Z :=
  let vkInst := 0 in
  let vkPhysDev := NULL in
  let vkDev := 0 in
  let res := VK_SUCCESS in
  let i_devCount := 0 in
  '(res, vkInst) <- createInstance native g_appName vkInst ;;
  if negb (res =? VK_SUCCESS) then
    printf "Failed to create instance: %d\n" [PInt res] ;;;
    ret (-1)
  else
    printf " Instance created.\n" [] ;;;
    '(res, i_devCount, vkPhysDev) <-
       createPhysicalDevicesArray native vkInst i_devCount vkPhysDev ;;
    if negb (res =? VK_SUCCESS) then
      printf "Failed to create physical devices list: %d\n" [PInt res] ;;;
      cleanup vkDev vkPhysDev vkInst
    else
      printf " List of queue families, obtained.\n" [] ;;;
      d <- load_VkPhysicalDevice vkPhysDev 0 ;;
      '(res, vkDev) <- createDevice d vkDev ;;
      if negb (res =? VK_SUCCESS) then
        printf "Failed to create device: %d\n" [PInt res] ;;;
        cleanup vkDev vkPhysDev vkInst
      else
        printf " Logical device created.\n" [] ;;;
        cleanup vkDev vkPhysDev vkInst.

End Tutorial03.
End Tutorial03.

(** ** Sample native layers

    A well-behaved system with one physical device and two queue
    families, and variants of it that fail at one call. *)

Definition family0 : VkQueueFamilyProperties.t :=
  VkQueueFamilyProperties.mk (Z.lor VK_QUEUE_GRAPHICS_BIT VK_QUEUE_COMPUTE_BIT) 1 64
    (VkExtent3D.mk 1 1 1).
Definition family1 : VkQueueFamilyProperties.t :=
  VkQueueFamilyProperties.mk VK_QUEUE_TRANSFER_BIT 2 64 (VkExtent3D.mk 8 8 8).

Definition one_gpu : Native := {|
  VK_API_VERSION := pack_version 1 0 3;
  drv_vkCreateInstance := fun _ _ => (VK_SUCCESS, 100);
  drv_vkEnumeratePhysicalDevices_count := fun _ _ => (VK_SUCCESS, 1);
  drv_vkEnumeratePhysicalDevices_fill := fun _ _ _ => (VK_SUCCESS, [200]);
  drv_vkGetPhysicalDeviceProperties := fun _ _ =>
    VkPhysicalDeviceProperties.mk (pack_version 1 0 3) 7 2 "gpu0";
  drv_vkGetPhysicalDeviceQueueFamilyProperties_count := fun _ _ => 2;
  drv_vkGetPhysicalDeviceQueueFamilyProperties_fill := fun _ _ _ => [family0; family1];
  drv_vkCreateDevice := fun _ _ _ => (VK_SUCCESS, 300);
  drv_malloc := fun _ _ => true;
  drv_errno := fun _ => 12
|}.

Definition with_vkCreateInstance (f : list event -> VkInstanceCreateInfo.t -> VkResult * Z)
  (n : Native) : Native := {|
  VK_API_VERSION := VK_API_VERSION n;
  drv_vkCreateInstance := f;
  drv_vkEnumeratePhysicalDevices_count := drv_vkEnumeratePhysicalDevices_count n;
  drv_vkEnumeratePhysicalDevices_fill := drv_vkEnumeratePhysicalDevices_fill n;
  drv_vkGetPhysicalDeviceProperties := drv_vkGetPhysicalDeviceProperties n;
  drv_vkGetPhysicalDeviceQueueFamilyProperties_count :=
    drv_vkGetPhysicalDeviceQueueFamilyProperties_count n;
  drv_vkGetPhysicalDeviceQueueFamilyProperties_fill :=
    drv_vkGetPhysicalDeviceQueueFamilyProperties_fill n;
  drv_vkCreateDevice := drv_vkCreateDevice n;
  drv_malloc := drv_malloc n;
  drv_errno := drv_errno n
|}.

Definition with_enumerate_count (f : list event -> Z -> VkResult * Z) (n : Native)
  : Native := {|
  VK_API_VERSION := VK_API_VERSION n;
  drv_vkCreateInstance := drv_vkCreateInstance n;
  drv_vkEnumeratePhysicalDevices_count := f;
  drv_vkEnumeratePhysicalDevices_fill := drv_vkEnumeratePhysicalDevices_fill n;
  drv_vkGetPhysicalDeviceProperties := drv_vkGetPhysicalDeviceProperties n;
  drv_vkGetPhysicalDeviceQueueFamilyProperties_count :=
    drv_vkGetPhysicalDeviceQueueFamilyProperties_count n;
  drv_vkGetPhysicalDeviceQueueFamilyProperties_fill :=
    drv_vkGetPhysicalDeviceQueueFamilyProperties_fill n;
  drv_vkCreateDevice := drv_vkCreateDevice n;
  drv_malloc := drv_malloc n;
  drv_errno := drv_errno n
|}.

Definition with_enumerate_fill (f : list event -> Z -> Z -> VkResult * list Z)
  (n : Native) : Native := {|
  VK_API_VERSION := VK_API_VERSION n;
  drv_vkCreateInstance := drv_vkCreateInstance n;
  drv_vkEnumeratePhysicalDevices_count := drv_vkEnumeratePhysicalDevices_count n;
  drv_vkEnumeratePhysicalDevices_fill := f;
  drv_vkGetPhysicalDeviceProperties := drv_vkGetPhysicalDeviceProperties n;
  drv_vkGetPhysicalDeviceQueueFamilyProperties_count :=
    drv_vkGetPhysicalDeviceQueueFamilyProperties_count n;
  drv_vkGetPhysicalDeviceQueueFamilyProperties_fill :=
    drv_vkGetPhysicalDeviceQueueFamilyProperties_fill n;
  drv_vkCreateDevice := drv_vkCreateDevice n;
  drv_malloc := drv_malloc n;
  drv_errno := drv_errno n
|}.

Definition with_queue_families (c : Z) (l : list VkQueueFamilyProperties.t)
  (n : Native) : Native := {|
  VK_API_VERSION := VK_API_VERSION n;
  drv_vkCreateInstance := drv_vkCreateInstance n;
  drv_vkEnumeratePhysicalDevices_count := drv_vkEnumeratePhysicalDevices_count n;
  drv_vkEnumeratePhysicalDevices_fill := drv_vkEnumeratePhysicalDevices_fill n;
  drv_vkGetPhysicalDeviceProperties := drv_vkGetPhysicalDeviceProperties n;
  drv_vkGetPhysicalDeviceQueueFamilyProperties_count := fun _ _ => c;
  drv_vkGetPhysicalDeviceQueueFamilyProperties_fill := fun _ _ _ => l;
  drv_vkCreateDevice := drv_vkCreateDevice n;
  drv_malloc := drv_malloc n;
  drv_errno := drv_errno n
|}.

Definition with_vkCreateDevice (f : list event -> Z -> VkDeviceCreateInfo.t -> VkResult * Z)
  (n : Native) : Native := {|
  VK_API_VERSION := VK_API_VERSION n;
  drv_vkCreateInstance := drv_vkCreateInstance n;
  drv_vkEnumeratePhysicalDevices_count := drv_vkEnumeratePhysicalDevices_count n;
  drv_vkEnumeratePhysicalDevices_fill := drv_vkEnumeratePhysicalDevices_fill n;
  drv_vkGetPhysicalDeviceProperties := drv_vkGetPhysicalDeviceProperties n;
  drv_vkGetPhysicalDeviceQueueFamilyProperties_count :=
    drv_vkGetPhysicalDeviceQueueFamilyProperties_count n;
  drv_vkGetPhysicalDeviceQueueFamilyProperties_fill :=
    drv_vkGetPhysicalDeviceQueueFamilyProperties_fill n;
  drv_vkCreateDevice := f;
  drv_malloc := drv_malloc n;
  drv_errno := drv_errno n
|}.

Definition with_malloc (f : list event -> Z -> bool) (n : Native) : Native := {|
  VK_API_VERSION := VK_API_VERSION n;
  drv_vkCreateInstance := drv_vkCreateInstance n;
  drv_vkEnumeratePhysicalDevices_count := drv_vkEnumeratePhysicalDevices_count n;
  drv_vkEnumeratePhysicalDevices_fill := drv_vkEnumeratePhysicalDevices_fill n;
  drv_vkGetPhysicalDeviceProperties := drv_vkGetPhysicalDeviceProperties n;
  drv_vkGetPhysicalDeviceQueueFamilyProperties_count :=
    drv_vkGetPhysicalDeviceQueueFamilyProperties_count n;
  drv_vkGetPhysicalDeviceQueueFamilyProperties_fill :=
    drv_vkGetPhysicalDeviceQueueFamilyProperties_fill n;
  drv_vkCreateDevice := drv_vkCreateDevice n;
  drv_malloc := f;
  drv_errno := drv_errno n
|}.

(** The instance cannot be created. *)
Definition no_driver : Native :=
  with_vkCreateInstance (fun _ _ => (VK_ERROR_INCOMPATIBLE_DRIVER, 0)) one_gpu.
(** The count-only device query fails. *)
Definition broken_count : Native :=
  with_enumerate_count (fun _ _ => (VK_ERROR_INITIALIZATION_FAILED, 0)) one_gpu.
(** The count-only device query succeeds and reports no device. *)
Definition no_gpu : Native :=
  with_enumerate_count (fun _ _ => (VK_SUCCESS, 0))
    (with_enumerate_fill (fun _ _ _ => (VK_SUCCESS, [])) one_gpu).
(** The second device query fails after the array was allocated. *)
Definition broken_fill : Native :=
  with_enumerate_fill (fun _ _ _ => (VK_ERROR_INITIALIZATION_FAILED, [])) one_gpu.
(** The device reports no queue family. *)
Definition no_family : Native := with_queue_families 0 [] one_gpu.
(** The same, on an allocator whose [malloc(0)] returns null. *)
Definition no_family_null_malloc0 : Native :=
  with_malloc (fun _ size => negb (size =? 0)) no_family.
(** The allocator is exhausted. *)
Definition no_memory : Native := with_malloc (fun _ _ => false) one_gpu.
(** The logical device cannot be created. *)
Definition no_device : Native :=
  with_vkCreateDevice (fun _ _ _ => (VK_ERROR_INITIALIZATION_FAILED, 0)) one_gpu.

(** ** Resources, as read off a trace *)

Inductive resource : Type :=
| RInstance (h : Z)
| RBlock (p : Z)
| RDevice (h : Z).

Definition resource_eqb (a b : resource) : bool :=
  match a, b with
  | RInstance x, RInstance y => x =? y
  | RBlock x, RBlock y => x =? y
  | RDevice x, RDevice y => x =? y
  | _, _ => false
  end.

Definition is_null (r : resource) : bool :=
  match r with RInstance h | RBlock h | RDevice h => h =? 0 end.

(** The resource a call hands to the program, if any. *)
Definition acquired (e : event) : option resource :=
  match e with
  | EvCreateInstance _ res h =>
      if (res =? VK_SUCCESS) && negb (h =? 0) then Some (RInstance h) else None
  | EvCreateDevice _ _ res h =>
      if (res =? VK_SUCCESS) && negb (h =? 0) then Some (RDevice h) else None
  | EvMalloc _ p => if p =? NULL then None else Some (RBlock p)
  | _ => None
  end.

(** The argument of a free or destroy call. *)
Definition release_arg (e : event) : option resource :=
  match e with
  | EvDestroyInstance h => Some (RInstance h)
  | EvDestroyDevice h => Some (RDevice h)
  | EvFree p => Some (RBlock p)
  | _ => None
  end.

(** The resource a call gives back: a free or destroy call on a
    non-null argument. *)
Definition released (e : event) : option resource :=
  match release_arg e with
  | Some r => if is_null r then None else Some r
  | None => None
  end.

Definition is_release_call (e : event) : bool :=
  match release_arg e with Some _ => true | None => false end.

Fixpoint remove_first (r : resource) (st : list resource) : list resource :=
  match st with
  | [] => []
  | x :: st' => if resource_eqb r x then st' else x :: remove_first r st'
  end.

(** The resources held, most recently acquired first. *)
Definition track (st : list resource) (e : event) : list resource :=
  match acquired e with
  | Some r => r :: st
  | None =>
      match released e with
      | Some r => remove_first r st
      | None => st
      end
  end.
Definition live_from (st : list resource) (t : list event) : list resource :=
  fold_left track t st.
Definition live (t : list event) : list resource := live_from [] t.

(** No free or destroy call is made on a null argument: what a null
    check in front of each such call ensures. *)
Definition null_guarded (t : list event) : bool :=
  forallb (fun e => match release_arg e with
                    | Some r => negb (is_null r)
                    | None => true
                    end) t.

(** Every free comes before every device destruction. *)
Definition frees_precede_device_destroy (t : list event) : Prop :=
  forall (i j : nat) (p d : Z),
    t !! i = Some (EvFree p) -> t !! j = Some (EvDestroyDevice d) -> (i < j)%nat.

(** An event with no bearing on resources. *)
Definition inert (e : event) : bool :=
  match acquired e, release_arg e with
  | None, None => true
  | _, _ => false
  end.

(** The free and destroy calls at the end of [t] (all of them: what
    precedes is no such call) have given back, the most recently
    acquired first, the resources that were held on top of [l]. *)
Definition lifo_tail (t : list event) (l : list resource) : Prop :=
  exists pre td : list event,
    t = pre ++ td /\
    (forall e, last pre = Some e -> is_release_call e = false) /\
    Forall (fun e => is_release_call e = true) td /\
    live pre = omap released td ++ l.

(** A completed teardown: the trace ends with a block of free and
    destroy calls followed by the closing message; the block gives back
    exactly the resources held when it starts, the most recently
    acquired first. *)
Definition reverse_order_teardown (t : list event) : Prop :=
  exists pre td : list event,
    t = pre ++ td ++ [EvPrintf " Cleanup done.\n" []] /\
    (forall e, last pre = Some e -> is_release_call e = false) /\
    Forall (fun e => is_release_call e = true) td /\
    omap released td = live pre.

(** Following the stack of held resources along a trace, together
    with a flag: whether the free and destroy calls since the last
    other event have all taken the top of the stack. *)
Definition tail_step (st : list resource * bool) (e : event) : list resource * bool :=
  let '(l, ok) := st in
  if is_release_call e then
    match released e with
    | None => (l, ok)
    | Some r =>
        match l with
        | x :: l' =>
            if ok && resource_eqb r x then (l', true) else (remove_first r l, false)
        | [] => ([], false)
        end
    end
  else (track l e, true).
Definition tail_run (ev : list event) (st : list resource * bool) : list resource * bool :=
  fold_left tail_step ev st.

(** What [tail_run] computes of a trace. *)
Definition tracked (t : list event) (st : list resource * bool) : Prop :=
  live t = fst st /\ (snd st = true -> lifo_tail t (fst st)).

(** The state with more events on its trace. *)
Definition extend (ev : list event) (s : state) : state :=
  {| trace := trace s ++ ev; heap := heap s; brk := brk s;
     instances := instances s; devices := devices s |}.

(** Neither layers nor extensions are requested by a creation call. *)
Definition nothing_enabled (e : event) : Prop :=
  match e with
  | EvCreateInstance info _ _ =>
      VkInstanceCreateInfo.enabledLayerCount info = 0 /\
      VkInstanceCreateInfo.ppEnabledLayerNames info = NULL /\
      VkInstanceCreateInfo.enabledExtensionCount info = 0 /\
      VkInstanceCreateInfo.ppEnabledExtensionNames info = NULL
  | EvCreateDevice _ info _ _ =>
      VkDeviceCreateInfo.enabledLayerCount info = 0 /\
      VkDeviceCreateInfo.ppEnabledLayerNames info = NULL /\
      VkDeviceCreateInfo.enabledExtensionCount info = 0 /\
      VkDeviceCreateInfo.ppEnabledExtensionNames info = NULL
  | _ => True
  end.

(** Nothing is held any more. *)
Definition all_released (s : state) : Prop :=
  heap s = ∅ /\ instances s = ∅ /\ devices s = ∅.

(** The allocator's invariant: blocks lie below the break. *)
Definition wf (s : state) : Prop :=
  0 < brk s /\ forall p b, heap s !! p = Some b -> 0 < p < brk s.

(** ** Names for what the first query of an enumeration yields *)

(** The count the first queue-family query leaves in [*i_Count]. *)
Definition reported_families (native : Native) (vkPhysDev : Z) (s : state) : Z :=
  wrap32 (drv_vkGetPhysicalDeviceQueueFamilyProperties_count native (trace s) vkPhysDev).

Definition count_query (native : Native) (vkPhysDev i_Count : Z) (s : state) : event :=
  EvGetPhysicalDeviceQueueFamilyProperties vkPhysDev NULL i_Count
    (reported_families native vkPhysDev s).

(** A computation keeps a property of the events of the trace, on
    every path, faulting ones included. *)
Definition preserves {A : Type} (P : event -> Prop) (m : M A) : Prop :=
  forall s, Forall P (trace s) -> Forall P (trace (final_state (m s))).

(** What the locals of [main] stand for at the cleanup label. *)
Definition held_instance (h : Z) : list resource :=
  if h =? 0 then [] else [RInstance h].
Definition held_block (p : Z) : list resource :=
  if p =? NULL then [] else [RBlock p].
Definition held_device (h : Z) : list resource :=
  if h =? 0 then [] else [RDevice h].

(** ** What the printers write *)

(** The calls of one iteration of [printPhysicalDevicesProperties]. *)
Definition device_report (d : Z) (vkDevProp : VkPhysicalDeviceProperties.t) : list event :=
  [EvGetPhysicalDeviceProperties d;
   EvPrintf "\tAPI Version: %d.%d.%d\n"
     [PInt (VK_API_MAJOR_VERSION (VkPhysicalDeviceProperties.apiVersion vkDevProp));
      PInt (VK_API_MINOR_VERSION (VkPhysicalDeviceProperties.apiVersion vkDevProp));
      PInt (VK_API_PATCH_VERSION (VkPhysicalDeviceProperties.apiVersion vkDevProp))];
   EvPrintf "\tDriver Version: %d\n"
     [PInt (VkPhysicalDeviceProperties.driverVersion vkDevProp)];
   EvPrintf "\tDevice Name: %s\n"
     [PStr (VkPhysicalDeviceProperties.deviceName vkDevProp)];
   EvPrintf "\tDevice Type: %d\n"
     [PInt (VkPhysicalDeviceProperties.deviceType vkDevProp)];
   EvPrintf "\n" []].

(** The physical devices whose properties a trace asks for, in order. *)
Definition device_queries (t : list event) : list Z :=
  omap (fun e => match e with
                 | EvGetPhysicalDeviceProperties d => Some d
                 | _ => None
                 end) t.

(** The line of one capability, written when its bit is set. *)
Definition capability_line (flags bit : Z) (line : string) : list event :=
  if negb (Z.land flags bit =? 0) then [EvPrintf line []] else [].

(** The calls of one iteration of the inner loop of
    [printQueueFamilyInfo]. *)
Definition family_report (j : Z) (q : VkQueueFamilyProperties.t) : list event :=
  [EvPrintf "\t Index: %d\n" [PInt j];
   EvPrintf "\t Count of Queues: %d\n" [PInt (VkQueueFamilyProperties.queueCount q)];
   EvPrintf "\t Minimum Image Transfer Granularity (Width Height Depth): (%d %d %d)\n"
     [PInt (VkExtent3D.width (VkQueueFamilyProperties.minImageTransferGranularity q));
      PInt (VkExtent3D.height (VkQueueFamilyProperties.minImageTransferGranularity q));
      PInt (VkExtent3D.depth (VkQueueFamilyProperties.minImageTransferGranularity q))];
   EvPrintf "\t Supported operations on this queue:\n" []] ++
  capability_line (VkQueueFamilyProperties.queueFlags q) VK_QUEUE_GRAPHICS_BIT
    "\t\t Graphics\n" ++
  capability_line (VkQueueFamilyProperties.queueFlags q) VK_QUEUE_COMPUTE_BIT
    "\t\t Compute\n" ++
  capability_line (VkQueueFamilyProperties.queueFlags q) VK_QUEUE_TRANSFER_BIT
    "\t\t Transfer\n" ++
  capability_line (VkQueueFamilyProperties.queueFlags q) VK_QUEUE_SPARSE_BINDING_BIT
    "\t\t Sparse Binding\n" ++
  [EvPrintf "\n" []].

(** The logical-device creation calls of a trace. *)
Definition device_requests (t : list event) : list VkDeviceCreateInfo.t :=
  omap (fun e => match e with
                 | EvCreateDevice _ info _ _ => Some info
                 | _ => None
                 end) t.

Definition is_print (e : event) : bool :=
  match e with EvPrintf _ _ => true | _ => false end.

(** The pointers [malloc] returned along a trace, and the pointers
    handed to [free]. *)
Definition allocations (t : list event) : list Z :=
  omap (fun e => match e with EvMalloc _ p => Some p | _ => None end) t.
Definition frees (t : list event) : list Z :=
  omap (fun e => match e with EvFree p => Some p | _ => None end) t.

(** * Properties *)

(** ** Arithmetic *)

Lemma testbit_small (a n k : Z) :
  0 <= a < 2 ^ k -> 0 <= k <= n -> Z.testbit a n = false.
Proof.
  intros Ha Hk.
  destruct (Z.eq_dec a 0) as [->|Hne]; [apply Z.bits_0|].
  apply Z.bits_above_log2; [lia|].
  assert (Z.log2 a < k) by (apply Z.log2_lt_pow2; lia).
  lia.
Qed.

Lemma pack_version_no_wrap (major minor patch : Z) :
  0 <= major < 2 ^ 10 -> 0 <= minor < 2 ^ 10 -> 0 <= patch < 2 ^ 12 ->
  pack_version major minor patch =
  Z.lor (Z.lor (Z.shiftl major 22) (Z.shiftl minor 12)) patch.
Proof.
  intros HM Hm Hp. unfold pack_version, wrap32.
  rewrite <- Z.land_ones by lia.
  apply Z.bits_inj'. intros n Hn.
  rewrite Z.land_spec, !Z.lor_spec, !Z.shiftl_spec by lia.
  destruct (Z_lt_le_dec n 32) as [Hlt|Hge].
  - rewrite Z.ones_spec_low by lia. now rewrite andb_true_r.
  - rewrite Z.ones_spec_high by lia. rewrite andb_false_r.
    rewrite (testbit_small major (n - 22) 10) by lia.
    rewrite (testbit_small minor (n - 12) 10) by lia.
    rewrite (testbit_small patch n 12) by lia.
    reflexivity.
Qed.

Lemma wrap32_range (x : Z) : 0 <= wrap32 x < 2 ^ 32.
Proof. unfold wrap32. apply Z.mod_pos_bound. lia. Qed.

Lemma wrap_size_array (elt n : Z) :
  0 <= elt <= 2 ^ 31 -> 0 <= n < 2 ^ 32 -> wrap_size (elt * n) = elt * n.
Proof.
  intros He Hn. unfold wrap_size. apply Z.mod_small. nia.
Qed.

(** C8: for major, minor below 2^10 and patch below 2^12 the three
    decomposition macros applied to the packed 32-bit value
    [(major<<22)|(minor<<12)|patch] give back (major, minor, patch). *)
Theorem version_macros_roundtrip (major minor patch : Z) :
  0 <= major < 2 ^ 10 -> 0 <= minor < 2 ^ 10 -> 0 <= patch < 2 ^ 12 ->
  VK_API_MAJOR_VERSION (pack_version major minor patch) = major /\
  VK_API_MINOR_VERSION (pack_version major minor patch) = minor /\
  VK_API_PATCH_VERSION (pack_version major minor patch) = patch.
Proof.
  intros HM Hm Hp.
  rewrite pack_version_no_wrap by assumption.
  unfold VK_API_MAJOR_VERSION, VK_API_MINOR_VERSION, VK_API_PATCH_VERSION.
  change 0x3FF with (Z.ones 10). change 0xFFF with (Z.ones 12).
  repeat split; apply Z.bits_inj'; intros n Hn;
    rewrite Z.land_spec, ?Z.shiftr_spec, !Z.lor_spec, !Z.shiftl_spec by lia.
  - destruct (Z_lt_le_dec n 10).
    + rewrite Z.ones_spec_low, andb_true_r by lia.
      replace (n + 22 - 22) with n by lia.
      rewrite (testbit_small minor (n + 22 - 12) 10) by lia.
      rewrite (testbit_small patch (n + 22) 12) by lia.
      now rewrite !orb_false_r.
    + rewrite Z.ones_spec_high, andb_false_r by lia.
      symmetry. apply (testbit_small major n 10); lia.
  - destruct (Z_lt_le_dec n 10).
    + rewrite Z.ones_spec_low, andb_true_r by lia.
      replace (n + 12 - 12) with n by lia.
      rewrite (Z.testbit_neg_r major (n + 12 - 22)) by lia.
      rewrite (testbit_small patch (n + 12) 12) by lia.
      now rewrite orb_false_r.
    + rewrite Z.ones_spec_high, andb_false_r by lia.
      symmetry. apply (testbit_small minor n 10); lia.
  - destruct (Z_lt_le_dec n 12).
    + rewrite Z.ones_spec_low, andb_true_r by lia.
      rewrite (Z.testbit_neg_r major (n - 22)) by lia.
      rewrite (Z.testbit_neg_r minor (n - 12)) by lia.
      reflexivity.
    + rewrite Z.ones_spec_high, andb_false_r by lia.
      symmetry. apply (testbit_small patch n 12); lia.
Qed.

(** The boundary values: the largest major, minor and patch. *)
Lemma version_macros_roundtrip_max :
  VK_API_MAJOR_VERSION (pack_version 1023 1023 4095) = 1023 /\
  VK_API_MINOR_VERSION (pack_version 1023 1023 4095) = 1023 /\
  VK_API_PATCH_VERSION (pack_version 1023 1023 4095) = 4095.
Proof. apply (version_macros_roundtrip 1023 1023 4095); lia. Defined.

Example version_zero :
  pack_version 0 0 0 = 0 /\
  VK_API_MAJOR_VERSION 0 = 0 /\ VK_API_MINOR_VERSION 0 = 0 /\ VK_API_PATCH_VERSION 0 = 0.
Proof. repeat split. Qed.

Example version_1_0_3 :
  VK_API_MAJOR_VERSION 0x400003 = 1 /\
  VK_API_MINOR_VERSION 0x400003 = 0 /\
  VK_API_PATCH_VERSION 0x400003 = 3.
Proof. repeat split. Qed.

(** ** The primitives, one call at a time *)

Section Primitives.

Variable native : Native.

Lemma bind_Done {A B : Type} (m : M A) (k : A -> M B) (s s' : state) (a : A) :
  m s = Done a s' -> bind m k s = k a s'.
Proof. intros H. unfold bind. now rewrite H. Qed.

Lemma bind_Fault {A B : Type} (m : M A) (k : A -> M B) (s s' : state) :
  m s = Fault s' -> bind m k s = Fault s'.
Proof. intros H. unfold bind. now rewrite H. Qed.

Lemma malloc_succeeds (size : Z) (s : state) :
  drv_malloc native (trace s) size = true ->
  malloc native size s =
  Done (brk s)
    (log (EvMalloc size (brk s))
      (set_brk (brk s + Z.max size 1)
        (set_heap (<[brk s := {| blk_bytes := size; blk_cells := Uninit |}]> (heap s)) s))).
Proof. intros H. unfold malloc. now rewrite H. Qed.

Lemma malloc_fails (size : Z) (s : state) :
  drv_malloc native (trace s) size = false ->
  malloc native size s = Done NULL (log (EvMalloc size NULL) s).
Proof. intros H. unfold malloc. now rewrite H. Qed.

Lemma store_live (p elt : Z) (n : nat) (c : cells) (b : block) (s : state) :
  heap s !! p = Some b -> elt * Z.of_nat n <= blk_bytes b ->
  store p elt n c s =
  Done tt (set_heap (<[p := {| blk_bytes := blk_bytes b; blk_cells := c |}]> (heap s)) s).
Proof.
  intros Hp Hle. unfold store. rewrite Hp.
  destruct (Z.leb_spec (elt * Z.of_nat n) (blk_bytes b)); [reflexivity | lia].
Qed.

Lemma free_live (p : Z) (b : block) (s : state) :
  p <> NULL -> heap s !! p = Some b ->
  free p s = Done tt (log (EvFree p) (set_heap (delete p (heap s)) s)).
Proof.
  intros Hp Hb. unfold free.
  destruct (Z.eqb_spec p NULL); [contradiction|]. now rewrite Hb.
Qed.

Lemma length_take_le {A : Type} (n : nat) (l : list A) : (length (take n l) <= n)%nat.
Proof. rewrite length_take. lia. Qed.

End Primitives.
(** ** getQueueFamilyProperites *)

Section QueueFamilies.

Variable native : Native.

Lemma printf_run (fmt : string) (args : list parg) (s : state) :
  printf fmt args s = Done tt (log (EvPrintf fmt args) s).
Proof. reflexivity. Qed.

Lemma errno_run (s : state) : errno native s = Done (drv_errno native (trace s)) s.
Proof. reflexivity. Qed.

Lemma family_count_run (vkPhysDev i_Count : Z) (s : state) :
  vkGetPhysicalDeviceQueueFamilyProperties native vkPhysDev i_Count NULL s =
  Done (reported_families native vkPhysDev s) (log (count_query native vkPhysDev i_Count s) s).
Proof. reflexivity. Qed.

Lemma family_fill_run (vkPhysDev cap buf : Z) (b : block) (s : state) :
  let written :=
    take (Z.to_nat cap)
      (drv_vkGetPhysicalDeviceQueueFamilyProperties_fill native (trace s) vkPhysDev cap) in
  let c' := Z.of_nat (length written) in
  buf <> NULL -> heap s !! buf = Some b ->
  0 <= cap -> sizeof_VkQueueFamilyProperties * cap <= blk_bytes b ->
  vkGetPhysicalDeviceQueueFamilyProperties native vkPhysDev cap buf s =
  Done c'
    (log (EvGetPhysicalDeviceQueueFamilyProperties vkPhysDev buf cap c')
      (set_heap (<[buf := {| blk_bytes := blk_bytes b; blk_cells := QuFams written |}]> (heap s)) s)).
Proof.
  intros written c' Hbuf Hb Hcap Hsz.
  unfold vkGetPhysicalDeviceQueueFamilyProperties.
  destruct (Z.eqb_spec buf NULL); [contradiction|].
  fold written.
  erewrite bind_Done; cycle 1.
  { apply (store_live _ _ _ _ b); [exact Hb|].
    pose proof (length_take_le (Z.to_nat cap)
      (drv_vkGetPhysicalDeviceQueueFamilyProperties_fill native (trace s) vkPhysDev cap)) as Hlen.
    fold written in Hlen. unfold sizeof_VkQueueFamilyProperties in *. lia. }
  reflexivity.
Qed.

(** The size handed to [malloc] is the element size times the count:
    the product does not wrap. *)
Lemma family_array_bytes (vkPhysDev : Z) (s : state) :
  wrap_size (sizeof_VkQueueFamilyProperties * reported_families native vkPhysDev s) =
  sizeof_VkQueueFamilyProperties * reported_families native vkPhysDev s.
Proof.
  apply wrap_size_array; [unfold sizeof_VkQueueFamilyProperties; lia|].
  apply wrap32_range.
Qed.

(** When the allocator refuses: the error branch. *)
Lemma getQueueFamilyProperites_no_memory (vkPhysDev i_Count vkQuFamProps : Z) (s : state) :
  let c := reported_families native vkPhysDev s in
  let q1 := count_query native vkPhysDev i_Count s in
  let size := sizeof_VkQueueFamilyProperties * c in
  drv_malloc native (trace s ++ [q1]) size = false ->
  getQueueFamilyProperites native vkPhysDev i_Count vkQuFamProps s =
  Done (VK_ERROR_OUT_OF_HOST_MEMORY, c, NULL)
    (log (EvPrintf "Couldn't allocate memory for the physical device array: %d\n"
            [PInt (drv_errno native (trace s ++ [q1; EvMalloc size NULL]))])
      (log (EvMalloc size NULL) (log q1 s))).
Proof.
  intros c q1 size Hm.
  unfold getQueueFamilyProperites.
  erewrite bind_Done by apply family_count_run.
  rewrite family_array_bytes. fold c size q1.
  erewrite bind_Done by (apply malloc_fails; exact Hm).
  rewrite Z.eqb_refl.
  erewrite bind_Done by apply errno_run.
  erewrite bind_Done by apply printf_run.
  cbn [trace log]. rewrite <- app_assoc. reflexivity.
Qed.

(** When the allocator grants the block: the second query fills it and
    the function reports success. *)
Lemma getQueueFamilyProperites_memory (vkPhysDev i_Count vkQuFamProps : Z) (s : state) :
  let c := reported_families native vkPhysDev s in
  let q1 := count_query native vkPhysDev i_Count s in
  let size := sizeof_VkQueueFamilyProperties * c in
  let q := brk s in
  let written :=
    take (Z.to_nat c)
      (drv_vkGetPhysicalDeviceQueueFamilyProperties_fill native
         (trace s ++ [q1; EvMalloc size q]) vkPhysDev c) in
  let c' := Z.of_nat (length written) in
  0 < brk s ->
  drv_malloc native (trace s ++ [q1]) size = true ->
  getQueueFamilyProperites native vkPhysDev i_Count vkQuFamProps s =
  Done (VK_SUCCESS, c', q)
    (log (EvGetPhysicalDeviceQueueFamilyProperties vkPhysDev q c c')
      (set_heap (<[q := {| blk_bytes := size; blk_cells := QuFams written |}]> (heap s))
        (log (EvMalloc size q) (set_brk (q + Z.max size 1) (log q1 s))))).
Proof.
  intros c q1 size q written c' Hbrk Hm.
  unfold getQueueFamilyProperites.
  erewrite bind_Done by apply family_count_run.
  rewrite family_array_bytes. fold c size q1.
  erewrite bind_Done by (apply malloc_succeeds; exact Hm).
  cbn [brk log]. fold q.
  destruct (Z.eqb_spec q NULL) as [E|Hq]; [unfold q, NULL in E; lia|].
  erewrite bind_Done; cycle 1.
  { eapply family_fill_run; [exact Hq | apply lookup_insert_eq | |].
    - apply wrap32_range.
    - cbn [blk_bytes]. fold c size. lia. }
  cbn [trace log set_brk set_heap heap blk_bytes brk instances devices].
  rewrite <- app_assoc. cbn [app]. fold written c'.
  rewrite insert_insert_eq. reflexivity.
Qed.

End QueueFamilies.
(** ** createPhysicalDevicesArray *)

Section PhysicalDevices.

Variable native : Native.

Lemma device_count_run (vkInst i_devCount : Z) (s : state) (res : VkResult) (c : Z) :
  drv_vkEnumeratePhysicalDevices_count native (trace s) vkInst = (res, c) ->
  vkEnumeratePhysicalDevices native vkInst i_devCount NULL s =
  Done (res, wrap32 c)
    (log (EvEnumeratePhysicalDevices vkInst NULL i_devCount res (wrap32 c)) s).
Proof.
  intros H. unfold vkEnumeratePhysicalDevices. rewrite Z.eqb_refl, H. reflexivity.
Qed.

Lemma device_fill_run (vkInst cap buf : Z) (b : block) (s : state)
      (res : VkResult) (l : list Z) :
  let written := take (Z.to_nat cap) l in
  let c' := Z.of_nat (length written) in
  drv_vkEnumeratePhysicalDevices_fill native (trace s) vkInst cap = (res, l) ->
  buf <> NULL -> heap s !! buf = Some b ->
  0 <= cap -> sizeof_VkPhysicalDevice * cap <= blk_bytes b ->
  vkEnumeratePhysicalDevices native vkInst cap buf s =
  Done (res, c')
    (log (EvEnumeratePhysicalDevices vkInst buf cap res c')
      (set_heap (<[buf := {| blk_bytes := blk_bytes b; blk_cells := PhysDevs written |}]> (heap s)) s)).
Proof.
  intros written c' Hd Hbuf Hb Hcap Hsz.
  unfold vkEnumeratePhysicalDevices.
  destruct (Z.eqb_spec buf NULL); [contradiction|].
  rewrite Hd. fold written.
  erewrite bind_Done; cycle 1.
  { apply (store_live _ _ _ _ b); [exact Hb|].
    pose proof (length_take_le (Z.to_nat cap) l) as Hlen.
    fold written in Hlen. unfold sizeof_VkPhysicalDevice in *. lia. }
  reflexivity.
Qed.

(** The first query fails: its status is handed back. *)
Lemma createPhysicalDevicesArray_count_fails
      (vkInst i_devCount vkPhysDev : Z) (s : state) (res : VkResult) (c : Z) :
  drv_vkEnumeratePhysicalDevices_count native (trace s) vkInst = (res, c) ->
  res <> VK_SUCCESS ->
  createPhysicalDevicesArray native vkInst i_devCount vkPhysDev s =
  Done (res, wrap32 c, vkPhysDev)
    (log (EvPrintf "Failed to query number of physical devices present: %d\n" [PInt res])
      (log (EvEnumeratePhysicalDevices vkInst NULL i_devCount res (wrap32 c)) s)).
Proof.
  intros Hd Hres. unfold createPhysicalDevicesArray.
  erewrite bind_Done by (apply device_count_run; exact Hd). cbv beta iota.
  destruct (Z.eqb_spec res VK_SUCCESS); [contradiction|]. reflexivity.
Qed.

(** The first query succeeds and reports no device. *)
Lemma createPhysicalDevicesArray_no_device
      (vkInst i_devCount vkPhysDev : Z) (s : state) (c : Z) :
  drv_vkEnumeratePhysicalDevices_count native (trace s) vkInst = (VK_SUCCESS, c) ->
  wrap32 c = 0 ->
  createPhysicalDevicesArray native vkInst i_devCount vkPhysDev s =
  Done (VK_SUCCESS, 0, vkPhysDev)
    (log (EvPrintf "Couldn't detect any device present with Vulkan support: %d\n"
            [PInt VK_SUCCESS])
      (log (EvEnumeratePhysicalDevices vkInst NULL i_devCount VK_SUCCESS 0) s)).
Proof.
  intros Hd Hc. unfold createPhysicalDevicesArray.
  erewrite bind_Done by (apply device_count_run; exact Hd). cbv beta iota.
  rewrite Hc. reflexivity.
Qed.

Lemma device_array_bytes (c : Z) :
  wrap_size (sizeof_VkPhysicalDevice * wrap32 c) = sizeof_VkPhysicalDevice * wrap32 c.
Proof.
  apply wrap_size_array; [unfold sizeof_VkPhysicalDevice; lia|].
  apply wrap32_range.
Qed.

(** Devices are reported and the allocator refuses. *)
Lemma createPhysicalDevicesArray_no_memory
      (vkInst i_devCount vkPhysDev : Z) (s : state) (c : Z) :
  let q1 := EvEnumeratePhysicalDevices vkInst NULL i_devCount VK_SUCCESS (wrap32 c) in
  let size := sizeof_VkPhysicalDevice * wrap32 c in
  drv_vkEnumeratePhysicalDevices_count native (trace s) vkInst = (VK_SUCCESS, c) ->
  wrap32 c <> 0 ->
  drv_malloc native (trace s ++ [q1]) size = false ->
  createPhysicalDevicesArray native vkInst i_devCount vkPhysDev s =
  Done (VK_ERROR_OUT_OF_HOST_MEMORY, wrap32 c, NULL)
    (log (EvPrintf "Couldn't allocate memory for the physical device array: %d\n"
            [PInt (drv_errno native (trace s ++ [q1; EvMalloc size NULL]))])
      (log (EvMalloc size NULL) (log q1 s))).
Proof.
  intros q1 size Hd Hc Hm. unfold createPhysicalDevicesArray.
  erewrite bind_Done by (apply device_count_run; exact Hd). cbv beta iota.
  rewrite Z.eqb_refl. cbn [negb].
  destruct (Z.eqb_spec (wrap32 c) 0); [contradiction|].
  rewrite device_array_bytes. fold size q1.
  erewrite bind_Done by (apply malloc_fails; exact Hm).
  rewrite Z.eqb_refl.
  erewrite bind_Done by apply errno_run.
  erewrite bind_Done by apply printf_run.
  cbn [trace log]. rewrite <- app_assoc. reflexivity.
Qed.

(** Devices are reported and the array is allocated: the second query
    fills it, and its status is handed back. *)
Lemma createPhysicalDevicesArray_memory
      (vkInst i_devCount vkPhysDev : Z) (s : state) (c : Z) (res : VkResult) (l : list Z) :
  let q1 := EvEnumeratePhysicalDevices vkInst NULL i_devCount VK_SUCCESS (wrap32 c) in
  let size := sizeof_VkPhysicalDevice * wrap32 c in
  let p := brk s in
  let written := take (Z.to_nat (wrap32 c)) l in
  let c' := Z.of_nat (length written) in
  let filled :=
    log (EvEnumeratePhysicalDevices vkInst p (wrap32 c) res c')
      (set_heap (<[p := {| blk_bytes := size; blk_cells := PhysDevs written |}]> (heap s))
        (log (EvMalloc size p) (set_brk (p + Z.max size 1) (log q1 s)))) in
  0 < brk s ->
  drv_vkEnumeratePhysicalDevices_count native (trace s) vkInst = (VK_SUCCESS, c) ->
  wrap32 c <> 0 ->
  drv_malloc native (trace s ++ [q1]) size = true ->
  drv_vkEnumeratePhysicalDevices_fill native (trace s ++ [q1; EvMalloc size p]) vkInst (wrap32 c)
    = (res, l) ->
  createPhysicalDevicesArray native vkInst i_devCount vkPhysDev s =
  Done (res, c', p)
    (if res =? VK_SUCCESS then filled
     else log (EvPrintf "Failed to enumerate physical devices present: %d\n" [PInt res]) filled).
Proof.
  intros q1 size p written c' filled Hbrk Hd Hc Hm Hf. unfold createPhysicalDevicesArray.
  erewrite bind_Done by (apply device_count_run; exact Hd). cbv beta iota.
  rewrite Z.eqb_refl. cbn [negb].
  destruct (Z.eqb_spec (wrap32 c) 0); [contradiction|].
  rewrite device_array_bytes. fold size q1.
  erewrite bind_Done by (apply malloc_succeeds; exact Hm).
  cbn [brk log]. fold p.
  destruct (Z.eqb_spec p NULL) as [E|Hp]; [unfold p, NULL in E; lia|].
  erewrite bind_Done; cycle 1.
  { eapply device_fill_run; [| exact Hp | apply lookup_insert_eq | |].
    - cbn [trace log set_brk set_heap]. rewrite <- app_assoc. exact Hf.
    - apply wrap32_range.
    - cbn [blk_bytes]. fold size. lia. }
  cbv beta iota.
  cbn [trace log set_brk set_heap heap blk_bytes brk instances devices].
  fold written c'. rewrite insert_insert_eq. fold filled.
  destruct (Z.eqb_spec res VK_SUCCESS); reflexivity.
Qed.

End PhysicalDevices.
(** ** Statements about the two enumerators *)

(** C3: when the count-only query of [createPhysicalDevicesArray]
    succeeds and reports zero devices, the function logs the error
    message and returns the success code of that query, without
    allocating: the status is the one a successful enumeration has. *)
Theorem zero_devices_logged_but_success
    (native : Native) (vkInst i_devCount vkPhysDev c : Z) (s : state) :
  drv_vkEnumeratePhysicalDevices_count native (trace s) vkInst = (VK_SUCCESS, c) ->
  wrap32 c = 0 ->
  exists s',
    createPhysicalDevicesArray native vkInst i_devCount vkPhysDev s =
      Done (VK_SUCCESS, 0, vkPhysDev) s' /\
    trace s' = trace s ++
      [EvEnumeratePhysicalDevices vkInst NULL i_devCount VK_SUCCESS 0;
       EvPrintf "Couldn't detect any device present with Vulkan support: %d\n"
         [PInt VK_SUCCESS]] /\
    heap s' = heap s.
Proof.
  intros Hd Hc. eexists. split.
  - apply createPhysicalDevicesArray_no_device with (c := c); assumption.
  - cbn [trace heap log]. rewrite <- app_assoc. split; reflexivity.
Qed.

Lemma zero_devices_logged_but_success_no_gpu :
  drv_vkEnumeratePhysicalDevices_count no_gpu (trace init) 100 = (VK_SUCCESS, 0) /\
  wrap32 0 = 0 /\
  exists s',
    createPhysicalDevicesArray no_gpu 100 0 NULL init = Done (VK_SUCCESS, 0, NULL) s' /\
    trace s' = trace init ++
      [EvEnumeratePhysicalDevices 100 NULL 0 VK_SUCCESS 0;
       EvPrintf "Couldn't detect any device present with Vulkan support: %d\n"
         [PInt VK_SUCCESS]] /\
    heap s' = heap init.
Proof.
  split; [reflexivity|]. split; [reflexivity|].
  apply (zero_devices_logged_but_success no_gpu 100 0 NULL 0 init); reflexivity.
Defined.

(** The status of a run that found a device is the same. *)
Example one_device_status :
  value (createPhysicalDevicesArray one_gpu 100 0 NULL init) = Some (VK_SUCCESS, 1, 4096) /\
  value (createPhysicalDevicesArray no_gpu 100 0 NULL init) = Some (VK_SUCCESS, 0, NULL).
Proof. split; reflexivity. Qed.

(** Both enumerators ask [malloc] for exactly N elements, N being the
    count the first query reported. *)
Lemma array_sized_to_reported_count (native : Native) (vkPhysDev c : Z) (s : state) :
  wrap_size (sizeof_VkPhysicalDevice * wrap32 c) / sizeof_VkPhysicalDevice = wrap32 c /\
  wrap_size (sizeof_VkQueueFamilyProperties * reported_families native vkPhysDev s)
    / sizeof_VkQueueFamilyProperties = reported_families native vkPhysDev s.
Proof.
  rewrite device_array_bytes, family_array_bytes.
  unfold sizeof_VkPhysicalDevice, sizeof_VkQueueFamilyProperties.
  split; rewrite Z.mul_comm; apply Z.div_mul; lia.
Qed.

(** C6, at a device that reports no queue family: the first half of the
    claim holds (a block of 0 elements), the second does not:
    [getQueueFamilyProperites] calls [malloc(0)], fills the block and
    reports success, with no diagnostic; [createPhysicalDevicesArray]
    on a system without devices allocates nothing and logs. *)
Theorem zero_family_count_allocates :
  getQueueFamilyProperites no_family 200 0 NULL init =
    Done (VK_SUCCESS, 0, 4096)
      (final_state (getQueueFamilyProperites no_family 200 0 NULL init)) /\
  events (getQueueFamilyProperites no_family 200 0 NULL init) =
    [EvGetPhysicalDeviceQueueFamilyProperties 200 NULL 0 0;
     EvMalloc 0 4096;
     EvGetPhysicalDeviceQueueFamilyProperties 200 4096 0 0] /\
  events (createPhysicalDevicesArray no_gpu 100 0 NULL init) =
    [EvEnumeratePhysicalDevices 100 NULL 0 VK_SUCCESS 0;
     EvPrintf "Couldn't detect any device present with Vulkan support: %d\n"
       [PInt VK_SUCCESS]].
Proof. repeat split. Qed.

(** C7: [getQueueFamilyProperites] returns VK_ERROR_OUT_OF_HOST_MEMORY
    exactly when its allocation fails and VK_SUCCESS otherwise; whatever
    the first query reports, the next call is the allocation, and the
    second query follows when the block was granted. *)
Theorem getQueueFamilyProperites_status
    (native : Native) (vkPhysDev i_Count vkQuFamProps : Z) (s : state) :
  0 < brk s ->
  exists (res : VkResult) (c' q : Z) (s' : state),
    getQueueFamilyProperites native vkPhysDev i_Count vkQuFamProps s = Done (res, c', q) s' /\
    (exists rest, trace s' = trace s ++
        count_query native vkPhysDev i_Count s ::
        EvMalloc (sizeof_VkQueueFamilyProperties * reported_families native vkPhysDev s) q ::
        rest) /\
    (q = NULL <->
     drv_malloc native (trace s ++ [count_query native vkPhysDev i_Count s])
       (sizeof_VkQueueFamilyProperties * reported_families native vkPhysDev s) = false) /\
    (res = VK_ERROR_OUT_OF_HOST_MEMORY <-> q = NULL) /\
    (res = VK_SUCCESS <-> q <> NULL) /\
    (q <> NULL ->
     trace s' = trace s ++
       [count_query native vkPhysDev i_Count s;
        EvMalloc (sizeof_VkQueueFamilyProperties * reported_families native vkPhysDev s) q;
        EvGetPhysicalDeviceQueueFamilyProperties vkPhysDev q
          (reported_families native vkPhysDev s) c']).
Proof.
  intros Hbrk.
  destruct (drv_malloc native (trace s ++ [count_query native vkPhysDev i_Count s])
              (sizeof_VkQueueFamilyProperties * reported_families native vkPhysDev s))
    eqn:Hm.
  - do 4 eexists. split.
    { apply getQueueFamilyProperites_memory; assumption. }
    cbn [trace log set_heap set_brk]. rewrite <- !app_assoc. cbn [app].
    repeat split; intros;
      unfold VK_SUCCESS, VK_ERROR_OUT_OF_HOST_MEMORY, NULL in *;
      solve [eauto | discriminate | lia | exfalso; lia].
  - do 4 eexists. split.
    { apply getQueueFamilyProperites_no_memory; assumption. }
    cbn [trace log]. rewrite <- !app_assoc. cbn [app].
    repeat split; intros;
      unfold VK_SUCCESS, VK_ERROR_OUT_OF_HOST_MEMORY, NULL in *;
      solve [eauto | discriminate | lia | exfalso; lia | congruence].
Qed.

Lemma getQueueFamilyProperites_status_one_gpu :
  0 < brk init /\
  exists (res : VkResult) (c' q : Z) (s' : state),
    getQueueFamilyProperites one_gpu 200 0 NULL init = Done (res, c', q) s' /\
    (exists rest, trace s' = trace init ++
        count_query one_gpu 200 0 init ::
        EvMalloc (sizeof_VkQueueFamilyProperties * reported_families one_gpu 200 init) q ::
        rest) /\
    (q = NULL <->
     drv_malloc one_gpu (trace init ++ [count_query one_gpu 200 0 init])
       (sizeof_VkQueueFamilyProperties * reported_families one_gpu 200 init) = false) /\
    (res = VK_ERROR_OUT_OF_HOST_MEMORY <-> q = NULL) /\
    (res = VK_SUCCESS <-> q <> NULL) /\
    (q <> NULL ->
     trace s' = trace init ++
       [count_query one_gpu 200 0 init;
        EvMalloc (sizeof_VkQueueFamilyProperties * reported_families one_gpu 200 init) q;
        EvGetPhysicalDeviceQueueFamilyProperties 200 q
          (reported_families one_gpu 200 init) c']).
Proof.
  split; [reflexivity|].
  apply (getQueueFamilyProperites_status one_gpu 200 0 NULL init). reflexivity.
Defined.

Example getQueueFamilyProperites_runs :
  value (getQueueFamilyProperites one_gpu 200 0 NULL init) = Some (VK_SUCCESS, 2, 4096) /\
  value (getQueueFamilyProperites no_memory 200 0 NULL init) =
    Some (VK_ERROR_OUT_OF_HOST_MEMORY, 2, NULL).
Proof. split; reflexivity. Qed.

(** C10: when the device reports zero queue families,
    [getQueueFamilyProperites] still calls [malloc], with size 0; if
    that call returns null the function returns
    VK_ERROR_OUT_OF_HOST_MEMORY, and otherwise it goes on to the second
    query and returns VK_SUCCESS with a count of 0: no path treats the
    zero count on its own. *)
Theorem zero_families_still_allocates
    (native : Native) (vkPhysDev i_Count vkQuFamProps : Z) (s : state) :
  0 < brk s ->
  reported_families native vkPhysDev s = 0 ->
  exists (res : VkResult) (c' q : Z) (s' : state),
    getQueueFamilyProperites native vkPhysDev i_Count vkQuFamProps s = Done (res, c', q) s' /\
    (exists rest, trace s' = trace s ++
        EvGetPhysicalDeviceQueueFamilyProperties vkPhysDev NULL i_Count 0 ::
        EvMalloc 0 q :: rest) /\
    (q = NULL -> res = VK_ERROR_OUT_OF_HOST_MEMORY) /\
    (q <> NULL ->
     res = VK_SUCCESS /\ c' = 0 /\
     trace s' = trace s ++
       [EvGetPhysicalDeviceQueueFamilyProperties vkPhysDev NULL i_Count 0;
        EvMalloc 0 q;
        EvGetPhysicalDeviceQueueFamilyProperties vkPhysDev q 0 0]).
Proof.
  intros Hbrk Hzero.
  destruct (drv_malloc native (trace s ++ [count_query native vkPhysDev i_Count s])
              (sizeof_VkQueueFamilyProperties * reported_families native vkPhysDev s))
    eqn:Hm.
  - do 4 eexists. split.
    { apply getQueueFamilyProperites_memory; assumption. }
    cbn [trace log set_heap set_brk]. rewrite <- !app_assoc. cbn [app].
    unfold count_query. rewrite Hzero. cbn [Z.to_nat take length Z.of_nat Z.mul].
    change (sizeof_VkQueueFamilyProperties * 0) with 0.
    repeat split; intros; unfold NULL in *; solve [eauto | exfalso; lia].
  - do 4 eexists. split.
    { apply getQueueFamilyProperites_no_memory; assumption. }
    cbn [trace log]. rewrite <- !app_assoc. cbn [app].
    unfold count_query. rewrite Hzero.
    change (sizeof_VkQueueFamilyProperties * 0) with 0.
    repeat split; intros; solve [eauto | congruence].
Qed.

Lemma zero_families_still_allocates_null_malloc0 :
  0 < brk init /\
  reported_families no_family_null_malloc0 200 init = 0 /\
  exists (res : VkResult) (c' q : Z) (s' : state),
    getQueueFamilyProperites no_family_null_malloc0 200 0 NULL init = Done (res, c', q) s' /\
    (exists rest, trace s' = trace init ++
        EvGetPhysicalDeviceQueueFamilyProperties 200 NULL 0 0 ::
        EvMalloc 0 q :: rest) /\
    (q = NULL -> res = VK_ERROR_OUT_OF_HOST_MEMORY) /\
    (q <> NULL ->
     res = VK_SUCCESS /\ c' = 0 /\
     trace s' = trace init ++
       [EvGetPhysicalDeviceQueueFamilyProperties 200 NULL 0 0;
        EvMalloc 0 q;
        EvGetPhysicalDeviceQueueFamilyProperties 200 q 0 0]).
Proof.
  split; [reflexivity|]. split; [reflexivity|].
  apply (zero_families_still_allocates no_family_null_malloc0 200 0 NULL init); reflexivity.
Defined.

Example zero_families_runs :
  value (getQueueFamilyProperites no_family_null_malloc0 200 0 NULL init) =
    Some (VK_ERROR_OUT_OF_HOST_MEMORY, 0, NULL) /\
  value (getQueueFamilyProperites no_family 200 0 NULL init) = Some (VK_SUCCESS, 0, 4096).
Proof. split; reflexivity. Qed.

(** ** Runs of the tutorials on the sample systems *)

(** C1, where the count-only device query fails: tutorial01 exits with
    -1, tutorial02 and tutorial03 print the failure and exit with 0. *)
Theorem exit_code_after_enumeration_failure :
  value (Tutorial01.main broken_count init) = Some (-1) /\
  value (Tutorial02.main broken_count init) = Some 0 /\
  value (Tutorial03.main broken_count init) = Some 0 /\
  In (EvPrintf "Failed to create physical devices list: %d\n"
        [PInt VK_ERROR_INITIALIZATION_FAILED])
     (events (Tutorial02.main broken_count init)) /\
  In (EvPrintf "Failed to create physical devices list: %d\n"
        [PInt VK_ERROR_INITIALIZATION_FAILED])
     (events (Tutorial03.main broken_count init)).
Proof.
  repeat split; try reflexivity; vm_compute; tauto.
Qed.

Example exit_codes_on_samples :
  value (Tutorial00.main one_gpu init) = Some 0 /\
  value (Tutorial00.main no_driver init) = Some (-1) /\
  value (Tutorial01.main one_gpu init) = Some 0 /\
  value (Tutorial01.main no_driver init) = Some (-1) /\
  value (Tutorial01.main no_memory init) = Some (-1) /\
  value (Tutorial02.main one_gpu init) = Some 0 /\
  value (Tutorial02.main no_driver init) = Some (-1) /\
  value (Tutorial02.main no_memory init) = Some 0 /\
  value (Tutorial03.main one_gpu init) = Some 0 /\
  value (Tutorial03.main no_driver init) = Some (-1) /\
  value (Tutorial03.main no_device init) = Some 0.
Proof. repeat split. Qed.

(** tutorial03 on a system without devices reads [vkPhysDev[0]] through
    the null pointer. *)
Example tutorial03_no_gpu_faults :
  value (Tutorial03.main no_gpu init) = None /\
  last (events (Tutorial03.main no_gpu init)) =
    Some (EvPrintf " List of queue families, obtained.\n" []).
Proof. split; reflexivity. Qed.

(** C2, where the second device query fails after the array was
    allocated: tutorial01 returns -1 at once and makes no free or
    destroy call, the array and the instance are still held; tutorial02
    on the same system goes through its cleanup and holds nothing. *)
Theorem tutorial01_returns_without_teardown :
  value (Tutorial01.main broken_fill init) = Some (-1) /\
  filter (fun e => is_release_call e = true) (events (Tutorial01.main broken_fill init)) = [] /\
  live (events (Tutorial01.main broken_fill init)) = [RBlock 4096; RInstance 100] /\
  ~ all_released (final_state (Tutorial01.main broken_fill init)) /\
  value (Tutorial02.main broken_fill init) = Some 0 /\
  live (events (Tutorial02.main broken_fill init)) = [] /\
  all_released (final_state (Tutorial02.main broken_fill init)).
Proof.
  repeat split; try reflexivity.
  intros (Hheap & _).
  apply (f_equal (fun h : gmap Z block => h !! 4096)) in Hheap.
  vm_compute in Hheap. discriminate.
Qed.

(** ** The cleanup paths *)

Lemma vkDestroyInstance_run (h : Z) (s : state) :
  h = 0 \/ (h ∈ instances s /\ devices s = ∅) ->
  vkDestroyInstance h s =
  Done tt (log (EvDestroyInstance h)
            (if h =? 0 then s else set_instances (instances s ∖ {[h]}) s)).
Proof.
  intros H. unfold vkDestroyInstance.
  destruct (Z.eqb_spec h 0) as [->|Hne]; [reflexivity|].
  destruct H as [H|[Hin Hdev]]; [contradiction|].
  rewrite (bool_decide_eq_true_2 _ Hin), (bool_decide_eq_true_2 _ Hdev).
  reflexivity.
Qed.

Lemma vkDestroyDevice_run (h : Z) (s : state) :
  h = 0 \/ h ∈ devices s ->
  vkDestroyDevice h s =
  Done tt (log (EvDestroyDevice h)
            (if h =? 0 then s else set_devices (devices s ∖ {[h]}) s)).
Proof.
  intros H. unfold vkDestroyDevice.
  destruct (Z.eqb_spec h 0) as [->|Hne]; [reflexivity|].
  destruct H as [H|Hin]; [contradiction|].
  rewrite (bool_decide_eq_true_2 _ Hin). reflexivity.
Qed.

(** C4, counterexample: the destroy calls of the cleanup path are not
    behind a null check.  When enumeration fails before anything is
    allocated, tutorial03 completes, and its cleanup has called
    [vkDestroyDevice] on the null handle; on a state with nothing
    acquired both destroy calls are made on null handles. *)
Lemma cleanup_destroys_without_null_check :
  value (Tutorial03.main broken_count init) = Some 0 /\
  In (EvDestroyDevice 0) (events (Tutorial03.main broken_count init)) /\
  null_guarded (events (Tutorial03.main broken_count init)) = false /\
  events (Tutorial03.cleanup 0 NULL 0 init) =
    [EvDestroyDevice 0; EvDestroyInstance 0; EvPrintf " Cleanup done.\n" []] /\
  events (Tutorial02.cleanup NULL 0 init) =
    [EvDestroyInstance 0; EvPrintf " Cleanup done.\n" []].
Proof.
  repeat split; try reflexivity. vm_compute. tauto.
Qed.

(** C4, amended: on a partially initialised state (no device array, no
    logical device, the instance handle null or live) the cleanup paths
    of tutorial02 and tutorial03 complete.  Only the free is behind a
    null check: no free call is made.  The destroy calls are made
    unconditionally, on the zero-initialised handle where nothing was
    created, which the native layer ignores. *)
Theorem cleanup_on_partial_state (vkInst : Z) (s : state) :
  vkInst = 0 \/ (vkInst ∈ instances s /\ devices s = ∅) ->
  (exists s',
     Tutorial02.cleanup NULL vkInst s = Done 0 s' /\
     trace s' = trace s ++ [EvDestroyInstance vkInst; EvPrintf " Cleanup done.\n" []] /\
     heap s' = heap s) /\
  (exists s',
     Tutorial03.cleanup 0 NULL vkInst s = Done 0 s' /\
     trace s' = trace s ++
       [EvDestroyDevice 0; EvDestroyInstance vkInst; EvPrintf " Cleanup done.\n" []] /\
     heap s' = heap s).
Proof.
  intros H. split.
  - eexists. split.
    + unfold Tutorial02.cleanup. rewrite Z.eqb_refl. cbn [negb when].
      erewrite bind_Done by reflexivity.
      erewrite bind_Done by (apply vkDestroyInstance_run; exact H).
      erewrite bind_Done by apply printf_run.
      reflexivity.
    + destruct (vkInst =? 0); cbn [trace heap log set_instances];
        rewrite <- ?app_assoc; split; reflexivity.
  - eexists. split.
    + unfold Tutorial03.cleanup. rewrite Z.eqb_refl. cbn [negb when].
      erewrite bind_Done by (apply vkDestroyDevice_run; now left).
      erewrite bind_Done by reflexivity.
      erewrite bind_Done by (apply vkDestroyInstance_run; exact H).
      erewrite bind_Done by apply printf_run.
      reflexivity.
    + cbn [Z.eqb].
      destruct (vkInst =? 0); cbn [trace heap log set_instances];
        rewrite <- ?app_assoc; split; reflexivity.
Qed.

(** The state tutorial03 is in when its enumeration has failed. *)
Lemma cleanup_on_partial_state_after_instance :
  (100 = 0 \/
   (100 ∈ instances (final_state (createInstance one_gpu Tutorial03.g_appName 0 init)) /\
    devices (final_state (createInstance one_gpu Tutorial03.g_appName 0 init)) = ∅)) /\
  (exists s',
     Tutorial02.cleanup NULL 100
       (final_state (createInstance one_gpu Tutorial03.g_appName 0 init)) = Done 0 s' /\
     trace s' =
       trace (final_state (createInstance one_gpu Tutorial03.g_appName 0 init)) ++
       [EvDestroyInstance 100; EvPrintf " Cleanup done.\n" []] /\
     heap s' = heap (final_state (createInstance one_gpu Tutorial03.g_appName 0 init))) /\
  (exists s',
     Tutorial03.cleanup 0 NULL 100
       (final_state (createInstance one_gpu Tutorial03.g_appName 0 init)) = Done 0 s' /\
     trace s' =
       trace (final_state (createInstance one_gpu Tutorial03.g_appName 0 init)) ++
       [EvDestroyDevice 0; EvDestroyInstance 100; EvPrintf " Cleanup done.\n" []] /\
     heap s' = heap (final_state (createInstance one_gpu Tutorial03.g_appName 0 init))).
Proof.
  assert (Hpre : 100 = 0 \/
   (100 ∈ instances (final_state (createInstance one_gpu Tutorial03.g_appName 0 init)) /\
    devices (final_state (createInstance one_gpu Tutorial03.g_appName 0 init)) = ∅)).
  { right. split; [|reflexivity]. refine (bool_decide_unpack _ _). vm_compute. exact I. }
  split; [exact Hpre|].
  apply (cleanup_on_partial_state 100
           (final_state (createInstance one_gpu Tutorial03.g_appName 0 init)) Hpre).
Defined.

(** C5, counterexample: in a complete run of tutorial03 the logical
    device is destroyed first and the device array is freed after it. *)
Lemma device_destroyed_before_array_freed :
  value (Tutorial03.main one_gpu init) = Some 0 /\
  ~ frees_precede_device_destroy (events (Tutorial03.main one_gpu init)).
Proof.
  split; [reflexivity|].
  intros H. specialize (H 13%nat 12%nat 4096 300 eq_refl eq_refl). lia.
Qed.

(** ** Trace invariants *)

Section Preserves.

Variable P : event -> Prop.

Lemma preserves_ret {A : Type} (a : A) : preserves P (ret a).
Proof. intros s H. exact H. Qed.

Lemma preserves_bind {A B : Type} (m : M A) (k : A -> M B) :
  preserves P m -> (forall a, preserves P (k a)) -> preserves P (bind m k).
Proof.
  intros Hm Hk s H. specialize (Hm s H). unfold bind.
  destruct (m s) as [a s'|s']; cbn [final_state] in *.
  - apply Hk, Hm.
  - exact Hm.
Qed.

Lemma preserves_fault {A : Type} : preserves P (@fault A).
Proof. intros s H. exact H. Qed.

Lemma Forall_log (e : event) (s : state) :
  Forall P (trace s) -> P e -> Forall P (trace (log e s)).
Proof.
  intros H He. cbn [trace log]. apply Forall_app. split; [exact H|].
  constructor; [exact He | constructor].
Qed.

Lemma preserves_emit (e : event) : P e -> preserves P (emit e).
Proof. intros He s H. apply Forall_log; assumption. Qed.

Lemma preserves_when (b : bool) (m : M unit) : preserves P m -> preserves P (when b m).
Proof. intros H. destruct b; [exact H | apply preserves_ret]. Qed.

Lemma preserves_for_loop_from {A : Type} (n : nat) (body : Z -> A -> M A) :
  (forall i a, preserves P (body i a)) ->
  forall i a, preserves P (for_loop_from i n body a).
Proof.
  intros Hbody. induction n as [|n IH]; intros i a; cbn [for_loop_from].
  - apply preserves_ret.
  - apply preserves_bind; [apply Hbody | intros a'; apply IH].
Qed.

Lemma preserves_for_loop {A : Type} (n : Z) (body : Z -> A -> M A) (a : A) :
  (forall i a, preserves P (body i a)) -> preserves P (for_loop n body a).
Proof. intros H. apply preserves_for_loop_from, H. Qed.

(** A computation that leaves the trace alone. *)
Lemma preserves_silent {A : Type} (m : M A) :
  (forall s, trace (final_state (m s)) = trace s) -> preserves P m.
Proof. intros Hm s H. rewrite Hm. exact H. Qed.

Lemma store_silent (p elt : Z) (n : nat) (c : cells) (s : state) :
  trace (final_state (store p elt n c s)) = trace s.
Proof.
  unfold store. destruct (heap s !! p) as [b|].
  - destruct (elt * Z.of_nat n <=? blk_bytes b); reflexivity.
  - destruct (n =? 0)%nat; reflexivity.
Qed.

Lemma load_VkPhysicalDevice_silent (p i : Z) (s : state) :
  trace (final_state (load_VkPhysicalDevice p i s)) = trace s.
Proof.
  unfold load_VkPhysicalDevice.
  destruct (heap s !! p) as [[bytes [|l|l]]|]; try reflexivity.
  destruct (l !! Z.to_nat i); [destruct (0 <=? i)|]; reflexivity.
Qed.

Lemma load_VkQueueFamilyProperties_silent (p j : Z) (s : state) :
  trace (final_state (load_VkQueueFamilyProperties p j s)) = trace s.
Proof.
  unfold load_VkQueueFamilyProperties.
  destruct (heap s !! p) as [[bytes [|l|l]]|]; try reflexivity.
  destruct (l !! Z.to_nat j); [destruct (0 <=? j)|]; reflexivity.
Qed.

Variable native : Native.

Lemma preserves_malloc (size : Z) :
  (forall p, P (EvMalloc size p)) -> preserves P (malloc native size).
Proof.
  intros HP s H. unfold malloc.
  destruct (drv_malloc native (trace s) size); cbn [final_state]; apply Forall_log;
    solve [exact H | apply HP].
Qed.

Lemma preserves_free (p : Z) : P (EvFree p) -> preserves P (free p).
Proof.
  intros HP s H. unfold free.
  destruct (p =? NULL); [|destruct (heap s !! p)]; cbn [final_state];
    apply Forall_log; assumption.
Qed.

Lemma preserves_vkCreateInstance (info : VkInstanceCreateInfo.t) (old : Z) :
  (forall res h, P (EvCreateInstance info res h)) ->
  preserves P (vkCreateInstance native info old).
Proof.
  intros HP s H. unfold vkCreateInstance.
  destruct (drv_vkCreateInstance native (trace s) info) as [res h].
  destruct (res =? VK_SUCCESS); cbn [final_state]; [destruct (h =? 0)|];
    apply Forall_log; solve [exact H | apply HP].
Qed.

Lemma preserves_vkCreateDevice (phys : Z) (info : VkDeviceCreateInfo.t) (old : Z) :
  (forall res h, P (EvCreateDevice phys info res h)) ->
  preserves P (vkCreateDevice native phys info old).
Proof.
  intros HP s H. unfold vkCreateDevice.
  destruct (drv_vkCreateDevice native (trace s) phys info) as [res h].
  destruct (res =? VK_SUCCESS); cbn [final_state]; [destruct (h =? 0)|];
    apply Forall_log; solve [exact H | apply HP].
Qed.

Lemma preserves_vkDestroyInstance (h : Z) :
  P (EvDestroyInstance h) -> preserves P (vkDestroyInstance h).
Proof.
  intros HP s H. unfold vkDestroyInstance.
  destruct (h =? 0); [|destruct (_ && _)]; cbn [final_state];
    apply Forall_log; assumption.
Qed.

Lemma preserves_vkDestroyDevice (h : Z) :
  P (EvDestroyDevice h) -> preserves P (vkDestroyDevice h).
Proof.
  intros HP s H. unfold vkDestroyDevice.
  destruct (h =? 0); [|destruct (bool_decide _)]; cbn [final_state];
    apply Forall_log; assumption.
Qed.

Lemma preserves_vkGetPhysicalDeviceProperties (dev : Z) :
  P (EvGetPhysicalDeviceProperties dev) ->
  preserves P (vkGetPhysicalDeviceProperties native dev).
Proof. intros HP s H. apply Forall_log; assumption. Qed.

Lemma preserves_vkEnumeratePhysicalDevices (inst count buf : Z) :
  (forall res c, P (EvEnumeratePhysicalDevices inst buf count res c)) ->
  preserves P (vkEnumeratePhysicalDevices native inst count buf).
Proof.
  intros HP s H. unfold vkEnumeratePhysicalDevices.
  destruct (buf =? NULL).
  - destruct (drv_vkEnumeratePhysicalDevices_count native (trace s) inst) as [res c].
    apply Forall_log; [exact H | apply HP].
  - destruct (drv_vkEnumeratePhysicalDevices_fill native (trace s) inst count) as [res l].
    revert s H. apply preserves_bind; [apply preserves_silent; intros; apply store_silent|].
    intros _. apply preserves_bind; [apply preserves_emit, HP|].
    intros _. apply preserves_ret.
Qed.

Lemma preserves_vkGetPhysicalDeviceQueueFamilyProperties (dev count buf : Z) :
  (forall c, P (EvGetPhysicalDeviceQueueFamilyProperties dev buf count c)) ->
  preserves P (vkGetPhysicalDeviceQueueFamilyProperties native dev count buf).
Proof.
  intros HP s H. unfold vkGetPhysicalDeviceQueueFamilyProperties.
  destruct (buf =? NULL).
  - apply Forall_log; [exact H | apply HP].
  - generalize (drv_vkGetPhysicalDeviceQueueFamilyProperties_fill native (trace s) dev count).
    intros l. revert s H.
    apply preserves_bind; [apply preserves_silent; intros; apply store_silent|].
    intros _. apply preserves_bind; [apply preserves_emit, HP|].
    intros _. apply preserves_ret.
Qed.

End Preserves.

(** ** Layers and extensions *)

Lemma errno_silent (native : Native) (s : state) :
  trace (final_state (errno native s)) = trace s.
Proof. reflexivity. Qed.

Ltac split_results :=
  repeat match goal with x : (_ * _)%type |- _ => destruct x end.

(** One step of a proof that a program keeps a trace property; the side
    conditions on the events are left to [tac]. *)
Ltac keeps_step tac :=
  first
    [ apply preserves_ret
    | apply preserves_bind; [| intros; split_results ]
    | apply preserves_when
    | apply preserves_for_loop; intros
    | apply preserves_emit; tac
    | apply preserves_malloc; intros; tac
    | apply preserves_free; tac
    | apply preserves_vkCreateInstance; intros; tac
    | apply preserves_vkCreateDevice; intros; tac
    | apply preserves_vkDestroyInstance; tac
    | apply preserves_vkDestroyDevice; tac
    | apply preserves_vkGetPhysicalDeviceProperties; tac
    | apply preserves_vkEnumeratePhysicalDevices; intros; tac
    | apply preserves_vkGetPhysicalDeviceQueueFamilyProperties; intros; tac
    | apply preserves_silent; intros;
      first [ apply load_VkPhysicalDevice_silent
            | apply load_VkQueueFamilyProperties_silent
            | apply errno_silent ]
    | match goal with |- preserves _ (if ?b then _ else _) => destruct b end ].

Ltac nothing_enabled_event := solve [exact I | cbn; repeat split].

Section NothingEnabled.

Variable native : Native.

Lemma createInstance_nothing_enabled (g_appName : string) (vkInst : Z) :
  preserves nothing_enabled (createInstance native g_appName vkInst).
Proof. unfold createInstance. repeat keeps_step nothing_enabled_event. Qed.

Lemma createPhysicalDevicesArray_nothing_enabled (vkInst i_devCount vkPhysDev : Z) :
  preserves nothing_enabled (createPhysicalDevicesArray native vkInst i_devCount vkPhysDev).
Proof.
  unfold createPhysicalDevicesArray, printf. repeat keeps_step nothing_enabled_event.
Qed.

Lemma getQueueFamilyProperites_nothing_enabled (vkPhysDev i_Count vkQuFamProps : Z) :
  preserves nothing_enabled (getQueueFamilyProperites native vkPhysDev i_Count vkQuFamProps).
Proof.
  unfold getQueueFamilyProperites, printf. repeat keeps_step nothing_enabled_event.
Qed.

Lemma tutorial00_nothing_enabled : preserves nothing_enabled (Tutorial00.main native).
Proof. unfold Tutorial00.main, printf. repeat keeps_step nothing_enabled_event. Qed.

Lemma tutorial01_nothing_enabled : preserves nothing_enabled (Tutorial01.main native).
Proof.
  unfold Tutorial01.main, Tutorial01.printPhysicalDevicesProperties, printf.
  repeat first [ apply createInstance_nothing_enabled
               | apply createPhysicalDevicesArray_nothing_enabled
               | keeps_step nothing_enabled_event ].
Qed.

Lemma tutorial02_nothing_enabled : preserves nothing_enabled (Tutorial02.main native).
Proof.
  unfold Tutorial02.main, Tutorial02.cleanup, Tutorial02.printQueueFamilyInfo,
    Tutorial02.printQueueFamilyInfo_body, Tutorial02.printQueueFamily, printf.
  repeat first [ apply createInstance_nothing_enabled
               | apply createPhysicalDevicesArray_nothing_enabled
               | apply getQueueFamilyProperites_nothing_enabled
               | keeps_step nothing_enabled_event ].
Qed.

Lemma createDevice_nothing_enabled (vkPhysDev vkDev : Z) :
  preserves nothing_enabled (Tutorial03.createDevice native vkPhysDev vkDev).
Proof.
  unfold Tutorial03.createDevice, Tutorial03.createDevice_cleanup.
  repeat first [ apply getQueueFamilyProperites_nothing_enabled
               | keeps_step nothing_enabled_event ].
Qed.

Lemma tutorial03_nothing_enabled : preserves nothing_enabled (Tutorial03.main native).
Proof.
  unfold Tutorial03.main, Tutorial03.cleanup, printf.
  repeat first [ apply createInstance_nothing_enabled
               | apply createPhysicalDevicesArray_nothing_enabled
               | apply createDevice_nothing_enabled
               | keeps_step nothing_enabled_event ].
Qed.

End NothingEnabled.

(** C9: in every execution of every tutorial, whatever the native layer
    answers, each instance creation and each logical device creation is
    called with zero enabled-layer and enabled-extension counts and null
    name arrays. *)
Theorem no_layer_no_extension (native : Native) :
  Forall nothing_enabled (events (Tutorial00.main native init)) /\
  Forall nothing_enabled (events (Tutorial01.main native init)) /\
  Forall nothing_enabled (events (Tutorial02.main native init)) /\
  Forall nothing_enabled (events (Tutorial03.main native init)).
Proof.
  repeat split.
  - apply tutorial00_nothing_enabled. constructor.
  - apply tutorial01_nothing_enabled. constructor.
  - apply tutorial02_nothing_enabled. constructor.
  - apply tutorial03_nothing_enabled. constructor.
Qed.

(** The creation calls are there: on the sample system tutorial03 creates
    an instance and a logical device. *)
Example tutorial03_creation_calls :
  live (take 10 (events (Tutorial03.main one_gpu init))) =
    [RDevice 300; RBlock 4104; RBlock 4096; RInstance 100].
Proof. reflexivity. Qed.

(** ** Resources along a trace *)

Lemma live_from_app (st : list resource) (t1 t2 : list event) :
  live_from st (t1 ++ t2) = live_from (live_from st t1) t2.
Proof. unfold live_from. apply fold_left_app. Qed.

Lemma live_app (t1 t2 : list event) : live (t1 ++ t2) = live_from (live t1) t2.
Proof. apply live_from_app. Qed.

Lemma inert_track (e : event) (st : list resource) : inert e = true -> track st e = st.
Proof.
  unfold inert, track, released. intros H.
  destruct (acquired e); [discriminate|].
  destruct (release_arg e); [discriminate | reflexivity].
Qed.

Lemma inert_not_release (e : event) : inert e = true -> is_release_call e = false.
Proof.
  unfold inert, is_release_call.
  destruct (acquired e); [discriminate|]. destruct (release_arg e); [discriminate|reflexivity].
Qed.

Lemma live_from_inert (ev : list event) (st : list resource) :
  Forall (fun e => inert e = true) ev -> live_from st ev = st.
Proof.
  induction 1 as [|e ev He _ IH]; [reflexivity|].
  unfold live_from in *. cbn [fold_left]. rewrite inert_track by exact He. exact IH.
Qed.

Lemma resource_eqb_refl (r : resource) : resource_eqb r r = true.
Proof. destruct r; apply Z.eqb_refl. Qed.

Lemma remove_first_head (r : resource) (st : list resource) :
  remove_first r (r :: st) = st.
Proof. cbn [remove_first]. now rewrite resource_eqb_refl. Qed.

Lemma release_call_not_acquired (e : event) :
  is_release_call e = true -> acquired e = None.
Proof. destruct e; cbn; congruence. Qed.

Lemma released_is_release_call (e : event) (r : resource) :
  released e = Some r -> is_release_call e = true.
Proof.
  unfold released, is_release_call. destruct (release_arg e); [reflexivity | discriminate].
Qed.

Lemma track_released (e : event) (r : resource) (st : list resource) :
  released e = Some r -> track (r :: st) e = st.
Proof.
  intros H. unfold track.
  rewrite (release_call_not_acquired e (released_is_release_call e r H)), H.
  apply remove_first_head.
Qed.

Lemma track_null_release (e : event) (st : list resource) :
  is_release_call e = true -> released e = None -> track st e = st.
Proof.
  intros Hc Hr. unfold track. now rewrite (release_call_not_acquired e Hc), Hr.
Qed.

Lemma last_snoc {A : Type} (l : list A) (x : A) : last (l ++ [x]) = Some x.
Proof. induction l as [|a [|b l] IH]; try reflexivity. exact IH. Qed.

(** After an event that is no free or destroy call, everything held is
    on the stack. *)
Lemma lifo_tail_fresh (t : list event) (e : event) :
  is_release_call e = false -> lifo_tail (t ++ [e]) (live (t ++ [e])).
Proof.
  intros He. exists (t ++ [e]), []. rewrite app_nil_r. repeat split.
  - intros e'. rewrite last_snoc. intros [= <-]. exact He.
  - constructor.
Qed.

Lemma lifo_tail_release (t : list event) (e : event) (r : resource) (l : list resource) :
  lifo_tail t (r :: l) -> released e = Some r -> lifo_tail (t ++ [e]) l.
Proof.
  intros (pre & td & -> & Hpre & Htd & Hlive) He.
  exists pre, (td ++ [e]). rewrite app_assoc. repeat split.
  - exact Hpre.
  - apply Forall_app. split; [exact Htd|].
    constructor; [exact (released_is_release_call e r He) | constructor].
  - rewrite omap_app. cbn [omap list_omap].
    rewrite He, Hlive, <- app_assoc. reflexivity.
Qed.

Lemma lifo_tail_null_release (t : list event) (e : event) (l : list resource) :
  lifo_tail t l -> is_release_call e = true -> released e = None -> lifo_tail (t ++ [e]) l.
Proof.
  intros (pre & td & -> & Hpre & Htd & Hlive) Hc He.
  exists pre, (td ++ [e]). rewrite app_assoc. repeat split.
  - exact Hpre.
  - apply Forall_app. split; [exact Htd|]. constructor; [exact Hc | constructor].
  - rewrite omap_app. cbn [omap list_omap]. rewrite He, Hlive, app_nil_r. reflexivity.
Qed.

(** What is held at the end is what the trailing calls left. *)
Lemma lifo_tail_live (t : list event) (l : list resource) : lifo_tail t l -> live t = l.
Proof.
  intros (pre & td & -> & _ & Htd & Hlive).
  rewrite live_app, Hlive. clear Hlive pre.
  induction Htd as [|e td He _ IH]; [reflexivity|].
  unfold live_from in *. cbn [fold_left omap list_omap].
  destruct (released e) as [r|] eqn:Hr; cbn [app].
  - rewrite (track_released e r _ Hr). exact IH.
  - rewrite (track_null_release e _ He Hr). exact IH.
Qed.

Lemma resource_eqb_eq (a b : resource) : resource_eqb a b = true -> a = b.
Proof.
  destruct a, b; cbn; try discriminate; intros H; apply Z.eqb_eq in H; congruence.
Qed.

Lemma live_snoc (t : list event) (e : event) : live (t ++ [e]) = track (live t) e.
Proof. rewrite live_app. reflexivity. Qed.

Lemma track_release (e : event) (r : resource) (st : list resource) :
  released e = Some r -> track st e = remove_first r st.
Proof.
  intros H. unfold track.
  now rewrite (release_call_not_acquired e (released_is_release_call e r H)), H.
Qed.

(** [tail_run] is sound, one event at a time. *)
Lemma tracked_step (t : list event) (e : event) (st : list resource * bool) :
  tracked t st -> tracked (t ++ [e]) (tail_step st e).
Proof.
  destruct st as [l ok]. intros [Hlive Htail]. cbn [fst snd] in *.
  unfold tail_step. destruct (is_release_call e) eqn:Hc.
  - destruct (released e) as [r|] eqn:Hr.
    + destruct l as [|x l'].
      * split; [|discriminate]. cbn [fst]. rewrite live_snoc, Hlive.
        now rewrite (track_release e r [] Hr).
      * destruct (ok && resource_eqb r x) eqn:Hok.
        -- apply andb_true_iff in Hok as [-> Hx]. apply resource_eqb_eq in Hx. subst x.
           split; cbn [fst snd].
           ++ rewrite live_snoc, Hlive. apply (track_released e r l' Hr).
           ++ intros _. apply lifo_tail_release with (r := r); [apply Htail; reflexivity | exact Hr].
        -- split; [|discriminate]. cbn [fst]. rewrite live_snoc, Hlive.
           apply (track_release e r _ Hr).
    + split; cbn [fst snd].
      * rewrite live_snoc, Hlive. apply track_null_release; assumption.
      * intros Hok. apply lifo_tail_null_release; [apply Htail, Hok | exact Hc | exact Hr].
  - split; cbn [fst snd].
    + rewrite live_snoc, Hlive. reflexivity.
    + intros _. rewrite <- Hlive, <- live_snoc. apply lifo_tail_fresh, Hc.
Qed.

Lemma tracked_run (ev t : list event) (st : list resource * bool) :
  tracked t st -> tracked (t ++ ev) (tail_run ev st).
Proof.
  revert t st. induction ev as [|e ev IH]; intros t st H.
  - rewrite app_nil_r. exact H.
  - change (t ++ e :: ev) with (t ++ [e] ++ ev). rewrite app_assoc.
    apply (IH (t ++ [e]) (tail_step st e)), tracked_step, H.
Qed.

Lemma tail_run_app (ev1 ev2 : list event) (st : list resource * bool) :
  tail_run (ev1 ++ ev2) st = tail_run ev2 (tail_run ev1 st).
Proof. unfold tail_run. apply fold_left_app. Qed.

Lemma tail_run_inert (ev : list event) (l : list resource) :
  Forall (fun e => inert e = true) ev -> tail_run ev (l, true) = (l, true).
Proof.
  induction 1 as [|e ev He _ IH]; [reflexivity|].
  unfold tail_run in *. cbn [fold_left]. unfold tail_step at 2.
  rewrite (inert_not_release e He), (inert_track e l He). exact IH.
Qed.

(** The form in which the programs use it. *)
Lemma lifo_tail_run (ev t : list event) (l l' : list resource) :
  lifo_tail t l -> tail_run ev (l, true) = (l', true) -> lifo_tail (t ++ ev) l'.
Proof.
  intros Ht Hrun.
  assert (H : tracked t (l, true)).
  { split; [apply lifo_tail_live, Ht | intros _; exact Ht]. }
  apply (tracked_run ev) in H. rewrite Hrun in H. apply H. reflexivity.
Qed.

Lemma lifo_tail_nil : lifo_tail [] [].
Proof.
  exists [], []. repeat split; try constructor. intros e. discriminate.
Qed.

Lemma acquired_malloc (size q : Z) : q <> NULL -> acquired (EvMalloc size q) = Some (RBlock q).
Proof. intros H. cbn. destruct (Z.eqb_spec q NULL); [contradiction | reflexivity]. Qed.

Lemma released_free (q : Z) : q <> NULL -> released (EvFree q) = Some (RBlock q).
Proof.
  intros H. unfold released. cbn. destruct (Z.eqb_spec q 0); [contradiction | reflexivity].
Qed.

Lemma reverse_order_teardown_intro (t : list event) :
  lifo_tail t [] -> reverse_order_teardown (t ++ [EvPrintf " Cleanup done.\n" []]).
Proof.
  intros (pre & td & -> & Hpre & Htd & Hlive).
  exists pre, td. rewrite <- app_assoc. repeat split; try assumption.
  rewrite Hlive, app_nil_r. reflexivity.
Qed.

Lemma tail_run_cons (e : event) (ev : list event) (st : list resource * bool) :
  tail_run (e :: ev) st = tail_run ev (tail_step st e).
Proof. reflexivity. Qed.

Lemma tail_run_nil (st : list resource * bool) : tail_run [] st = st.
Proof. reflexivity. Qed.

Lemma tail_step_inert (e : event) (l : list resource) (ok : bool) :
  inert e = true -> tail_step (l, ok) e = (l, true).
Proof.
  intros H. unfold tail_step.
  now rewrite (inert_not_release e H), (inert_track e l H).
Qed.

Lemma tail_step_acquire (e : event) (r : resource) (l : list resource) (ok : bool) :
  acquired e = Some r -> tail_step (l, ok) e = (r :: l, true).
Proof.
  intros H. unfold tail_step.
  destruct (is_release_call e) eqn:Hc.
  - apply release_call_not_acquired in Hc. congruence.
  - unfold track. now rewrite H.
Qed.

Lemma tail_step_release_top (e : event) (r : resource) (l : list resource) :
  released e = Some r -> tail_step (r :: l, true) e = (l, true).
Proof.
  intros H. unfold tail_step.
  rewrite (released_is_release_call e r H), H, resource_eqb_refl. reflexivity.
Qed.

Lemma tail_step_null_release (e : event) (l : list resource) (ok : bool) :
  is_release_call e = true -> released e = None -> tail_step (l, ok) e = (l, ok).
Proof. intros Hc H. unfold tail_step. now rewrite Hc, H. Qed.

Lemma released_destroy_instance (h : Z) :
  h <> 0 -> released (EvDestroyInstance h) = Some (RInstance h).
Proof.
  intros H. unfold released. cbn. destruct (Z.eqb_spec h 0); [contradiction | reflexivity].
Qed.

Lemma released_destroy_device (h : Z) :
  h <> 0 -> released (EvDestroyDevice h) = Some (RDevice h).
Proof.
  intros H. unfold released. cbn. destruct (Z.eqb_spec h 0); [contradiction | reflexivity].
Qed.

Lemma held_block_null : held_block NULL = [].
Proof. reflexivity. Qed.

Lemma held_block_live (p : Z) : p <> NULL -> held_block p = [RBlock p].
Proof.
  intros H. unfold held_block. destruct (Z.eqb_spec p NULL); [contradiction|reflexivity].
Qed.

Lemma held_instance_live (h : Z) : h <> 0 -> held_instance h = [RInstance h].
Proof.
  intros H. unfold held_instance. destruct (Z.eqb_spec h 0); [contradiction|reflexivity].
Qed.

Lemma held_device_live (h : Z) : h <> 0 -> held_device h = [RDevice h].
Proof.
  intros H. unfold held_device. destruct (Z.eqb_spec h 0); [contradiction|reflexivity].
Qed.

(** The release call made on a local of [main] takes what the local
    stands for off the top of the stack. *)
Lemma tail_step_free (p : Z) (l : list resource) :
  tail_step (held_block p ++ l, true) (EvFree p) = (l, true).
Proof.
  destruct (Z.eq_dec p NULL) as [->|Hp].
  - reflexivity.
  - rewrite held_block_live by exact Hp. apply tail_step_release_top, released_free, Hp.
Qed.

Lemma tail_step_destroy_instance (h : Z) (l : list resource) :
  tail_step (held_instance h ++ l, true) (EvDestroyInstance h) = (l, true).
Proof.
  destruct (Z.eq_dec h 0) as [->|Hh].
  - reflexivity.
  - rewrite held_instance_live by exact Hh.
    apply tail_step_release_top, released_destroy_instance, Hh.
Qed.

Lemma tail_step_destroy_device (h : Z) (l : list resource) :
  tail_step (held_device h ++ l, true) (EvDestroyDevice h) = (l, true).
Proof.
  destruct (Z.eq_dec h 0) as [->|Hh].
  - reflexivity.
  - rewrite held_device_live by exact Hh.
    apply tail_step_release_top, released_destroy_device, Hh.
Qed.

Lemma tail_step_release_second
      (e : event) (r x : resource) (l : list resource) (ok : bool) :
  released e = Some r -> resource_eqb r x = false ->
  tail_step (x :: r :: l, ok) e = (x :: l, false).
Proof.
  intros H Hx. unfold tail_step.
  rewrite (released_is_release_call e r H), H, Hx, andb_false_r.
  cbn [remove_first]. now rewrite Hx, resource_eqb_refl.
Qed.

(** ** The allocator's invariant *)

Lemma wf_init : wf init.
Proof.
  split; [reflexivity|]. intros p b H.
  change (heap init) with (∅ : gmap Z block) in H.
  rewrite lookup_empty in H. discriminate.
Qed.

Lemma wf_brk_fresh (s : state) : wf s -> heap s !! brk s = None.
Proof.
  intros [_ H]. destruct (heap s !! brk s) as [b|] eqn:E; [|reflexivity].
  apply H in E. lia.
Qed.


Lemma wf_same_heap (s s' : state) :
  wf s -> heap s' = heap s -> brk s <= brk s' -> wf s'.
Proof.
  intros [Hb H] Hh Hle. split; [lia|]. intros p b. rewrite Hh. intros E.
  apply H in E. lia.
Qed.

Lemma wf_alloc (s s' : state) (size : Z) (b : block) :
  wf s -> heap s' = <[brk s := b]> (heap s) -> brk s' = brk s + Z.max size 1 -> wf s'.
Proof.
  intros [Hb H] Hh Hbrk. split; [lia|]. intros p b'. rewrite Hh, lookup_insert.
  destruct (decide (brk s = p)) as [<-|Hne]; [intros _; lia|].
  intros E. apply H in E. lia.
Qed.

(** ** Summaries of the helpers *)

Ltac trace_shape :=
  cbn [trace heap brk devices instances log extend set_heap set_brk set_instances
       set_devices];
  rewrite <- ?app_assoc; cbn [app].

Ltac tail_inert := rewrite tail_run_cons, tail_step_inert by reflexivity.


Section Summaries.

Variable native : Native.

Lemma inert_null_instance (info : VkInstanceCreateInfo.t) (res : VkResult) :
  inert (EvCreateInstance info res 0) = true.
Proof. unfold inert, acquired, release_arg. destruct (res =? VK_SUCCESS); reflexivity. Qed.

Lemma inert_null_device (phys : Z) (info : VkDeviceCreateInfo.t) (res : VkResult) :
  inert (EvCreateDevice phys info res 0) = true.
Proof. unfold inert, acquired, release_arg. destruct (res =? VK_SUCCESS); reflexivity. Qed.

Lemma createInstance_summary (g_appName : string) (s : state) :
  exists (res : VkResult) (h : Z) (s' : state) (e : event),
    createInstance native g_appName 0 s = Done (res, h) s' /\
    trace s' = trace s ++ [e] /\
    heap s' = heap s /\ brk s' = brk s /\ devices s' = devices s /\
    (res <> VK_SUCCESS -> h = 0) /\
    (h = 0 -> inert e = true /\ instances s' = instances s) /\
    (h <> 0 -> acquired e = Some (RInstance h) /\ instances s' = {[h]} ∪ instances s).
Proof.
  unfold createInstance, bind, vkCreateInstance, ret.
  destruct (drv_vkCreateInstance native (trace s) _) as [res h].
  destruct (Z.eqb_spec res VK_SUCCESS) as [->|Hres].
  - destruct (Z.eqb_spec h 0) as [->|Hh]; do 4 eexists;
      (split; [reflexivity|]); cbn [trace heap brk devices instances log set_instances];
      repeat split; intros; try congruence; try reflexivity.
    cbn [acquired]. rewrite Z.eqb_refl. cbn [andb].
    destruct (Z.eqb_spec h 0); [contradiction | reflexivity].
  - do 4 eexists. (split; [reflexivity|]). cbn [trace heap brk devices instances log].
    repeat split; intros; try congruence; try reflexivity.
    apply inert_null_instance.
Qed.

(** The stack after the instance was created. *)
Lemma createInstance_tail (e : event) (h : Z) (l : list resource) (ok : bool) :
  (h = 0 -> inert e = true) -> (h <> 0 -> acquired e = Some (RInstance h)) ->
  tail_step (l, ok) e = (held_instance h ++ l, true).
Proof.
  intros H0 H1. destruct (Z.eq_dec h 0) as [->|Hh].
  - apply tail_step_inert. now apply H0.
  - rewrite held_instance_live by exact Hh. apply tail_step_acquire. now apply H1.
Qed.

Lemma createPhysicalDevicesArray_summary (vkInst : Z) (s : state) :
  wf s ->
  exists (res : VkResult) (c p : Z) (s' : state),
    createPhysicalDevicesArray native vkInst 0 NULL s = Done (res, c, p) s' /\
    wf s' /\ instances s' = instances s /\ devices s' = devices s /\
    (forall l, lifo_tail (trace s) l -> lifo_tail (trace s') (held_block p ++ l)) /\
    ((p = NULL /\ heap s' = heap s /\ (res = VK_SUCCESS -> c = 0)) \/
     (p <> NULL /\ heap s !! p = None /\
      exists (bytes : Z) (devs : list Z),
        heap s' = <[p := {| blk_bytes := bytes; blk_cells := PhysDevs devs |}]> (heap s) /\
        c = Z.of_nat (length devs))).
Proof.
  intros Hwf.
  destruct (drv_vkEnumeratePhysicalDevices_count native (trace s) vkInst) as [res c] eqn:Hd.
  destruct (Z.eq_dec res VK_SUCCESS) as [->|Hres].
  2:{ do 4 eexists. split; [apply createPhysicalDevicesArray_count_fails; eassumption|].
      trace_shape.
      split; [eapply wf_same_heap; [exact Hwf | reflexivity | cbn; lia]|].
      do 2 (split; [reflexivity|]). split; [|left; repeat split; congruence].
      intros l Hl. eapply lifo_tail_run; [exact Hl|]. now repeat tail_inert. }
  destruct (Z.eq_dec (wrap32 c) 0) as [Hc|Hc].
  { do 4 eexists. split; [apply createPhysicalDevicesArray_no_device with (c := c); assumption|].
    trace_shape.
    split; [eapply wf_same_heap; [exact Hwf | reflexivity | cbn; lia]|].
    do 2 (split; [reflexivity|]). split; [|left; repeat split; congruence].
    intros l Hl. eapply lifo_tail_run; [exact Hl|]. now repeat tail_inert. }
  set (q1 := EvEnumeratePhysicalDevices vkInst NULL 0 VK_SUCCESS (wrap32 c)).
  set (size := sizeof_VkPhysicalDevice * wrap32 c).
  destruct (drv_malloc native (trace s ++ [q1]) size) eqn:Hm.
  2:{ do 4 eexists.
      split; [apply createPhysicalDevicesArray_no_memory with (c := c);
              first [assumption | exact Hm]|].
      trace_shape.
      split; [eapply wf_same_heap; [exact Hwf | reflexivity | cbn; lia]|].
      do 2 (split; [reflexivity|]).
      split; [|left; repeat split; unfold VK_ERROR_OUT_OF_HOST_MEMORY, VK_SUCCESS; congruence].
      intros l Hl. eapply lifo_tail_run; [exact Hl|]. now repeat tail_inert. }
  destruct (drv_vkEnumeratePhysicalDevices_fill native
              (trace s ++ [q1; EvMalloc size (brk s)]) vkInst (wrap32 c)) as [res2 l] eqn:Hf.
  assert (Hp : brk s <> NULL) by (destruct Hwf; unfold NULL; lia).
  do 4 eexists. split.
  { apply createPhysicalDevicesArray_memory with (c := c) (res := res2) (l := l);
      first [assumption | exact Hm | exact Hf | apply Hwf]. }
  fold q1 size.
  destruct (res2 =? VK_SUCCESS); trace_shape.
  - split; [eapply wf_alloc; [exact Hwf | reflexivity | reflexivity]|].
    do 2 (split; [reflexivity|]). split.
    + intros l0 Hl. eapply lifo_tail_run; [exact Hl|].
      rewrite held_block_live by exact Hp. tail_inert.
      rewrite tail_run_cons, (tail_step_acquire _ (RBlock (brk s)))
        by (apply acquired_malloc, Hp).
      now repeat tail_inert.
    + right. split; [exact Hp|]. split; [apply wf_brk_fresh, Hwf|].
      do 2 eexists. split; reflexivity.
  - split; [eapply wf_alloc; [exact Hwf | reflexivity | reflexivity]|].
    do 2 (split; [reflexivity|]). split.
    + intros l0 Hl. eapply lifo_tail_run; [exact Hl|].
      rewrite held_block_live by exact Hp. tail_inert.
      rewrite tail_run_cons, (tail_step_acquire _ (RBlock (brk s)))
        by (apply acquired_malloc, Hp).
      now repeat tail_inert.
    + right. split; [exact Hp|]. split; [apply wf_brk_fresh, Hwf|].
      do 2 eexists. split; reflexivity.
Qed.

End Summaries.

(** ** tutorial02: the printing loops *)

Lemma log_extend (e : event) (s : state) : log e s = extend [e] s.
Proof. reflexivity. Qed.

Lemma extend_extend (ev1 ev2 : list event) (s : state) :
  extend ev2 (extend ev1 s) = extend (ev1 ++ ev2) s.
Proof. unfold extend. cbn [trace heap brk instances devices]. now rewrite app_assoc. Qed.

Lemma extend_nil (s : state) : extend [] s = s.
Proof. destruct s. unfold extend. cbn [trace heap brk instances devices]. now rewrite app_nil_r. Qed.

Lemma load_VkPhysicalDevice_run (p i bytes d : Z) (devs : list Z) (s : state) :
  heap s !! p = Some {| blk_bytes := bytes; blk_cells := PhysDevs devs |} ->
  0 <= i -> devs !! Z.to_nat i = Some d ->
  load_VkPhysicalDevice p i s = Done d s.
Proof.
  intros Hp Hi Hd. unfold load_VkPhysicalDevice. rewrite Hp, Hd.
  destruct (Z.leb_spec 0 i); [reflexivity | lia].
Qed.

Lemma load_VkQueueFamilyProperties_run
      (p j bytes : Z) (q : VkQueueFamilyProperties.t)
      (w : list VkQueueFamilyProperties.t) (s : state) :
  heap s !! p = Some {| blk_bytes := bytes; blk_cells := QuFams w |} ->
  0 <= j -> w !! Z.to_nat j = Some q ->
  load_VkQueueFamilyProperties p j s = Done q s.
Proof.
  intros Hp Hj Hq. unfold load_VkQueueFamilyProperties. rewrite Hp, Hq.
  destruct (Z.leb_spec 0 j); [reflexivity | lia].
Qed.

Lemma when_printf_run (b : bool) (fmt : string) (args : list parg) (s : state) :
  when b (printf fmt args) s = Done tt (extend (if b then [EvPrintf fmt args] else []) s).
Proof. destruct b; [reflexivity | now rewrite extend_nil]. Qed.

Lemma Forall_inert_flag (b : bool) (fmt : string) (args : list parg) :
  Forall (fun e => inert e = true) (if b then [EvPrintf fmt args] else []).
Proof. destruct b; repeat constructor. Qed.

(** One queue family: the events are print calls only. *)
Lemma printQueueFamily_run
      (vkQuFamProp j bytes : Z) (q : VkQueueFamilyProperties.t)
      (w : list VkQueueFamilyProperties.t) (s : state) :
  heap s !! vkQuFamProp = Some {| blk_bytes := bytes; blk_cells := QuFams w |} ->
  0 <= j -> w !! Z.to_nat j = Some q ->
  exists ev,
    Tutorial02.printQueueFamily vkQuFamProp j s = Done tt (extend ev s) /\
    Forall (fun e => inert e = true) ev.
Proof.
  intros Hp Hj Hq. unfold Tutorial02.printQueueFamily.
  erewrite bind_Done by apply printf_run. rewrite log_extend.
  erewrite bind_Done by (eapply load_VkQueueFamilyProperties_run; eassumption).
  do 3 (erewrite bind_Done by apply printf_run; rewrite log_extend, extend_extend).
  do 4 (erewrite bind_Done by apply when_printf_run; rewrite extend_extend).
  rewrite printf_run, log_extend, extend_extend.
  eexists. split; [reflexivity|].
  repeat (apply Forall_app; split); try apply Forall_inert_flag; repeat constructor.
Qed.

Lemma printQueueFamily_loop
      (vkQuFamProp bytes : Z) (w : list VkQueueFamilyProperties.t) (n : nat) :
  forall (j : Z) (s : state),
    heap s !! vkQuFamProp = Some {| blk_bytes := bytes; blk_cells := QuFams w |} ->
    0 <= j -> (Z.to_nat j + n <= length w)%nat ->
    exists ev,
      for_loop_from j n (fun j _ => Tutorial02.printQueueFamily vkQuFamProp j) tt s =
        Done tt (extend ev s) /\
      Forall (fun e => inert e = true) ev.
Proof.
  induction n as [|n IH]; intros j s Hp Hj Hlen; cbn [for_loop_from].
  - exists []. rewrite extend_nil. split; [reflexivity | constructor].
  - destruct (w !! Z.to_nat j) as [q|] eqn:Hq.
    2:{ apply lookup_ge_None in Hq. lia. }
    destruct (printQueueFamily_run vkQuFamProp j bytes q w s Hp Hj Hq) as (ev1 & Hrun & Hev1).
    erewrite bind_Done by exact Hrun.
    destruct (IH (j + 1) (extend ev1 s)) as (ev2 & Hrest & Hev2); [exact Hp | lia | lia |].
    rewrite Hrest, extend_extend. eexists. split; [reflexivity|].
    apply Forall_app. split; assumption.
Qed.

Section Tutorial02Loop.

Variable native : Native.

(** One physical device: the queue-family array is taken and given
    back within the iteration. *)
Lemma printQueueFamilyInfo_body_run
      (vkPhysDev i bytes d : Z) (devs : list Z) (s : state) :
  wf s ->
  heap s !! vkPhysDev = Some {| blk_bytes := bytes; blk_cells := PhysDevs devs |} ->
  0 <= i -> devs !! Z.to_nat i = Some d ->
  exists (s' : state) (ev : list event),
    Tutorial02.printQueueFamilyInfo_body native vkPhysDev i NULL s = Done NULL s' /\
    trace s' = trace s ++ ev /\ heap s' = heap s /\ brk s <= brk s' /\
    instances s' = instances s /\ devices s' = devices s /\
    (forall l, tail_run ev (l, true) = (l, true)).
Proof.
  intros Hwf Hp Hi Hd. unfold Tutorial02.printQueueFamilyInfo_body.
  erewrite bind_Done by (eapply load_VkPhysicalDevice_run; eassumption).
  erewrite bind_Done by reflexivity.
  erewrite bind_Done by apply printf_run.
  erewrite bind_Done by (eapply load_VkPhysicalDevice_run; eassumption).
  set (s2 := log _ (log _ s)).
  assert (Hbrk2 : 0 < brk s2) by apply Hwf.
  destruct (drv_malloc native (trace s2 ++ [count_query native d 0 s2])
              (sizeof_VkQueueFamilyProperties * reported_families native d s2)) eqn:Hm.
  - (* the array is allocated *)
    erewrite bind_Done by (apply getQueueFamilyProperites_memory; assumption).
    cbv beta iota.
    erewrite bind_Done by apply printf_run.
    rewrite Z.eqb_refl. cbn [negb].
    set (written := take _ _). set (s4 := log _ (log _ _)).
    assert (Hq : brk s2 <> NULL) by (unfold NULL; lia).
    assert (Hheap4 : heap s4 !! brk s2 =
              Some {| blk_bytes := sizeof_VkQueueFamilyProperties * reported_families native d s2;
                      blk_cells := QuFams written |}).
    { unfold s4. cbn [heap log set_heap]. apply lookup_insert_eq. }
    destruct (printQueueFamily_loop (brk s2) _ written (length written) 0 s4 Hheap4)
      as (ev & Hloop & Hev); [lia | cbn; lia |].
    unfold for_loop. rewrite Nat2Z.id.
    erewrite bind_Done by exact Hloop.
    destruct (Z.eqb_spec (brk s2) NULL) as [E|_]; [contradiction|]. cbn [negb].
    erewrite bind_Done by (eapply free_live; [exact Hq | exact Hheap4]).
    do 2 eexists. split; [reflexivity|].
    unfold s4, s2. trace_shape.
    split; [reflexivity|]. split.
    { rewrite delete_insert_eq. apply delete_id, (wf_brk_fresh s Hwf). }
    split; [lia|]. do 2 (split; [reflexivity|]).
    intros l. repeat tail_inert.
    rewrite tail_run_cons, (tail_step_acquire _ (RBlock (brk s)))
      by (apply acquired_malloc, Hq).
    repeat tail_inert. rewrite tail_run_app, tail_run_inert by exact Hev.
    rewrite tail_run_cons, tail_run_nil.
    apply tail_step_release_top, released_free, Hq.
  - (* the allocator refuses *)
    erewrite bind_Done by (apply getQueueFamilyProperites_no_memory; assumption).
    cbv beta iota.
    erewrite bind_Done by apply printf_run.
    change (negb (VK_ERROR_OUT_OF_HOST_MEMORY =? VK_SUCCESS)) with true. cbv iota.
    erewrite bind_Done by apply printf_run.
    rewrite Z.eqb_refl. cbn [negb].
    do 2 eexists. split; [reflexivity|].
    unfold s2. trace_shape.
    split; [reflexivity|]. split; [reflexivity|]. split; [lia|].
    do 2 (split; [reflexivity|]).
    intros l. now repeat tail_inert.
Qed.

Lemma printQueueFamilyInfo_loop (vkPhysDev bytes : Z) (devs : list Z) (n : nat) :
  forall (i : Z) (s : state),
    wf s ->
    heap s !! vkPhysDev = Some {| blk_bytes := bytes; blk_cells := PhysDevs devs |} ->
    0 <= i -> (Z.to_nat i + n <= length devs)%nat ->
    exists (s' : state) (ev : list event),
      for_loop_from i n (Tutorial02.printQueueFamilyInfo_body native vkPhysDev) NULL s =
        Done NULL s' /\
      trace s' = trace s ++ ev /\ heap s' = heap s /\ brk s <= brk s' /\
      instances s' = instances s /\ devices s' = devices s /\
      (forall l, tail_run ev (l, true) = (l, true)).
Proof.
  induction n as [|n IH]; intros i s Hwf Hp Hi Hlen; cbn [for_loop_from].
  - exists s, []. rewrite app_nil_r. repeat split; first [reflexivity | lia].
  - destruct (devs !! Z.to_nat i) as [d|] eqn:Hd.
    2:{ apply lookup_ge_None in Hd. lia. }
    destruct (printQueueFamilyInfo_body_run vkPhysDev i bytes d devs s Hwf Hp Hi Hd)
      as (s1 & ev1 & Hrun & Ht1 & Hh1 & Hb1 & Hi1 & Hd1 & Htail1).
    erewrite bind_Done by exact Hrun.
    destruct (IH (i + 1) s1) as (s2 & ev2 & Hrest & Ht2 & Hh2 & Hb2 & Hi2 & Hd2 & Htail2).
    { eapply wf_same_heap; eassumption. }
    { rewrite Hh1. exact Hp. }
    { lia. } { lia. }
    exists s2, (ev1 ++ ev2). split; [exact Hrest|].
    rewrite Ht2, Ht1, <- app_assoc. split; [reflexivity|].
    split; [congruence|]. split; [lia|]. split; [congruence|]. split; [congruence|].
    intros l. now rewrite tail_run_app, Htail1, Htail2.
Qed.

End Tutorial02Loop.

(** ** tutorial02: main *)

Lemma lifo_tail_inert_event (t : list event) (e : event) (l : list resource) :
  lifo_tail t l -> inert e = true -> lifo_tail (t ++ [e]) l.
Proof.
  intros Ht He. eapply lifo_tail_run; [exact Ht|].
  now rewrite tail_run_cons, tail_step_inert.
Qed.

Lemma tutorial02_cleanup_run (vkPhysDev vkInst : Z) (s : state) :
  (vkPhysDev = NULL \/ exists b, heap s !! vkPhysDev = Some b) ->
  (vkInst = 0 \/ (vkInst ∈ instances s /\ devices s = ∅)) ->
  lifo_tail (trace s) (held_block vkPhysDev ++ held_instance vkInst) ->
  exists s', Tutorial02.cleanup vkPhysDev vkInst s = Done 0 s' /\
             reverse_order_teardown (trace s').
Proof.
  intros Hp Hi Ht. unfold Tutorial02.cleanup.
  destruct (Z.eqb_spec vkPhysDev NULL) as [->|Hne]; cbn [negb when].
  - erewrite bind_Done by reflexivity.
    erewrite bind_Done by (apply vkDestroyInstance_run; exact Hi).
    erewrite bind_Done by apply printf_run.
    eexists. split; [reflexivity|].
    cbn [trace log]. apply reverse_order_teardown_intro.
    replace (trace (if vkInst =? 0 then s else set_instances (instances s ∖ {[vkInst]}) s))
      with (trace s) by (destruct (vkInst =? 0); reflexivity).
    eapply lifo_tail_run; [exact Ht|].
    rewrite held_block_null. cbn [app].
    rewrite tail_run_cons, tail_run_nil.
    rewrite <- (app_nil_r (held_instance vkInst)). apply tail_step_destroy_instance.
  - destruct Hp as [Hp|[b Hb]]; [contradiction|].
    erewrite bind_Done by (eapply free_live; eassumption).
    erewrite bind_Done by (apply vkDestroyInstance_run; exact Hi).
    erewrite bind_Done by apply printf_run.
    eexists. split; [reflexivity|].
    cbn [trace log]. apply reverse_order_teardown_intro.
    replace (trace (if vkInst =? 0 then log (EvFree vkPhysDev) (set_heap (delete vkPhysDev (heap s)) s)
                    else set_instances _ _))
      with (trace s ++ [EvFree vkPhysDev]) by (destruct (vkInst =? 0); reflexivity).
    rewrite <- app_assoc. cbn [app].
    eapply lifo_tail_run; [exact Ht|].
    rewrite tail_run_cons, tail_step_free, tail_run_cons, tail_run_nil.
    rewrite <- (app_nil_r (held_instance vkInst)). apply tail_step_destroy_instance.
Qed.

Section Tutorial02Main.

Variable native : Native.

Lemma printQueueFamilyInfo_run (vkPhysDev i_Count : Z) (s : state) :
  wf s ->
  ((vkPhysDev = NULL /\ i_Count = 0) \/
   (exists bytes devs,
      heap s !! vkPhysDev = Some {| blk_bytes := bytes; blk_cells := PhysDevs devs |} /\
      i_Count = Z.of_nat (length devs))) ->
  exists (s' : state) (ev : list event),
    Tutorial02.printQueueFamilyInfo native vkPhysDev i_Count s = Done tt s' /\
    trace s' = trace s ++ ev /\ heap s' = heap s /\
    instances s' = instances s /\ devices s' = devices s /\
    (forall l, tail_run ev (l, true) = (l, true)).
Proof.
  intros Hwf [[-> ->]|(bytes & devs & Hp & ->)];
    unfold Tutorial02.printQueueFamilyInfo, for_loop.
  - cbn [Z.to_nat for_loop_from]. exists s, []. rewrite app_nil_r.
    repeat split; reflexivity.
  - rewrite Nat2Z.id.
    destruct (printQueueFamilyInfo_loop native vkPhysDev bytes devs (length devs) 0 s Hwf Hp)
      as (s' & ev & Hrun & Ht & Hh & _ & Hi & Hd & Htail); [lia | cbn; lia |].
    erewrite bind_Done by exact Hrun.
    exists s', ev. repeat split; assumption.
Qed.

(** Every run of tutorial02 completes: either the instance could not be
    created, the exit code is -1 and nothing is held, or the exit code
    is 0 and the run ends with the teardown. *)
Lemma tutorial02_main_total :
  exists (res : VkResult) (h : Z) (s1 : state) (r : Z) (s : state),
    createInstance native Tutorial02.g_appName 0 init = Done (res, h) s1 /\
    Tutorial02.main native init = Done r s /\
    ((res <> VK_SUCCESS /\ r = -1 /\ live (trace s) = [] /\
      Forall (fun e => is_release_call e = false) (trace s)) \/
     (res = VK_SUCCESS /\ r = 0 /\ reverse_order_teardown (trace s))).
Proof.
  unfold Tutorial02.main.
  destruct (createInstance_summary native Tutorial02.g_appName init)
    as (res & h & s1 & e & Hrun & Ht1 & Hh1 & Hb1 & Hd1 & Hfail & Hnull & Hlive).
  exists res, h, s1.
  erewrite bind_Done by exact Hrun. cbv beta iota.
  change (trace init) with (@nil event) in Ht1. cbn [app] in Ht1.
  destruct (Z.eqb_spec res VK_SUCCESS) as [->|Hres]; cbn [negb].
  2:{ (* no instance *)
      erewrite bind_Done by apply printf_run.
      do 2 eexists. split; [exact Hrun|]. split; [reflexivity|].
      left. split; [exact Hres|]. split; [reflexivity|].
      cbn [trace log]. rewrite Ht1. cbn [app].
      destruct (Hnull (Hfail Hres)) as [He _].
      split.
      - unfold live, live_from. cbn [fold_left]. now rewrite (inert_track e [] He).
      - constructor; [apply inert_not_release, He | repeat constructor]. }
  assert (Hwf1 : wf s1).
  { eapply wf_same_heap; [apply wf_init | exact Hh1 | lia]. }
  assert (Htail1 : lifo_tail (trace s1) (held_instance h)).
  { rewrite Ht1. change [e] with ([] ++ [e]).
    eapply lifo_tail_run; [apply lifo_tail_nil|].
    rewrite tail_run_cons, tail_run_nil.
    rewrite <- (app_nil_r (held_instance h)).
    apply createInstance_tail; [apply Hnull | apply Hlive]. }
  assert (Hinst1 : h = 0 \/ (h ∈ instances s1 /\ devices s1 = ∅)).
  { destruct (Z.eq_dec h 0) as [Hz|Hnz]; [now left | right].
    destruct (Hlive Hnz) as [_ ->].
    split; [apply elem_of_union_l, elem_of_singleton; reflexivity | rewrite Hd1; reflexivity]. }
  destruct (createPhysicalDevicesArray_summary native h s1 Hwf1)
    as (res2 & c & p & s2 & Hrun2 & Hwf2 & Hi2 & Hd2 & Htail2 & Hcase).
  erewrite bind_Done by exact Hrun2. cbv beta iota.
  specialize (Htail2 _ Htail1).
  assert (Hinst2 : h = 0 \/ (h ∈ instances s2 /\ devices s2 = ∅)).
  { rewrite Hi2, Hd2. exact Hinst1. }
  assert (Hblock2 : p = NULL \/ exists b, heap s2 !! p = Some b).
  { destruct Hcase as [(-> & _)|(_ & _ & bytes & devs & -> & _)]; [now left | right].
    eexists. apply lookup_insert_eq. }
  destruct (Z.eqb_spec res2 VK_SUCCESS) as [->|Hres2]; cbn [negb].
  2:{ (* enumeration failed *)
      erewrite bind_Done by apply printf_run.
      destruct (tutorial02_cleanup_run p h (log (EvPrintf
                  "Failed to create physical devices list: %d\n" [PInt res2]) s2))
        as (s' & Hclean & Htd).
      - exact Hblock2.
      - exact Hinst2.
      - cbn [trace log]. apply lifo_tail_inert_event; [exact Htail2 | reflexivity].
      - rewrite Hclean. do 2 eexists. split; [exact Hrun|]. split; [reflexivity|].
        right. now repeat split. }
  destruct (printQueueFamilyInfo_run p c s2 Hwf2)
    as (s3 & ev & Hrun3 & Ht3 & Hh3 & Hi3 & Hd3 & Hneutral).
  { destruct Hcase as [(-> & _ & Hc)|(_ & _ & bytes & devs & -> & ->)].
    - left. split; [reflexivity | now apply Hc].
    - right. do 2 eexists. split; [apply lookup_insert_eq | reflexivity]. }
  erewrite bind_Done by exact Hrun3.
  destruct (tutorial02_cleanup_run p h s3) as (s' & Hclean & Htd).
  - rewrite Hh3. exact Hblock2.
  - rewrite Hi3, Hd3. exact Hinst2.
  - rewrite Ht3. eapply lifo_tail_run; [exact Htail2 | apply Hneutral].
  - rewrite Hclean. do 2 eexists. split; [exact Hrun|]. split; [reflexivity|].
        right. now repeat split.
Qed.

End Tutorial02Main.

(** ** tutorial03 *)

Lemma tutorial03_cleanup_run (vkDev vkPhysDev vkInst : Z) (s : state) :
  devices s = (if vkDev =? 0 then ∅ else {[vkDev]}) ->
  (vkPhysDev = NULL \/ exists b, heap s !! vkPhysDev = Some b) ->
  (vkInst = 0 \/ vkInst ∈ instances s) ->
  lifo_tail (trace s) (held_device vkDev ++ held_block vkPhysDev ++ held_instance vkInst) ->
  exists s', Tutorial03.cleanup vkDev vkPhysDev vkInst s = Done 0 s' /\
             reverse_order_teardown (trace s').
Proof.
  intros Hd Hp Hi Ht. unfold Tutorial03.cleanup.
  (* the device *)
  assert (Hdev : vkDev = 0 \/ vkDev ∈ devices s).
  { destruct (Z.eqb_spec vkDev 0); [now left | right].
    rewrite Hd. apply elem_of_singleton. reflexivity. }
  erewrite bind_Done by (apply vkDestroyDevice_run; exact Hdev).
  set (s1 := log _ _).
  assert (Hd1 : devices s1 = ∅).
  { unfold s1. destruct (Z.eqb_spec vkDev 0); cbn [devices log set_devices].
    - exact Hd.
    - rewrite Hd. apply difference_diag_L. }
  assert (Hh1 : heap s1 = heap s) by (unfold s1; destruct (vkDev =? 0); reflexivity).
  assert (Hi1 : instances s1 = instances s) by (unfold s1; destruct (vkDev =? 0); reflexivity).
  assert (Ht1 : trace s1 = trace s ++ [EvDestroyDevice vkDev])
    by (unfold s1; destruct (vkDev =? 0); reflexivity).
  assert (Htail1 : lifo_tail (trace s1) (held_block vkPhysDev ++ held_instance vkInst)).
  { rewrite Ht1. eapply lifo_tail_run; [exact Ht|].
    rewrite tail_run_cons, tail_run_nil. apply tail_step_destroy_device. }
  clearbody s1. clear Hdev Hd Ht.
  (* the device array *)
  assert (Hfree : exists s2,
            when (negb (vkPhysDev =? NULL)) (free vkPhysDev) s1 = Done tt s2 /\
            devices s2 = ∅ /\ instances s2 = instances s /\
            lifo_tail (trace s2) (held_instance vkInst)).
  { destruct (Z.eqb_spec vkPhysDev NULL) as [->|Hne]; cbn [negb when].
    - exists s1. repeat split; try assumption.
    - destruct Hp as [Hp|[b Hb]]; [contradiction|].
      eexists. split; [eapply free_live; [exact Hne | rewrite Hh1; exact Hb]|].
      cbn [devices instances trace log set_heap]. repeat split; try assumption.
      eapply lifo_tail_run; [exact Htail1|].
      rewrite tail_run_cons, tail_run_nil. apply tail_step_free. }
  destruct Hfree as (s2 & Hrun2 & Hd2 & Hi2 & Htail2).
  erewrite bind_Done by exact Hrun2.
  (* the instance *)
  assert (Hinst : vkInst = 0 \/ (vkInst ∈ instances s2 /\ devices s2 = ∅)).
  { destruct Hi as [Hi|Hi]; [now left | right]. rewrite Hi2. now split. }
  erewrite bind_Done by (apply vkDestroyInstance_run; exact Hinst).
  erewrite bind_Done by apply printf_run.
  eexists. split; [reflexivity|].
  cbn [trace log]. apply reverse_order_teardown_intro.
  replace (trace (if vkInst =? 0 then s2 else set_instances (instances s2 ∖ {[vkInst]}) s2))
    with (trace s2) by (destruct (vkInst =? 0); reflexivity).
  eapply lifo_tail_run; [exact Htail2|].
  rewrite tail_run_cons, tail_run_nil.
  rewrite <- (app_nil_r (held_instance vkInst)). apply tail_step_destroy_instance.
Qed.

Section Tutorial03Main.

Variable native : Native.

Lemma vkCreateDevice_summary (phys : Z) (info : VkDeviceCreateInfo.t) (s : state) :
  exists (res : VkResult) (h : Z) (s' : state) (e : event),
    vkCreateDevice native phys info 0 s = Done (res, h) s' /\
    trace s' = trace s ++ [e] /\
    heap s' = heap s /\ brk s' = brk s /\ instances s' = instances s /\
    (res <> VK_SUCCESS -> h = 0) /\
    (h = 0 -> inert e = true /\ devices s' = devices s) /\
    (h <> 0 -> acquired e = Some (RDevice h) /\ devices s' = {[h]} ∪ devices s).
Proof.
  unfold vkCreateDevice.
  destruct (drv_vkCreateDevice native (trace s) phys info) as [res h].
  destruct (Z.eqb_spec res VK_SUCCESS) as [->|Hres].
  - destruct (Z.eqb_spec h 0) as [->|Hh]; do 4 eexists;
      (split; [reflexivity|]); cbn [trace heap brk devices instances log set_devices];
      repeat split; intros; try congruence; try reflexivity.
    cbn [acquired]. rewrite Z.eqb_refl. cbn [andb].
    destruct (Z.eqb_spec h 0); [contradiction | reflexivity].
  - do 4 eexists. (split; [reflexivity|]). cbn [trace heap brk devices instances log].
    repeat split; intros; try congruence; try reflexivity.
    apply inert_null_device.
Qed.

(** [createDevice]: the queue-family array is given back before the
    function returns; the logical device, if created, is held. *)
Lemma createDevice_summary (vkPhysDev : Z) (s : state) :
  wf s -> devices s = ∅ ->
  exists (res : VkResult) (d : Z) (s' : state) (ev : list event),
    Tutorial03.createDevice native vkPhysDev 0 s = Done (res, d) s' /\
    trace s' = trace s ++ ev /\ heap s' = heap s /\ instances s' = instances s /\
    devices s' = (if d =? 0 then ∅ else {[d]}) /\
    (forall l e, inert e = true ->
                 tail_run (ev ++ [e]) (l, true) = (held_device d ++ l, true)).
Proof.
  intros Hwf Hdev. unfold Tutorial03.createDevice.
  assert (Hbrk : 0 < brk s) by apply Hwf.
  destruct (drv_malloc native (trace s ++ [count_query native vkPhysDev 0 s])
              (sizeof_VkQueueFamilyProperties * reported_families native vkPhysDev s)) eqn:Hm.
  - (* the array is allocated *)
    erewrite bind_Done by (apply getQueueFamilyProperites_memory; assumption).
    cbv beta iota. rewrite Z.eqb_refl. cbn [negb].
    set (s3 := log _ (set_heap _ _)). set (info := VkDeviceCreateInfo.set_pQueueCreateInfos _ _).
    destruct (vkCreateDevice_summary vkPhysDev info s3)
      as (res & h & s4 & e & Hrun & Ht4 & Hh4 & Hb4 & Hi4 & Hfail & Hnull & Hlive).
    erewrite bind_Done by exact Hrun. cbv beta iota.
    unfold Tutorial03.createDevice_cleanup.
    assert (Hq : brk s <> NULL) by (unfold NULL; lia).
    destruct (Z.eqb_spec (brk s) NULL) as [E|_]; [contradiction|]. cbn [negb when].
    erewrite bind_Done; cycle 1.
    { eapply free_live; [exact Hq|]. rewrite Hh4. unfold s3. cbn [heap log set_heap].
      apply lookup_insert_eq. }
    do 4 eexists. split; [reflexivity|].
    cbn [trace heap instances devices log set_heap]. rewrite Ht4, Hh4, Hi4.
    unfold s3. trace_shape.
    split; [reflexivity|].
    split; [rewrite delete_insert_eq; apply delete_id, (wf_brk_fresh s Hwf)|].
    split; [reflexivity|]. split.
    + destruct (Z.eqb_spec h 0) as [Hz|Hnz].
      * destruct (Hnull Hz) as [_ ->]. unfold s3. cbn [devices log set_heap set_brk]. exact Hdev.
      * destruct (Hlive Hnz) as [_ ->]. unfold s3. cbn [devices log set_heap set_brk].
        rewrite Hdev. apply union_empty_r_L.
    + intros l e' He'. cbn [app]. tail_inert.
      rewrite tail_run_cons, (tail_step_acquire _ (RBlock (brk s)))
        by (apply acquired_malloc, Hq).
      tail_inert.
      destruct (Z.eq_dec h 0) as [Hz|Hnz].
      * destruct (Hnull Hz) as [He _]. subst h.
        rewrite tail_run_cons, (tail_step_inert e) by exact He.
        rewrite tail_run_cons, (tail_step_release_top _ (RBlock (brk s)))
          by (apply released_free, Hq).
        rewrite tail_run_cons, tail_run_nil. now apply tail_step_inert.
      * destruct (Hlive Hnz) as [He _].
        rewrite held_device_live by exact Hnz.
        rewrite tail_run_cons, (tail_step_acquire e (RDevice h)) by exact He.
        rewrite tail_run_cons, (tail_step_release_second _ (RBlock (brk s)))
          by (first [apply released_free, Hq | reflexivity]).
        rewrite tail_run_cons, tail_run_nil. now apply tail_step_inert.
  - (* the allocator refuses *)
    erewrite bind_Done by (apply getQueueFamilyProperites_no_memory; assumption).
    cbv beta iota.
    change (negb (VK_ERROR_OUT_OF_HOST_MEMORY =? VK_SUCCESS)) with true. cbv iota.
    unfold Tutorial03.createDevice_cleanup. rewrite Z.eqb_refl. cbn [negb when].
    erewrite bind_Done by reflexivity.
    do 4 eexists. split; [reflexivity|].
    trace_shape. do 3 (split; [reflexivity|]). split; [exact Hdev|].
    intros l e' He'. cbn [app]. repeat tail_inert.
    rewrite tail_run_cons, tail_run_nil. now apply tail_step_inert.
Qed.

(** Every run of tutorial03: the instance could not be created and
    nothing is held; or the run ends with the teardown; or no device
    was written and the read of [vkPhysDev[0]] faults. *)
Lemma tutorial03_main_cases :
  exists (res : VkResult) (h : Z) (s1 : state),
    createInstance native Tutorial03.g_appName 0 init = Done (res, h) s1 /\
    ((exists (r : Z) (s : state),
        Tutorial03.main native init = Done r s /\
        ((res <> VK_SUCCESS /\ r = -1 /\ live (trace s) = [] /\
          Forall (fun e => is_release_call e = false) (trace s)) \/
         (res = VK_SUCCESS /\ r = 0 /\ reverse_order_teardown (trace s)))) \/
     (exists s : state,
        Tutorial03.main native init = Fault s /\
        last (trace s) = Some (EvPrintf " List of queue families, obtained.\n" []))).
Proof.
  unfold Tutorial03.main.
  destruct (createInstance_summary native Tutorial03.g_appName init)
    as (res & h & s1 & e & Hrun & Ht1 & Hh1 & Hb1 & Hd1 & Hfail & Hnull & Hlive).
  exists res, h, s1. split; [exact Hrun|].
  erewrite bind_Done by exact Hrun. cbv beta iota.
  change (trace init) with (@nil event) in Ht1. cbn [app] in Ht1.
  destruct (Z.eqb_spec res VK_SUCCESS) as [->|Hres]; cbn [negb].
  2:{ (* no instance *)
      left. erewrite bind_Done by apply printf_run.
      do 2 eexists. split; [reflexivity|].
      left. split; [exact Hres|]. split; [reflexivity|].
      cbn [trace log]. rewrite Ht1. cbn [app].
      destruct (Hnull (Hfail Hres)) as [He _].
      split.
      - unfold live, live_from. cbn [fold_left]. now rewrite (inert_track e [] He).
      - constructor; [apply inert_not_release, He | repeat constructor]. }
  erewrite bind_Done by apply printf_run.
  set (s1' := log _ s1).
  assert (Hwf1 : wf s1').
  { eapply wf_same_heap; [apply wf_init | exact Hh1 | unfold s1'; cbn [brk log]; lia]. }
  assert (Htail1 : lifo_tail (trace s1') (held_instance h)).
  { unfold s1'. cbn [trace log]. rewrite Ht1. change ([e] ++ ?x) with ([] ++ e :: x).
    eapply lifo_tail_run; [apply lifo_tail_nil|].
    rewrite tail_run_cons.
    rewrite <- (app_nil_r (held_instance h)).
    rewrite (createInstance_tail e h [] true); [|apply Hnull | apply Hlive].
    now tail_inert. }
  assert (Hinst1 : h = 0 \/ h ∈ instances s1').
  { destruct (Z.eq_dec h 0) as [Hz|Hnz]; [now left | right].
    unfold s1'. cbn [instances log]. destruct (Hlive Hnz) as [_ ->].
    apply elem_of_union_l, elem_of_singleton; reflexivity. }
  assert (Hdev1 : devices s1' = ∅) by (unfold s1'; cbn [devices log]; rewrite Hd1; reflexivity).
  clearbody s1'.
  destruct (createPhysicalDevicesArray_summary native h s1' Hwf1)
    as (res2 & c & p & s2 & Hrun2 & Hwf2 & Hi2 & Hd2 & Htail2 & Hcase).
  erewrite bind_Done by exact Hrun2. cbv beta iota.
  specialize (Htail2 _ Htail1).
  assert (Hinst2 : h = 0 \/ h ∈ instances s2) by (rewrite Hi2; exact Hinst1).
  assert (Hdev2 : devices s2 = ∅) by (rewrite Hd2; exact Hdev1).
  assert (Hblock2 : p = NULL \/ exists b, heap s2 !! p = Some b).
  { destruct Hcase as [(-> & _)|(_ & _ & bytes & devs & -> & _)]; [now left | right].
    eexists. apply lookup_insert_eq. }
  destruct (Z.eqb_spec res2 VK_SUCCESS) as [->|Hres2]; cbn [negb].
  2:{ (* enumeration failed *)
      left. erewrite bind_Done by apply printf_run.
      destruct (tutorial03_cleanup_run 0 p h (log (EvPrintf
                  "Failed to create physical devices list: %d\n" [PInt res2]) s2))
        as (s' & Hclean & Htd).
      - exact Hdev2.
      - exact Hblock2.
      - exact Hinst2.
      - cbn [trace log]. apply lifo_tail_inert_event; [exact Htail2 | reflexivity].
      - rewrite Hclean. do 2 eexists. split; [reflexivity|]. right. now repeat split. }
  erewrite bind_Done by apply printf_run.
  set (s2' := log _ s2).
  (* the read of vkPhysDev[0] *)
  destruct (load_VkPhysicalDevice p 0 s2') as [d s2''|sf] eqn:Hload.
  2:{ right. exists sf. erewrite bind_Fault by exact Hload. split; [reflexivity|].
      pose proof (load_VkPhysicalDevice_silent p 0 s2') as Hsil.
      rewrite Hload in Hsil. cbn [final_state] in Hsil. rewrite Hsil.
      unfold s2'. cbn [trace log]. apply last_snoc. }
  left.
  assert (Hs2'' : s2'' = s2').
  { unfold load_VkPhysicalDevice in Hload.
    destruct (heap s2' !! p) as [[bytes [|l|l]]|]; try discriminate.
    destruct (l !! Z.to_nat 0); [|discriminate].
    cbn in Hload. congruence. }
  subst s2''.
  erewrite bind_Done by exact Hload.
  destruct (createDevice_summary d s2')
    as (res3 & dv & s3 & ev & Hrun3 & Ht3 & Hh3 & Hi3 & Hd3 & Htail3).
  { eapply wf_same_heap; [exact Hwf2 | reflexivity | unfold s2'; cbn [brk log]; lia]. }
  { exact Hdev2. }
  erewrite bind_Done by exact Hrun3. cbv beta iota.
  assert (Htail2' : lifo_tail (trace s2') (held_block p ++ held_instance h)).
  { unfold s2'. cbn [trace log]. apply lifo_tail_inert_event; [exact Htail2 | reflexivity]. }
  destruct (Z.eqb_spec res3 VK_SUCCESS) as [->|Hres3]; cbn [negb].
  - erewrite bind_Done by apply printf_run.
    destruct (tutorial03_cleanup_run dv p h (log (EvPrintf " Logical device created.\n" []) s3))
      as (s' & Hclean & Htd).
    + exact Hd3.
    + cbn [heap log]. rewrite Hh3. exact Hblock2.
    + cbn [instances log]. rewrite Hi3. exact Hinst2.
    + cbn [trace log]. rewrite Ht3, <- app_assoc.
      eapply lifo_tail_run; [exact Htail2' | now apply Htail3].
    + rewrite Hclean. do 2 eexists. split; [reflexivity|]. right. now repeat split.
  - erewrite bind_Done by apply printf_run.
    destruct (tutorial03_cleanup_run dv p h
                (log (EvPrintf "Failed to create device: %d\n" [PInt res3]) s3))
      as (s' & Hclean & Htd).
    + exact Hd3.
    + cbn [heap log]. rewrite Hh3. exact Hblock2.
    + cbn [instances log]. rewrite Hi3. exact Hinst2.
    + cbn [trace log]. rewrite Ht3, <- app_assoc.
      eapply lifo_tail_run; [exact Htail2' | now apply Htail3].
    + rewrite Hclean. do 2 eexists. split; [reflexivity|]. right. now repeat split.
Qed.

End Tutorial03Main.

(** C5, amended: the teardown of tutorial02 and tutorial03 is in strict
    reverse-acquisition order, which is: the logical device first (on
    tutorial03), then the device array, then the instance.  Every run
    of tutorial02 completes; unless the instance could not be created
    (exit -1, nothing held), the run ends with a block of free and
    destroy calls that gives back exactly the resources held, the most
    recently acquired first, and then prints the closing message.  The
    same holds of every run of tutorial03 that does not fault on
    reading [vkPhysDev[0]]. *)
Theorem teardown_in_reverse_acquisition_order (native : Native) :
  (exists (res : VkResult) (h : Z) (s1 : state) (r : Z) (s : state),
     createInstance native Tutorial02.g_appName 0 init = Done (res, h) s1 /\
     Tutorial02.main native init = Done r s /\
     ((res <> VK_SUCCESS /\ r = -1 /\ live (trace s) = [] /\
       Forall (fun e => is_release_call e = false) (trace s)) \/
      (res = VK_SUCCESS /\ r = 0 /\ reverse_order_teardown (trace s)))) /\
  (exists (res : VkResult) (h : Z) (s1 : state),
     createInstance native Tutorial03.g_appName 0 init = Done (res, h) s1 /\
     ((exists (r : Z) (s : state),
         Tutorial03.main native init = Done r s /\
         ((res <> VK_SUCCESS /\ r = -1 /\ live (trace s) = [] /\
           Forall (fun e => is_release_call e = false) (trace s)) \/
          (res = VK_SUCCESS /\ r = 0 /\ reverse_order_teardown (trace s)))) \/
      (exists s : state,
         Tutorial03.main native init = Fault s /\
         last (trace s) = Some (EvPrintf " List of queue families, obtained.\n" [])))).
Proof.
  split; [apply tutorial02_main_total | apply tutorial03_main_cases].
Qed.

(** On the sample system the teardown of tutorial03 is the last four
    events, and the three calls give back what is held in stack order. *)
Example tutorial03_teardown :
  exists pre,
    events (Tutorial03.main one_gpu init) =
      pre ++ [EvDestroyDevice 300; EvFree 4096; EvDestroyInstance 100] ++
      [EvPrintf " Cleanup done.\n" []] /\
    live pre = [RDevice 300; RBlock 4096; RInstance 100] /\
    last pre = Some (EvPrintf " Logical device created.\n" []).
Proof.
  eexists (take 12 (events (Tutorial03.main one_gpu init))). repeat split.
Qed.

(** * Further properties *)

(** ** The version macros, the other way round *)

Lemma version_field_bounds (x : Z) :
  0 <= VK_API_MAJOR_VERSION x < 2 ^ 10 /\
  0 <= VK_API_MINOR_VERSION x < 2 ^ 10 /\
  0 <= VK_API_PATCH_VERSION x < 2 ^ 12.
Proof.
  unfold VK_API_MAJOR_VERSION, VK_API_MINOR_VERSION, VK_API_PATCH_VERSION.
  change 0x3FF with (Z.ones 10). change 0xFFF with (Z.ones 12).
  rewrite !Z.land_ones by lia.
  split; [|split]; apply Z.mod_pos_bound; lia.
Qed.

(** X1: for every 32-bit value the three macros give fields within
    their widths, and packing the fields gives the value back: the
    decomposition loses nothing. *)
Theorem version_decode_then_pack (x : Z) :
  0 <= x < 2 ^ 32 ->
  0 <= VK_API_MAJOR_VERSION x < 2 ^ 10 /\
  0 <= VK_API_MINOR_VERSION x < 2 ^ 10 /\
  0 <= VK_API_PATCH_VERSION x < 2 ^ 12 /\
  pack_version (VK_API_MAJOR_VERSION x) (VK_API_MINOR_VERSION x) (VK_API_PATCH_VERSION x) = x.
Proof.
  intros Hx.
  destruct (version_field_bounds x) as (HM & Hm & Hp).
  do 3 (split; [assumption|]).
  rewrite pack_version_no_wrap by assumption.
  unfold VK_API_MAJOR_VERSION, VK_API_MINOR_VERSION, VK_API_PATCH_VERSION.
  change 0x3FF with (Z.ones 10). change 0xFFF with (Z.ones 12).
  apply Z.bits_inj'. intros n Hn.
  rewrite !Z.lor_spec, !Z.shiftl_spec, !Z.land_spec by lia.
  destruct (Z_lt_le_dec n 12) as [H12|H12].
  - rewrite (Z.testbit_neg_r _ (n - 22)), (Z.testbit_neg_r _ (n - 12)) by lia.
    rewrite (Z.ones_spec_low 12 n) by lia.
    cbn [andb orb]. now rewrite andb_true_r.
  - rewrite (Z.ones_spec_high 12 n), andb_false_r, orb_false_r by lia.
    destruct (Z_lt_le_dec n 22) as [H22|H22].
    + rewrite (Z.testbit_neg_r (Z.ones 10) (n - 22)), andb_false_r by lia.
      rewrite (Z.ones_spec_low 10 (n - 12)), Z.shiftr_spec by lia.
      replace (n - 12 + 12) with n by lia.
      cbn [orb]. now rewrite andb_true_r.
    + rewrite (Z.ones_spec_high 10 (n - 12)), andb_false_r, orb_false_r by lia.
      rewrite Z.shiftr_spec by lia.
      replace (n - 22 + 22) with n by lia.
      destruct (Z_lt_le_dec n 32) as [H32|H32].
      * rewrite (Z.ones_spec_low 10 (n - 22)) by lia. now rewrite andb_true_r.
      * rewrite (Z.ones_spec_high 10 (n - 22)), andb_false_r by lia.
        symmetry. apply (testbit_small x n 32); lia.
Qed.

Lemma version_decode_then_pack_all_ones :
  0 <= 0xFFFFFFFF < 2 ^ 32 /\
  0 <= VK_API_MAJOR_VERSION 0xFFFFFFFF < 2 ^ 10 /\
  0 <= VK_API_MINOR_VERSION 0xFFFFFFFF < 2 ^ 10 /\
  0 <= VK_API_PATCH_VERSION 0xFFFFFFFF < 2 ^ 12 /\
  pack_version (VK_API_MAJOR_VERSION 0xFFFFFFFF) (VK_API_MINOR_VERSION 0xFFFFFFFF)
    (VK_API_PATCH_VERSION 0xFFFFFFFF) = 0xFFFFFFFF.
Proof.
  split; [lia|]. apply (version_decode_then_pack 0xFFFFFFFF). lia.
Defined.

(** ** What the enumerators hand to their caller *)

Lemma load_written_device (p i bytes : Z) (devs : list Z) (s : state) :
  heap s !! p = Some {| blk_bytes := bytes; blk_cells := PhysDevs devs |} ->
  0 <= i < Z.of_nat (length devs) ->
  exists d, load_VkPhysicalDevice p i s = Done d s.
Proof.
  intros Hp Hi.
  destruct (devs !! Z.to_nat i) as [d|] eqn:Hd.
  - exists d. eapply load_VkPhysicalDevice_run; [exact Hp | lia | exact Hd].
  - apply lookup_ge_None in Hd. lia.
Qed.

Lemma load_written_family (p j bytes : Z) (fams : list VkQueueFamilyProperties.t) (s : state) :
  heap s !! p = Some {| blk_bytes := bytes; blk_cells := QuFams fams |} ->
  0 <= j < Z.of_nat (length fams) ->
  exists f, load_VkQueueFamilyProperties p j s = Done f s.
Proof.
  intros Hp Hj.
  destruct (fams !! Z.to_nat j) as [f|] eqn:Hf.
  - exists f. eapply load_VkQueueFamilyProperties_run; [exact Hp | lia | exact Hf].
  - apply lookup_ge_None in Hf. lia.
Qed.

Lemma written_count_bound {A : Type} (n : Z) (l : list A) :
  0 <= n -> 0 <= Z.of_nat (length (take (Z.to_nat n) l)) <= n.
Proof. intros Hn. pose proof (length_take_le (Z.to_nat n) l). lia. Qed.

(** X2: [createPhysicalDevicesArray] never faults.  The count it leaves
    is a 32-bit value.  Either it leaves [*vkPhysDev] alone, or it sets
    it to null with VK_ERROR_OUT_OF_HOST_MEMORY, or it sets it to a
    fresh block that is still allocated on return, whatever the status
    (so also when the second query fails: the caller owns the block).
    When the status is VK_SUCCESS, every entry below the returned count
    can be read. *)
Theorem createPhysicalDevicesArray_contract
    (native : Native) (vkInst i_devCount vkPhysDev : Z) (s : state) :
  wf s ->
  exists (res : VkResult) (c p : Z) (s' : state),
    createPhysicalDevicesArray native vkInst i_devCount vkPhysDev s = Done (res, c, p) s' /\
    wf s' /\ 0 <= c < 2 ^ 32 /\
    ((p = vkPhysDev /\ heap s' = heap s) \/
     (p = NULL /\ res = VK_ERROR_OUT_OF_HOST_MEMORY /\ heap s' = heap s) \/
     (p <> NULL /\ heap s !! p = None /\
      exists (bytes : Z) (devs : list Z),
        heap s' = <[p := {| blk_bytes := bytes; blk_cells := PhysDevs devs |}]> (heap s) /\
        c = Z.of_nat (length devs))) /\
    (res = VK_SUCCESS ->
     forall i, 0 <= i < c -> exists d, load_VkPhysicalDevice p i s' = Done d s').
Proof.
  intros Hwf.
  destruct (drv_vkEnumeratePhysicalDevices_count native (trace s) vkInst) as [res c] eqn:Hd.
  pose proof (wrap32_range c) as Hc32.
  destruct (Z.eq_dec res VK_SUCCESS) as [->|Hres].
  2:{ do 4 eexists. split; [apply createPhysicalDevicesArray_count_fails; eassumption|].
      split; [eapply wf_same_heap; [exact Hwf | reflexivity | cbn; lia]|].
      split; [exact Hc32|]. split; [left; split; reflexivity | contradiction]. }
  destruct (Z.eq_dec (wrap32 c) 0) as [Hc|Hc].
  { do 4 eexists. split; [apply createPhysicalDevicesArray_no_device with (c := c); assumption|].
    split; [eapply wf_same_heap; [exact Hwf | reflexivity | cbn; lia]|].
    split; [lia|]. split; [left; split; reflexivity | intros _ i Hi; lia]. }
  set (q1 := EvEnumeratePhysicalDevices vkInst NULL i_devCount VK_SUCCESS (wrap32 c)).
  set (size := sizeof_VkPhysicalDevice * wrap32 c).
  destruct (drv_malloc native (trace s ++ [q1]) size) eqn:Hm.
  2:{ do 4 eexists.
      split; [apply createPhysicalDevicesArray_no_memory with (c := c);
              first [assumption | exact Hm]|].
      split; [eapply wf_same_heap; [exact Hwf | reflexivity | cbn; lia]|].
      split; [exact Hc32|]. split; [right; left; repeat split|].
      unfold VK_ERROR_OUT_OF_HOST_MEMORY, VK_SUCCESS. discriminate. }
  destruct (drv_vkEnumeratePhysicalDevices_fill native
              (trace s ++ [q1; EvMalloc size (brk s)]) vkInst (wrap32 c)) as [res2 l] eqn:Hf.
  assert (Hp : brk s <> NULL) by (destruct Hwf; unfold NULL; lia).
  pose proof (written_count_bound (wrap32 c) l (proj1 Hc32)) as Hlen.
  do 4 eexists. split.
  { apply createPhysicalDevicesArray_memory with (c := c) (res := res2) (l := l);
      first [assumption | exact Hm | exact Hf | apply Hwf]. }
  fold q1 size.
  set (written := take (Z.to_nat (wrap32 c)) l) in *.
  assert (Hheap : forall s0,
            heap s0 = <[brk s := {| blk_bytes := size; blk_cells := PhysDevs written |}]> (heap s) ->
            forall i, 0 <= i < Z.of_nat (length written) ->
                      exists d, load_VkPhysicalDevice (brk s) i s0 = Done d s0).
  { intros s0 Hs0 i Hi. eapply load_written_device; [|exact Hi].
    rewrite Hs0. apply lookup_insert_eq. }
  destruct (res2 =? VK_SUCCESS).
  - split; [eapply wf_alloc; [exact Hwf | reflexivity | reflexivity]|].
    split; [lia|]. split.
    + right; right. split; [exact Hp|]. split; [apply wf_brk_fresh, Hwf|].
      do 2 eexists. split; reflexivity.
    + intros _. apply Hheap. reflexivity.
  - split; [eapply wf_alloc; [exact Hwf | reflexivity | reflexivity]|].
    split; [lia|]. split.
    + right; right. split; [exact Hp|]. split; [apply wf_brk_fresh, Hwf|].
      do 2 eexists. split; reflexivity.
    + intros _. apply Hheap. reflexivity.
Qed.

Lemma createPhysicalDevicesArray_contract_one_gpu :
  wf init /\
  exists (res : VkResult) (c p : Z) (s' : state),
    createPhysicalDevicesArray one_gpu 100 0 NULL init = Done (res, c, p) s' /\
    wf s' /\ 0 <= c < 2 ^ 32 /\
    ((p = NULL /\ heap s' = heap init) \/
     (p = NULL /\ res = VK_ERROR_OUT_OF_HOST_MEMORY /\ heap s' = heap init) \/
     (p <> NULL /\ heap init !! p = None /\
      exists (bytes : Z) (devs : list Z),
        heap s' = <[p := {| blk_bytes := bytes; blk_cells := PhysDevs devs |}]> (heap init) /\
        c = Z.of_nat (length devs))) /\
    (res = VK_SUCCESS ->
     forall i, 0 <= i < c -> exists d, load_VkPhysicalDevice p i s' = Done d s').
Proof.
  split; [exact wf_init|].
  apply (createPhysicalDevicesArray_contract one_gpu 100 0 NULL init wf_init).
Defined.

(** X3: [getQueueFamilyProperites] never faults.  The count it leaves
    is at most the count the first query reported.  Either the
    allocation failed (null pointer, VK_ERROR_OUT_OF_HOST_MEMORY, heap
    untouched), or the function returns VK_SUCCESS with a fresh block
    of [sizeof(VkQueueFamilyProperties)] times the reported count
    bytes, in which every entry below the returned count can be read. *)
Theorem getQueueFamilyProperites_contract
    (native : Native) (vkPhysDev i_Count vkQuFamProps : Z) (s : state) :
  wf s ->
  exists (res : VkResult) (c q : Z) (s' : state),
    getQueueFamilyProperites native vkPhysDev i_Count vkQuFamProps s = Done (res, c, q) s' /\
    wf s' /\ 0 <= c <= reported_families native vkPhysDev s /\
    ((q = NULL /\ res = VK_ERROR_OUT_OF_HOST_MEMORY /\ heap s' = heap s /\
      c = reported_families native vkPhysDev s) \/
     (q <> NULL /\ res = VK_SUCCESS /\ heap s !! q = None /\
      exists fams : list VkQueueFamilyProperties.t,
        heap s' =
          <[q := {| blk_bytes :=
                      sizeof_VkQueueFamilyProperties * reported_families native vkPhysDev s;
                    blk_cells := QuFams fams |}]> (heap s) /\
        c = Z.of_nat (length fams) /\
        forall j, 0 <= j < c ->
                  exists f, load_VkQueueFamilyProperties q j s' = Done f s')).
Proof.
  intros Hwf.
  pose proof (wrap32_range
                (drv_vkGetPhysicalDeviceQueueFamilyProperties_count native (trace s) vkPhysDev))
    as Hc32.
  fold (reported_families native vkPhysDev s) in Hc32.
  destruct (drv_malloc native (trace s ++ [count_query native vkPhysDev i_Count s])
              (sizeof_VkQueueFamilyProperties * reported_families native vkPhysDev s))
    eqn:Hm.
  - assert (Hq : brk s <> NULL) by (destruct Hwf; unfold NULL; lia).
    do 4 eexists. split.
    { apply getQueueFamilyProperites_memory; [apply Hwf | exact Hm]. }
    split; [eapply wf_alloc; [exact Hwf | reflexivity | reflexivity]|].
    split; [apply written_count_bound; lia|].
    right. split; [exact Hq|]. split; [reflexivity|]. split; [apply wf_brk_fresh, Hwf|].
    eexists. split; [reflexivity|]. split; [reflexivity|].
    intros j Hj. eapply load_written_family; [|exact Hj].
    cbn [heap log set_heap]. apply lookup_insert_eq.
  - do 4 eexists. split.
    { apply getQueueFamilyProperites_no_memory; exact Hm. }
    split; [eapply wf_same_heap; [exact Hwf | reflexivity | cbn; lia]|].
    split; [lia|]. left. repeat split.
Qed.

Lemma getQueueFamilyProperites_contract_one_gpu :
  wf init /\
  exists (res : VkResult) (c q : Z) (s' : state),
    getQueueFamilyProperites one_gpu 200 0 NULL init = Done (res, c, q) s' /\
    wf s' /\ 0 <= c <= reported_families one_gpu 200 init /\
    ((q = NULL /\ res = VK_ERROR_OUT_OF_HOST_MEMORY /\ heap s' = heap init /\
      c = reported_families one_gpu 200 init) \/
     (q <> NULL /\ res = VK_SUCCESS /\ heap init !! q = None /\
      exists fams : list VkQueueFamilyProperties.t,
        heap s' =
          <[q := {| blk_bytes :=
                      sizeof_VkQueueFamilyProperties * reported_families one_gpu 200 init;
                    blk_cells := QuFams fams |}]> (heap init) /\
        c = Z.of_nat (length fams) /\
        forall j, 0 <= j < c ->
                  exists f, load_VkQueueFamilyProperties q j s' = Done f s')).
Proof.
  split; [exact wf_init|].
  apply (getQueueFamilyProperites_contract one_gpu 200 0 NULL init wf_init).
Defined.

(** ** tutorial01: the device report *)

Section Tutorial01Print.

Variable native : Native.

Lemma vkGetPhysicalDeviceProperties_run (d : Z) (s : state) :
  vkGetPhysicalDeviceProperties native d s =
  Done (drv_vkGetPhysicalDeviceProperties native (trace s) d)
       (extend [EvGetPhysicalDeviceProperties d] s).
Proof. reflexivity. Qed.

Lemma inert_device_report (d : Z) (vkDevProp : VkPhysicalDeviceProperties.t) :
  Forall (fun e => inert e = true) (device_report d vkDevProp).
Proof. repeat constructor. Qed.

(** The devices from index [i] on, [n] of them: each is read, asked for
    its properties and reported, in index order. *)
Lemma printPhysicalDevicesProperties_loop (vkPhysDev bytes : Z) (devs : list Z) (n : nat) :
  forall (i : Z) (s : state),
    heap s !! vkPhysDev = Some {| blk_bytes := bytes; blk_cells := PhysDevs devs |} ->
    0 <= i -> (Z.to_nat i + n <= length devs)%nat ->
    exists ev,
      for_loop_from i n
        (fun i _ =>
           d <- load_VkPhysicalDevice vkPhysDev i ;;
           vkDevProp <- vkGetPhysicalDeviceProperties native d ;;
           printf "\tAPI Version: %d.%d.%d\n"
             [PInt (VK_API_MAJOR_VERSION (VkPhysicalDeviceProperties.apiVersion vkDevProp));
              PInt (VK_API_MINOR_VERSION (VkPhysicalDeviceProperties.apiVersion vkDevProp));
              PInt (VK_API_PATCH_VERSION (VkPhysicalDeviceProperties.apiVersion vkDevProp))] ;;;
           printf "\tDriver Version: %d\n"
             [PInt (VkPhysicalDeviceProperties.driverVersion vkDevProp)] ;;;
           printf "\tDevice Name: %s\n"
             [PStr (VkPhysicalDeviceProperties.deviceName vkDevProp)] ;;;
           printf "\tDevice Type: %d\n"
             [PInt (VkPhysicalDeviceProperties.deviceType vkDevProp)] ;;;
           printf "\n" []) tt s = Done tt (extend ev s) /\
      device_queries ev = take n (drop (Z.to_nat i) devs) /\
      length ev = (6 * n)%nat /\
      Forall (fun e => inert e = true) ev /\
      (forall f, (forall t d, drv_vkGetPhysicalDeviceProperties native t d = f d) ->
                 ev = flat_map (fun d => device_report d (f d))
                        (take n (drop (Z.to_nat i) devs))).
Proof.
  induction n as [|n IH]; intros i s Hp Hi Hlen; cbn [for_loop_from].
  - exists []. rewrite extend_nil. repeat split; try reflexivity. constructor.
  - destruct (devs !! Z.to_nat i) as [d|] eqn:Hd.
    2:{ apply lookup_ge_None in Hd. lia. }
    erewrite bind_Done; cycle 1.
    { erewrite bind_Done by (eapply load_VkPhysicalDevice_run; eassumption).
      erewrite bind_Done by apply vkGetPhysicalDeviceProperties_run.
      do 4 (erewrite bind_Done by apply printf_run; rewrite log_extend, extend_extend).
      rewrite printf_run, log_extend, extend_extend. cbn [app].
      change (extend _ s)
        with (extend (device_report d (drv_vkGetPhysicalDeviceProperties native (trace s) d)) s).
      reflexivity. }
    destruct (IH (i + 1)
                (extend (device_report d (drv_vkGetPhysicalDeviceProperties native (trace s) d)) s))
      as (ev & Hrun & Hq & Hl & Hin & Hst); [exact Hp | lia | lia |].
    rewrite Hrun, extend_extend.
    rewrite (drop_S devs d (Z.to_nat i) Hd). cbn [take].
    replace (Z.to_nat (i + 1)) with (S (Z.to_nat i)) in * by lia.
    eexists. split; [reflexivity|]. repeat split.
    + unfold device_queries in *. rewrite omap_app, Hq. reflexivity.
    + rewrite length_app, Hl. cbn [device_report length]. lia.
    + apply Forall_app. split; [apply inert_device_report | exact Hin].
    + intros f Hf. cbn [flat_map]. rewrite (Hst f Hf), Hf. reflexivity.
Qed.

End Tutorial01Print.

(** X4: [printPhysicalDevicesProperties] on an array of [n] written
    handles never faults and changes nothing but the output: after the
    heading it asks for the properties of every device of the array
    exactly once, in index order, with six calls per device, none of
    which acquires or releases anything.  With a count of zero only the
    heading is written and the array is not read, whatever the pointer. *)
Theorem printPhysicalDevicesProperties_queries
    (native : Native) (vkPhysDev bytes : Z) (devs : list Z) (s : state) :
  heap s !! vkPhysDev = Some {| blk_bytes := bytes; blk_cells := PhysDevs devs |} ->
  (exists ev,
     Tutorial01.printPhysicalDevicesProperties native (Z.of_nat (length devs)) vkPhysDev s =
       Done tt (extend (EvPrintf " %d physical device(s) found: \n"
                          [PInt (Z.of_nat (length devs))] :: ev) s) /\
     device_queries ev = devs /\
     length ev = (6 * length devs)%nat /\
     Forall (fun e => inert e = true) ev) /\
  (forall p,
     Tutorial01.printPhysicalDevicesProperties native 0 p s =
       Done tt (extend [EvPrintf " %d physical device(s) found: \n" [PInt 0]] s)).
Proof.
  intros Hp. split.
  - unfold Tutorial01.printPhysicalDevicesProperties, for_loop.
    erewrite bind_Done by apply printf_run. rewrite log_extend, Nat2Z.id.
    destruct (printPhysicalDevicesProperties_loop native vkPhysDev bytes devs (length devs) 0
                (extend [EvPrintf " %d physical device(s) found: \n"
                           [PInt (Z.of_nat (length devs))]] s))
      as (ev & Hrun & Hq & Hl & Hin & _); [exact Hp | lia | cbn; lia |].
    exists ev. rewrite Hrun, extend_extend. cbn [app].
    change (Z.to_nat 0) with 0%nat in Hq. rewrite drop_0, firstn_all in Hq.
    repeat split; assumption.
  - intros p. unfold Tutorial01.printPhysicalDevicesProperties, for_loop.
    erewrite bind_Done by apply printf_run. reflexivity.
Qed.

Lemma printPhysicalDevicesProperties_queries_one_gpu :
  heap (final_state (createPhysicalDevicesArray one_gpu 100 0 NULL init)) !! 4096 =
    Some {| blk_bytes := 8; blk_cells := PhysDevs [200] |} /\
  (exists ev,
     Tutorial01.printPhysicalDevicesProperties one_gpu (Z.of_nat (length [200])) 4096
       (final_state (createPhysicalDevicesArray one_gpu 100 0 NULL init)) =
       Done tt (extend (EvPrintf " %d physical device(s) found: \n"
                          [PInt (Z.of_nat (length [200]))] :: ev)
                  (final_state (createPhysicalDevicesArray one_gpu 100 0 NULL init))) /\
     device_queries ev = [200] /\
     length ev = (6 * length [200])%nat /\
     Forall (fun e => inert e = true) ev) /\
  (forall p,
     Tutorial01.printPhysicalDevicesProperties one_gpu 0 p
       (final_state (createPhysicalDevicesArray one_gpu 100 0 NULL init)) =
       Done tt (extend [EvPrintf " %d physical device(s) found: \n" [PInt 0]]
                  (final_state (createPhysicalDevicesArray one_gpu 100 0 NULL init)))).
Proof.
  split; [reflexivity|].
  apply (printPhysicalDevicesProperties_queries one_gpu 4096 8 [200]
           (final_state (createPhysicalDevicesArray one_gpu 100 0 NULL init))).
  reflexivity.
Defined.



(** ** tutorial02: the queue-family report *)

Lemma land_bit_zero (flags k : Z) :
  0 <= k -> (Z.land flags (2 ^ k) =? 0) = negb (Z.testbit flags k).
Proof.
  intros Hk. destruct (Z.testbit flags k) eqn:Hb; cbn [negb].
  - apply Z.eqb_neq. intros E.
    apply (f_equal (fun z => Z.testbit z k)) in E.
    rewrite Z.land_spec, Hb, Z.pow2_bits_true, Z.bits_0 in E by exact Hk. discriminate.
  - apply Z.eqb_eq, Z.bits_inj'. intros n Hn.
    rewrite Z.land_spec, Z.bits_0, Z.pow2_bits_eqb by exact Hk.
    destruct (Z.eqb_spec k n) as [->|_]; [now rewrite Hb | apply andb_false_r].
Qed.

Lemma capability_line_bit (flags k : Z) (line : string) :
  0 <= k ->
  capability_line flags (2 ^ k) line = if Z.testbit flags k then [EvPrintf line []] else [].
Proof.
  intros Hk. unfold capability_line. rewrite land_bit_zero by exact Hk.
  now destruct (Z.testbit flags k).
Qed.

Lemma printQueueFamily_report
      (vkQuFamProp j bytes : Z) (q : VkQueueFamilyProperties.t)
      (w : list VkQueueFamilyProperties.t) (s : state) :
  heap s !! vkQuFamProp = Some {| blk_bytes := bytes; blk_cells := QuFams w |} ->
  0 <= j -> w !! Z.to_nat j = Some q ->
  Tutorial02.printQueueFamily vkQuFamProp j s = Done tt (extend (family_report j q) s).
Proof.
  intros Hp Hj Hq. unfold Tutorial02.printQueueFamily.
  erewrite bind_Done by apply printf_run. rewrite log_extend.
  erewrite bind_Done by (eapply load_VkQueueFamilyProperties_run; eassumption).
  do 3 (erewrite bind_Done by apply printf_run; rewrite log_extend, extend_extend).
  do 4 (erewrite bind_Done by apply when_printf_run; rewrite extend_extend).
  rewrite printf_run, log_extend, extend_extend.
  unfold family_report, capability_line. rewrite <- !app_assoc. reflexivity.
Qed.

(** X6: the report of one queue family is the index, the queue count,
    the transfer granularity and the heading, then one line per
    capability and the closing blank line.  Each of the four capability
    lines is written exactly when its own bit of [queueFlags] is set
    (bit 0 graphics, bit 1 compute, bit 2 transfer, bit 3 sparse
    binding), whatever the other bits are, and in this order. *)
Theorem printQueueFamily_capabilities
    (vkQuFamProp j bytes : Z) (q : VkQueueFamilyProperties.t)
    (w : list VkQueueFamilyProperties.t) (s : state) :
  heap s !! vkQuFamProp = Some {| blk_bytes := bytes; blk_cells := QuFams w |} ->
  0 <= j -> w !! Z.to_nat j = Some q ->
  Tutorial02.printQueueFamily vkQuFamProp j s =
    Done tt
      (extend
         ([EvPrintf "\t Index: %d\n" [PInt j];
           EvPrintf "\t Count of Queues: %d\n" [PInt (VkQueueFamilyProperties.queueCount q)];
           EvPrintf
             "\t Minimum Image Transfer Granularity (Width Height Depth): (%d %d %d)\n"
             [PInt (VkExtent3D.width (VkQueueFamilyProperties.minImageTransferGranularity q));
              PInt (VkExtent3D.height (VkQueueFamilyProperties.minImageTransferGranularity q));
              PInt (VkExtent3D.depth (VkQueueFamilyProperties.minImageTransferGranularity q))];
           EvPrintf "\t Supported operations on this queue:\n" []] ++
          (if Z.testbit (VkQueueFamilyProperties.queueFlags q) 0
           then [EvPrintf "\t\t Graphics\n" []] else []) ++
          (if Z.testbit (VkQueueFamilyProperties.queueFlags q) 1
           then [EvPrintf "\t\t Compute\n" []] else []) ++
          (if Z.testbit (VkQueueFamilyProperties.queueFlags q) 2
           then [EvPrintf "\t\t Transfer\n" []] else []) ++
          (if Z.testbit (VkQueueFamilyProperties.queueFlags q) 3
           then [EvPrintf "\t\t Sparse Binding\n" []] else []) ++
          [EvPrintf "\n" []]) s).
Proof.
  intros Hp Hj Hq.
  rewrite (printQueueFamily_report vkQuFamProp j bytes q w s Hp Hj Hq).
  unfold family_report.
  change VK_QUEUE_GRAPHICS_BIT with (2 ^ 0).
  change VK_QUEUE_COMPUTE_BIT with (2 ^ 1).
  change VK_QUEUE_TRANSFER_BIT with (2 ^ 2).
  change VK_QUEUE_SPARSE_BINDING_BIT with (2 ^ 3).
  rewrite !capability_line_bit by lia. reflexivity.
Qed.

Lemma printQueueFamily_capabilities_family1 :
  heap (final_state (getQueueFamilyProperites one_gpu 200 0 NULL init)) !! 4096 =
    Some {| blk_bytes := 48; blk_cells := QuFams [family0; family1] |} /\
  0 <= 1 /\ [family0; family1] !! Z.to_nat 1 = Some family1 /\
  Tutorial02.printQueueFamily 4096 1
    (final_state (getQueueFamilyProperites one_gpu 200 0 NULL init)) =
    Done tt
      (extend
         ([EvPrintf "\t Index: %d\n" [PInt 1];
           EvPrintf "\t Count of Queues: %d\n"
             [PInt (VkQueueFamilyProperties.queueCount family1)];
           EvPrintf
             "\t Minimum Image Transfer Granularity (Width Height Depth): (%d %d %d)\n"
             [PInt (VkExtent3D.width
                      (VkQueueFamilyProperties.minImageTransferGranularity family1));
              PInt (VkExtent3D.height
                      (VkQueueFamilyProperties.minImageTransferGranularity family1));
              PInt (VkExtent3D.depth
                      (VkQueueFamilyProperties.minImageTransferGranularity family1))];
           EvPrintf "\t Supported operations on this queue:\n" []] ++
          (if Z.testbit (VkQueueFamilyProperties.queueFlags family1) 0
           then [EvPrintf "\t\t Graphics\n" []] else []) ++
          (if Z.testbit (VkQueueFamilyProperties.queueFlags family1) 1
           then [EvPrintf "\t\t Compute\n" []] else []) ++
          (if Z.testbit (VkQueueFamilyProperties.queueFlags family1) 2
           then [EvPrintf "\t\t Transfer\n" []] else []) ++
          (if Z.testbit (VkQueueFamilyProperties.queueFlags family1) 3
           then [EvPrintf "\t\t Sparse Binding\n" []] else []) ++
          [EvPrintf "\n" []])
         (final_state (getQueueFamilyProperites one_gpu 200 0 NULL init))).
Proof.
  split; [reflexivity|]. split; [lia|]. split; [reflexivity|].
  apply (printQueueFamily_capabilities 4096 1 48 family1 [family0; family1]
           (final_state (getQueueFamilyProperites one_gpu 200 0 NULL init)));
    [reflexivity | lia | reflexivity].
Defined.

(** ** tutorial02: one allocation per device *)

Lemma prints_project_nothing (ev : list event) :
  Forall (fun e => is_print e = true) ev ->
  device_queries ev = [] /\ allocations ev = [] /\ frees ev = [].
Proof.
  induction 1 as [|e ev He _ (IH1 & IH2 & IH3)]; [repeat split|].
  destruct e; try discriminate.
  unfold device_queries, allocations, frees in *. cbn [omap list_omap].
  now rewrite IH1, IH2, IH3.
Qed.

Lemma family_report_prints (j : Z) (q : VkQueueFamilyProperties.t) :
  Forall (fun e => is_print e = true) (family_report j q).
Proof.
  unfold family_report, capability_line.
  repeat (apply Forall_app; split);
    repeat match goal with |- context [if ?b then _ else _] => destruct b end;
    repeat constructor.
Qed.

Lemma printQueueFamily_loop_prints
      (vkQuFamProp bytes : Z) (w : list VkQueueFamilyProperties.t) (n : nat) :
  forall (j : Z) (s : state),
    heap s !! vkQuFamProp = Some {| blk_bytes := bytes; blk_cells := QuFams w |} ->
    0 <= j -> (Z.to_nat j + n <= length w)%nat ->
    exists ev,
      for_loop_from j n (fun j _ => Tutorial02.printQueueFamily vkQuFamProp j) tt s =
        Done tt (extend ev s) /\
      Forall (fun e => is_print e = true) ev.
Proof.
  induction n as [|n IH]; intros j s Hp Hj Hlen; cbn [for_loop_from].
  - exists []. rewrite extend_nil. split; [reflexivity | constructor].
  - destruct (w !! Z.to_nat j) as [q|] eqn:Hq.
    2:{ apply lookup_ge_None in Hq. lia. }
    erewrite bind_Done by (eapply printQueueFamily_report; eassumption).
    destruct (IH (j + 1) (extend (family_report j q) s)) as (ev2 & Hrest & Hev2);
      [exact Hp | lia | lia |].
    rewrite Hrest, extend_extend. eexists. split; [reflexivity|].
    apply Forall_app. split; [apply family_report_prints | exact Hev2].
Qed.

Section Tutorial02Calls.

Variable native : Native.

(** One iteration: one properties query, one allocation, and the block,
    if granted, freed before the iteration ends. *)
Lemma printQueueFamilyInfo_body_calls
      (vkPhysDev i bytes d : Z) (devs : list Z) (s : state) :
  wf s ->
  heap s !! vkPhysDev = Some {| blk_bytes := bytes; blk_cells := PhysDevs devs |} ->
  0 <= i -> devs !! Z.to_nat i = Some d ->
  exists (s' : state) (ev : list event) (q : Z),
    Tutorial02.printQueueFamilyInfo_body native vkPhysDev i NULL s = Done NULL s' /\
    trace s' = trace s ++ ev /\ heap s' = heap s /\ brk s <= brk s' /\
    instances s' = instances s /\ devices s' = devices s /\
    device_queries ev = [d] /\ allocations ev = [q] /\
    frees ev = (if q =? NULL then [] else [q]).
Proof.
  intros Hwf Hp Hi Hd. unfold Tutorial02.printQueueFamilyInfo_body.
  erewrite bind_Done by (eapply load_VkPhysicalDevice_run; eassumption).
  erewrite bind_Done by reflexivity.
  erewrite bind_Done by apply printf_run.
  erewrite bind_Done by (eapply load_VkPhysicalDevice_run; eassumption).
  set (s2 := log _ (log _ s)).
  assert (Hbrk2 : 0 < brk s2) by apply Hwf.
  destruct (drv_malloc native (trace s2 ++ [count_query native d 0 s2])
              (sizeof_VkQueueFamilyProperties * reported_families native d s2)) eqn:Hm.
  - erewrite bind_Done by (apply getQueueFamilyProperites_memory; assumption).
    cbv beta iota.
    erewrite bind_Done by apply printf_run.
    rewrite Z.eqb_refl. cbn [negb].
    set (written := take _ _). set (s4 := log _ (log _ _)).
    assert (Hq : brk s2 <> NULL) by (unfold NULL; lia).
    assert (Hheap4 : heap s4 !! brk s2 =
              Some {| blk_bytes := sizeof_VkQueueFamilyProperties * reported_families native d s2;
                      blk_cells := QuFams written |}).
    { unfold s4. cbn [heap log set_heap]. apply lookup_insert_eq. }
    destruct (printQueueFamily_loop_prints (brk s2) _ written (length written) 0 s4 Hheap4)
      as (ev & Hloop & Hev); [lia | cbn; lia |].
    unfold for_loop. rewrite Nat2Z.id.
    erewrite bind_Done by exact Hloop.
    destruct (Z.eqb_spec (brk s2) NULL) as [E|_]; [contradiction|]. cbn [negb].
    erewrite bind_Done by (eapply free_live; [exact Hq | exact Hheap4]).
    destruct (prints_project_nothing ev Hev) as (Hp1 & Hp2 & Hp3).
    exists (log (EvFree (brk s2)) (set_heap (delete (brk s2) (heap (extend ev s4))) (extend ev s4))).
    eexists. exists (brk s).
    split; [reflexivity|].
    unfold s4, s2. trace_shape.
    split; [reflexivity|]. split.
    { rewrite delete_insert_eq. apply delete_id, (wf_brk_fresh s Hwf). }
    split; [lia|]. do 2 (split; [reflexivity|]).
    change (brk (log _ (log _ s))) with (brk s) in Hq.
    destruct (Z.eqb_spec (brk s) NULL) as [E|_]; [contradiction|].
    unfold device_queries, allocations, frees in *.
    cbn [omap list_omap]. rewrite !omap_app, Hp1, Hp2, Hp3. repeat split.
  - erewrite bind_Done by (apply getQueueFamilyProperites_no_memory; assumption).
    cbv beta iota.
    erewrite bind_Done by apply printf_run.
    change (negb (VK_ERROR_OUT_OF_HOST_MEMORY =? VK_SUCCESS)) with true. cbv iota.
    erewrite bind_Done by apply printf_run.
    rewrite Z.eqb_refl. cbn [negb].
    do 2 eexists. exists NULL. split; [reflexivity|].
    unfold s2. trace_shape.
    split; [reflexivity|]. split; [reflexivity|]. split; [lia|].
    do 2 (split; [reflexivity|]). repeat split.
Qed.

Lemma printQueueFamilyInfo_loop_calls (vkPhysDev bytes : Z) (devs : list Z) (n : nat) :
  forall (i : Z) (s : state),
    wf s ->
    heap s !! vkPhysDev = Some {| blk_bytes := bytes; blk_cells := PhysDevs devs |} ->
    0 <= i -> (Z.to_nat i + n <= length devs)%nat ->
    exists (s' : state) (ev : list event),
      for_loop_from i n (Tutorial02.printQueueFamilyInfo_body native vkPhysDev) NULL s =
        Done NULL s' /\
      trace s' = trace s ++ ev /\ heap s' = heap s /\ brk s <= brk s' /\
      instances s' = instances s /\ devices s' = devices s /\
      device_queries ev = take n (drop (Z.to_nat i) devs) /\
      length (allocations ev) = n /\
      frees ev = filter (fun q => q <> NULL) (allocations ev).
Proof.
  induction n as [|n IH]; intros i s Hwf Hp Hi Hlen; cbn [for_loop_from].
  - exists s, []. rewrite app_nil_r. repeat split; first [reflexivity | lia].
  - destruct (devs !! Z.to_nat i) as [d|] eqn:Hd.
    2:{ apply lookup_ge_None in Hd. lia. }
    destruct (printQueueFamilyInfo_body_calls vkPhysDev i bytes d devs s Hwf Hp Hi Hd)
      as (s1 & ev1 & q & Hrun & Ht1 & Hh1 & Hb1 & Hi1 & Hd1 & Hq1 & Ha1 & Hf1).
    erewrite bind_Done by exact Hrun.
    destruct (IH (i + 1) s1)
      as (s2 & ev2 & Hrest & Ht2 & Hh2 & Hb2 & Hi2 & Hd2 & Hq2 & Ha2 & Hf2).
    { eapply wf_same_heap; eassumption. }
    { rewrite Hh1. exact Hp. }
    { lia. } { lia. }
    exists s2, (ev1 ++ ev2). split; [exact Hrest|].
    rewrite Ht2, Ht1, <- app_assoc. split; [reflexivity|].
    split; [congruence|]. split; [lia|]. split; [congruence|]. split; [congruence|].
    replace (Z.to_nat (i + 1)) with (S (Z.to_nat i)) in Hq2 by lia.
    rewrite (drop_S devs d (Z.to_nat i) Hd). cbn [take].
    unfold device_queries, allocations, frees in *.
    rewrite !omap_app, Hq1, Hq2, Ha1, Hf1, Hf2. cbn [app length].
    split; [reflexivity|]. split; [now rewrite Ha2|].
    rewrite filter_cons. destruct (Z.eqb_spec q NULL) as [->|Hne].
    + rewrite decide_False by (intros H; now apply H). reflexivity.
    + rewrite decide_True by exact Hne. reflexivity.
Qed.

End Tutorial02Calls.

(** X7: [printQueueFamilyInfo] on an array of written handles never
    faults and leaves the heap and the live handles as it found them.
    It asks for the properties of every device exactly once, in index
    order, makes exactly one allocation per device, and frees exactly
    the blocks it was granted, in the order it got them: a refused
    allocation does not stop the loop and no block outlives the call. *)
Theorem printQueueFamilyInfo_balanced
    (native : Native) (vkPhysDev bytes : Z) (devs : list Z) (s : state) :
  wf s ->
  heap s !! vkPhysDev = Some {| blk_bytes := bytes; blk_cells := PhysDevs devs |} ->
  exists (s' : state) (ev : list event),
    Tutorial02.printQueueFamilyInfo native vkPhysDev (Z.of_nat (length devs)) s = Done tt s' /\
    trace s' = trace s ++ ev /\ heap s' = heap s /\
    instances s' = instances s /\ devices s' = devices s /\
    device_queries ev = devs /\
    length (allocations ev) = length devs /\
    frees ev = filter (fun q => q <> NULL) (allocations ev).
Proof.
  intros Hwf Hp. unfold Tutorial02.printQueueFamilyInfo, for_loop. rewrite Nat2Z.id.
  destruct (printQueueFamilyInfo_loop_calls native vkPhysDev bytes devs (length devs) 0 s Hwf Hp)
    as (s' & ev & Hrun & Ht & Hh & _ & Hi & Hd & Hq & Ha & Hf); [lia | cbn; lia |].
  erewrite bind_Done by exact Hrun.
  change (Z.to_nat 0) with 0%nat in Hq. rewrite drop_0, firstn_all in Hq.
  exists s', ev. repeat split; assumption.
Qed.

Lemma wf_after_enumeration :
  wf (final_state (createPhysicalDevicesArray one_gpu 100 0 NULL init)).
Proof.
  apply (wf_alloc init _ 8 {| blk_bytes := 8; blk_cells := PhysDevs [200] |});
    [exact wf_init | reflexivity | reflexivity].
Defined.

Lemma printQueueFamilyInfo_balanced_one_gpu :
  wf (final_state (createPhysicalDevicesArray one_gpu 100 0 NULL init)) /\
  heap (final_state (createPhysicalDevicesArray one_gpu 100 0 NULL init)) !! 4096 =
    Some {| blk_bytes := 8; blk_cells := PhysDevs [200] |} /\
  exists (s' : state) (ev : list event),
    Tutorial02.printQueueFamilyInfo one_gpu 4096 (Z.of_nat (length [200]))
      (final_state (createPhysicalDevicesArray one_gpu 100 0 NULL init)) = Done tt s' /\
    trace s' = trace (final_state (createPhysicalDevicesArray one_gpu 100 0 NULL init)) ++ ev /\
    heap s' = heap (final_state (createPhysicalDevicesArray one_gpu 100 0 NULL init)) /\
    instances s' = instances (final_state (createPhysicalDevicesArray one_gpu 100 0 NULL init)) /\
    devices s' = devices (final_state (createPhysicalDevicesArray one_gpu 100 0 NULL init)) /\
    device_queries ev = [200] /\
    length (allocations ev) = length [200] /\
    frees ev = filter (fun q => q <> NULL) (allocations ev).
Proof.
  split; [exact wf_after_enumeration|]. split; [reflexivity|].
  apply (printQueueFamilyInfo_balanced one_gpu 4096 8 [200]
           (final_state (createPhysicalDevicesArray one_gpu 100 0 NULL init))
           wf_after_enumeration).
  reflexivity.
Defined.

(** ** tutorial03: createDevice *)

Section CreateDevice.

Variable native : Native.

(** The creation call, with what it leaves in the state. *)
Lemma vkCreateDevice_run (phys : Z) (info : VkDeviceCreateInfo.t) (s : state) :
  exists (res : VkResult) (h : Z) (s' : state),
    vkCreateDevice native phys info 0 s = Done (res, h) s' /\
    trace s' = trace s ++ [EvCreateDevice phys info res h] /\
    heap s' = heap s /\ brk s' = brk s /\ instances s' = instances s /\
    (res <> VK_SUCCESS -> h = 0) /\
    devices s' = (if h =? 0 then devices s else {[h]} ∪ devices s).
Proof.
  unfold vkCreateDevice.
  destruct (drv_vkCreateDevice native (trace s) phys info) as [res h].
  destruct (Z.eqb_spec res VK_SUCCESS) as [->|Hres].
  - destruct (Z.eqb_spec h 0) as [->|Hh]; do 3 eexists;
      (split; [reflexivity|]); cbn [trace heap brk devices instances log set_devices];
      repeat split; try congruence;
      destruct (Z.eqb_spec h 0); solve [contradiction | reflexivity].
  - do 3 eexists. (split; [reflexivity|]). cbn [trace heap brk devices instances log].
    repeat split; try congruence.
Qed.

Lemma createDevice_run (vkPhysDev : Z) (s : state) :
  wf s ->
  exists (res : VkResult) (d : Z) (s' : state) (ev : list event),
    Tutorial03.createDevice native vkPhysDev 0 s = Done (res, d) s' /\
    trace s' = trace s ++ ev /\ heap s' = heap s /\ instances s' = instances s /\
    ((drv_malloc native (trace s ++ [count_query native vkPhysDev 0 s])
        (sizeof_VkQueueFamilyProperties * reported_families native vkPhysDev s) = false /\
      res = VK_ERROR_OUT_OF_HOST_MEMORY /\ d = 0 /\ devices s' = devices s /\
      exists size e,
        ev = [count_query native vkPhysDev 0 s; EvMalloc size NULL; e] /\ is_print e = true) \/
     (exists (q size c' : Z) (info : VkDeviceCreateInfo.t) (qi : VkDeviceQueueCreateInfo.t),
        drv_malloc native (trace s ++ [count_query native vkPhysDev 0 s])
          (sizeof_VkQueueFamilyProperties * reported_families native vkPhysDev s) = true /\
        q <> NULL /\
        ev = [count_query native vkPhysDev 0 s; EvMalloc size q;
              EvGetPhysicalDeviceQueueFamilyProperties vkPhysDev q
                (reported_families native vkPhysDev s) c';
              EvCreateDevice vkPhysDev info res d; EvFree q] /\
        (res <> VK_SUCCESS -> d = 0) /\
        devices s' = (if d =? 0 then devices s else {[d]} ∪ devices s) /\
        VkDeviceCreateInfo.queueCreateInfoCount info = 1 /\
        VkDeviceCreateInfo.pQueueCreateInfos info = Some qi /\
        VkDeviceQueueCreateInfo.queueFamilyIndex qi = 0 /\
        VkDeviceQueueCreateInfo.queueCount qi = 1 /\
        VkDeviceQueueCreateInfo.pQueuePriorities qi = Some 0x3F800000 /\
        VkDeviceCreateInfo.pEnabledFeatures info = NULL)).
Proof.
  intros Hwf. unfold Tutorial03.createDevice.
  assert (Hbrk : 0 < brk s) by apply Hwf.
  destruct (drv_malloc native (trace s ++ [count_query native vkPhysDev 0 s])
              (sizeof_VkQueueFamilyProperties * reported_families native vkPhysDev s)) eqn:Hm.
  - erewrite bind_Done by (apply getQueueFamilyProperites_memory; assumption).
    cbv beta iota. rewrite Z.eqb_refl. cbn [negb].
    set (s3 := log _ (set_heap _ _)). set (info := VkDeviceCreateInfo.set_pQueueCreateInfos _ _).
    destruct (vkCreateDevice_run vkPhysDev info s3)
      as (res & h & s4 & Hrun & Ht4 & Hh4 & Hb4 & Hi4 & Hfail & Hd4).
    erewrite bind_Done by exact Hrun. cbv beta iota.
    unfold Tutorial03.createDevice_cleanup.
    assert (Hq : brk s <> NULL) by (unfold NULL; lia).
    destruct (Z.eqb_spec (brk s) NULL) as [E|_]; [contradiction|]. cbn [negb when].
    erewrite bind_Done; cycle 1.
    { eapply free_live; [exact Hq|]. rewrite Hh4. unfold s3. cbn [heap log set_heap].
      apply lookup_insert_eq. }
    do 4 eexists. split; [reflexivity|].
    cbn [trace heap instances devices log set_heap]. rewrite Ht4, Hh4, Hi4, Hd4.
    unfold s3. trace_shape.
    split; [reflexivity|].
    split; [rewrite delete_insert_eq; apply delete_id, (wf_brk_fresh s Hwf)|].
    split; [reflexivity|]. right.
    exists (brk s). do 3 eexists. eexists.
    split; [reflexivity|].
    split; [exact Hq|]. split; [reflexivity|]. split; [exact Hfail|].
    split; [reflexivity|]. repeat split.
  - erewrite bind_Done by (apply getQueueFamilyProperites_no_memory; assumption).
    cbv beta iota.
    change (negb (VK_ERROR_OUT_OF_HOST_MEMORY =? VK_SUCCESS)) with true. cbv iota.
    unfold Tutorial03.createDevice_cleanup. rewrite Z.eqb_refl. cbn [negb when].
    erewrite bind_Done by reflexivity.
    do 4 eexists. split; [reflexivity|].
    trace_shape. do 3 (split; [reflexivity|]). left.
    do 4 (split; [reflexivity|]). do 2 eexists. split; reflexivity.
Qed.

End CreateDevice.

(** X8: [createDevice] never faults and frees the queue-family array on
    every path: the heap is as it was on return.  When the allocation
    fails it returns VK_ERROR_OUT_OF_HOST_MEMORY without calling
    [vkCreateDevice] and without any free; otherwise it makes exactly
    one creation call, returns that call's status, and frees the array
    after the call. *)
Theorem createDevice_contract (native : Native) (vkPhysDev : Z) (s : state) :
  wf s ->
  exists (res : VkResult) (d : Z) (s' : state) (ev : list event),
    Tutorial03.createDevice native vkPhysDev 0 s = Done (res, d) s' /\
    trace s' = trace s ++ ev /\ heap s' = heap s /\ instances s' = instances s /\
    ((res = VK_ERROR_OUT_OF_HOST_MEMORY /\ d = 0 /\ devices s' = devices s /\
      allocations ev = [NULL] /\ device_requests ev = [] /\ frees ev = []) \/
     (exists (q : Z) (info : VkDeviceCreateInfo.t),
        q <> NULL /\ allocations ev = [q] /\ frees ev = [q] /\
        device_requests ev = [info] /\
        last ev = Some (EvFree q) /\
        In (EvCreateDevice vkPhysDev info res d) ev /\
        (res <> VK_SUCCESS -> d = 0) /\
        devices s' = (if d =? 0 then devices s else {[d]} ∪ devices s))).
Proof.
  intros Hwf.
  destruct (createDevice_run native vkPhysDev s Hwf)
    as (res & d & s' & ev & Hrun & Ht & Hh & Hi & Hcase).
  exists res, d, s', ev. do 4 (split; [assumption|]).
  destruct Hcase as [(_ & Hres & Hd & Hdev & size & e & -> & He)
                    |(q & size & c' & info & qi & _ & Hq & -> & Hfail & Hdev & _)].
  - left. do 3 (split; [assumption|]).
    destruct e; try discriminate. repeat split.
  - right. exists q, info. split; [exact Hq|].
    unfold count_query. repeat split; try assumption.
    cbn. tauto.
Qed.

Lemma createDevice_contract_one_gpu :
  wf init /\
  exists (res : VkResult) (d : Z) (s' : state) (ev : list event),
    Tutorial03.createDevice one_gpu 200 0 init = Done (res, d) s' /\
    trace s' = trace init ++ ev /\ heap s' = heap init /\ instances s' = instances init /\
    ((res = VK_ERROR_OUT_OF_HOST_MEMORY /\ d = 0 /\ devices s' = devices init /\
      allocations ev = [NULL] /\ device_requests ev = [] /\ frees ev = []) \/
     (exists (q : Z) (info : VkDeviceCreateInfo.t),
        q <> NULL /\ allocations ev = [q] /\ frees ev = [q] /\
        device_requests ev = [info] /\
        last ev = Some (EvFree q) /\
        In (EvCreateDevice 200 info res d) ev /\
        (res <> VK_SUCCESS -> d = 0) /\
        devices s' = (if d =? 0 then devices init else {[d]} ∪ devices init))).
Proof.
  split; [exact wf_init|].
  apply (createDevice_contract one_gpu 200 init wf_init).
Defined.

(** X9: whenever [createDevice] gets its queue-family array, it asks
    [vkCreateDevice] for exactly one queue of queue family 0 at
    priority 1.0 (binary32 0x3F800000), with no device features:
    neither the number of families the device reported nor their
    capabilities are looked at, so the request is the same when the
    device reported no family at all. *)
Theorem createDevice_requests_family_zero (native : Native) (vkPhysDev : Z) (s : state) :
  wf s ->
  drv_malloc native (trace s ++ [count_query native vkPhysDev 0 s])
    (sizeof_VkQueueFamilyProperties * reported_families native vkPhysDev s) = true ->
  exists (res : VkResult) (d : Z) (s' : state)
         (info : VkDeviceCreateInfo.t) (qi : VkDeviceQueueCreateInfo.t),
    Tutorial03.createDevice native vkPhysDev 0 s = Done (res, d) s' /\
    device_requests (drop (length (trace s)) (trace s')) = [info] /\
    VkDeviceCreateInfo.queueCreateInfoCount info = 1 /\
    VkDeviceCreateInfo.pQueueCreateInfos info = Some qi /\
    VkDeviceQueueCreateInfo.queueFamilyIndex qi = 0 /\
    VkDeviceQueueCreateInfo.queueCount qi = 1 /\
    VkDeviceQueueCreateInfo.pQueuePriorities qi = Some 0x3F800000 /\
    VkDeviceCreateInfo.pEnabledFeatures info = NULL.
Proof.
  intros Hwf Hm.
  destruct (createDevice_run native vkPhysDev s Hwf)
    as (res & d & s' & ev & Hrun & Ht & Hh & Hi & Hcase).
  destruct Hcase as [(Hm' & _)
                    |(q & size & c' & info & qi & _ & Hq & -> & Hfail & Hdev & Hinfo)].
  - congruence.
  - exists res, d, s', info, qi. split; [exact Hrun|].
    rewrite Ht, drop_app_length. split; [reflexivity | exact Hinfo].
Qed.

Lemma createDevice_requests_family_zero_no_family :
  wf init /\
  drv_malloc no_family (trace init ++ [count_query no_family 200 0 init])
    (sizeof_VkQueueFamilyProperties * reported_families no_family 200 init) = true /\
  exists (res : VkResult) (d : Z) (s' : state)
         (info : VkDeviceCreateInfo.t) (qi : VkDeviceQueueCreateInfo.t),
    Tutorial03.createDevice no_family 200 0 init = Done (res, d) s' /\
    device_requests (drop (length (trace init)) (trace s')) = [info] /\
    VkDeviceCreateInfo.queueCreateInfoCount info = 1 /\
    VkDeviceCreateInfo.pQueueCreateInfos info = Some qi /\
    VkDeviceQueueCreateInfo.queueFamilyIndex qi = 0 /\
    VkDeviceQueueCreateInfo.queueCount qi = 1 /\
    VkDeviceQueueCreateInfo.pQueuePriorities qi = Some 0x3F800000 /\
    VkDeviceCreateInfo.pEnabledFeatures info = NULL.
Proof.
  split; [exact wf_init|]. split; [reflexivity|].
  apply (createDevice_requests_family_zero no_family 200 init wf_init). reflexivity.
Defined.

Example no_family_reports_zero : reported_families no_family 200 init = 0.
Proof. reflexivity. Qed.

(** ** The four programs, from start to exit *)

Section Programs.

Variable native : Native.

(** The state once [createInstance] has returned, at program start. *)
Lemma createInstance_at_start (g_appName : string) :
  exists (res : VkResult) (h : Z) (s1 : state),
    createInstance native g_appName 0 init = Done (res, h) s1 /\
    wf s1 /\ heap s1 = ∅ /\ devices s1 = ∅ /\
    instances s1 = (if h =? 0 then ∅ else {[h]}) /\
    (res <> VK_SUCCESS -> h = 0) /\
    lifo_tail (trace s1) (held_instance h).
Proof.
  destruct (createInstance_summary native g_appName init)
    as (res & h & s1 & e & Hrun & Ht1 & Hh1 & Hb1 & Hd1 & Hfail & Hnull & Hlive).
  exists res, h, s1. split; [exact Hrun|].
  split; [eapply wf_same_heap; [apply wf_init | exact Hh1 | lia]|].
  split; [exact Hh1|]. split; [exact Hd1|]. split; [|split; [exact Hfail|]].
  - destruct (Z.eqb_spec h 0) as [Hz|Hnz].
    + now destruct (Hnull Hz).
    + destruct (Hlive Hnz) as [_ ->]. apply union_empty_r_L.
  - rewrite Ht1. change (trace init ++ [e]) with ([] ++ [e]).
    eapply lifo_tail_run; [apply lifo_tail_nil|].
    rewrite tail_run_cons, tail_run_nil, <- (app_nil_r (held_instance h)).
    apply createInstance_tail; [apply Hnull | apply Hlive].
Qed.

Lemma instance_destroyable (h : Z) (s : state) :
  instances s = (if h =? 0 then ∅ else {[h]}) -> devices s = ∅ ->
  h = 0 \/ (h ∈ instances s /\ devices s = ∅).
Proof.
  intros Hi Hd. destruct (Z.eqb_spec h 0) as [Hz|Hnz]; [now left | right].
  split; [rewrite Hi; now apply elem_of_singleton | exact Hd].
Qed.

(** Destroying the one instance leaves none. *)
Lemma vkDestroyInstance_last (h : Z) (s : state) :
  instances s = (if h =? 0 then ∅ else {[h]}) -> devices s = ∅ ->
  exists s',
    vkDestroyInstance h s = Done tt s' /\
    trace s' = trace s ++ [EvDestroyInstance h] /\
    heap s' = heap s /\ instances s' = ∅ /\ devices s' = ∅.
Proof.
  intros Hi Hd. eexists. split.
  - apply vkDestroyInstance_run, instance_destroyable; assumption.
  - destruct (Z.eqb_spec h 0) as [Hz|Hnz];
      cbn [trace heap instances devices log set_instances]; repeat split; try assumption.
    rewrite Hi. apply difference_diag_L.
Qed.

Lemma free_or_skip (p : Z) (s : state) :
  (p = NULL \/ exists b, heap s !! p = Some b) ->
  exists s',
    when (negb (p =? NULL)) (free p) s = Done tt s' /\
    trace s' = trace s ++ (if p =? NULL then [] else [EvFree p]) /\
    heap s' = (if p =? NULL then heap s else delete p (heap s)) /\
    instances s' = instances s /\ devices s' = devices s /\ brk s' = brk s.
Proof.
  intros Hp. destruct (Z.eqb_spec p NULL) as [->|Hne]; cbn [negb when].
  - exists s. rewrite app_nil_r. repeat split.
  - destruct Hp as [Hp|[b Hb]]; [contradiction|].
    eexists. split; [eapply free_live; eassumption|]. repeat split.
Qed.

Lemma vkCreateInstance_run
      (info : VkInstanceCreateInfo.t) (s : state) (res : VkResult) (h : Z) :
  drv_vkCreateInstance native (trace s) info = (res, h) ->
  vkCreateInstance native info 0 s =
  Done (res, if res =? VK_SUCCESS then h else 0)
    (log (EvCreateInstance info res (if res =? VK_SUCCESS then h else 0))
       (if (res =? VK_SUCCESS) && negb (h =? 0)
        then set_instances ({[h]} ∪ instances s) s else s)).
Proof.
  intros Hd. unfold vkCreateInstance. rewrite Hd.
  destruct (res =? VK_SUCCESS); [destruct (h =? 0)|]; reflexivity.
Qed.

(** Neither helper makes a free or destroy call. *)
Lemma createInstance_no_release (g_appName : string) (vkInst : Z) :
  preserves (fun e => is_release_call e = false) (createInstance native g_appName vkInst).
Proof. unfold createInstance. repeat keeps_step ltac:(reflexivity). Qed.

Lemma createPhysicalDevicesArray_no_release (vkInst i_devCount vkPhysDev : Z) :
  preserves (fun e => is_release_call e = false)
    (createPhysicalDevicesArray native vkInst i_devCount vkPhysDev).
Proof.
  unfold createPhysicalDevicesArray, printf. repeat keeps_step ltac:(reflexivity).
Qed.

(** The heap holds the device array and nothing else; after the
    guarded free it holds nothing. *)
Lemma array_alone (p : Z) (res : VkResult) (c : Z) (h1 h2 : gmap Z block) :
  h1 = ∅ ->
  (p = NULL /\ h2 = h1 /\ (res = VK_SUCCESS -> c = 0)) \/
  (p <> NULL /\ h1 !! p = None /\
   exists (bytes : Z) (devs : list Z),
     h2 = <[p := {| blk_bytes := bytes; blk_cells := PhysDevs devs |}]> h1 /\
     c = Z.of_nat (length devs)) ->
  (p = NULL /\ h2 = ∅) \/ (p <> NULL /\ exists b, h2 = <[p := b]> ∅).
Proof.
  intros -> [(Hp & Hh & _)|(Hp & _ & bytes & devs & Hh & _)].
  - left. now split.
  - right. split; [exact Hp|]. eexists. exact Hh.
Qed.

Lemma array_given_back (p : Z) (h2 h3 : gmap Z block) :
  (p = NULL /\ h2 = ∅) \/ (p <> NULL /\ exists b, h2 = <[p := b]> ∅) ->
  h3 = (if p =? NULL then h2 else delete p h2) -> h3 = ∅.
Proof.
  intros [(-> & ->)|(Hne & b & ->)] ->.
  - reflexivity.
  - destruct (Z.eqb_spec p NULL); [contradiction|].
    rewrite delete_insert_eq. apply delete_empty.
Qed.

Lemma array_on_heap (p : Z) (h2 : gmap Z block) :
  (p = NULL /\ h2 = ∅) \/ (p <> NULL /\ exists b, h2 = <[p := b]> ∅) ->
  p = NULL \/ exists b, h2 !! p = Some b.
Proof.
  intros [(-> & _)|(_ & b & ->)]; [now left | right].
  eexists. apply lookup_insert_eq.
Qed.

Lemma printPhysicalDevicesProperties_run (c p : Z) (s : state) :
  ((p = NULL /\ c = 0) \/
   (exists bytes devs,
      heap s !! p = Some {| blk_bytes := bytes; blk_cells := PhysDevs devs |} /\
      c = Z.of_nat (length devs))) ->
  exists ev,
    Tutorial01.printPhysicalDevicesProperties native c p s = Done tt (extend ev s) /\
    Forall (fun e => inert e = true) ev.
Proof.
  intros [[-> ->]|(bytes & devs & Hp & ->)];
    unfold Tutorial01.printPhysicalDevicesProperties, for_loop;
    erewrite bind_Done by apply printf_run; rewrite log_extend.
  - eexists. split; [reflexivity|]. repeat constructor.
  - rewrite Nat2Z.id.
    destruct (printPhysicalDevicesProperties_loop native p bytes devs (length devs) 0
                (extend [EvPrintf " %d physical device(s) found: \n"
                           [PInt (Z.of_nat (length devs))]] s))
      as (ev & Hrun & _ & _ & Hin & _); [exact Hp | lia | cbn; lia |].
    rewrite Hrun, extend_extend. eexists. split; [reflexivity|].
    apply Forall_app. split; [repeat constructor | exact Hin].
Qed.

(** The statements from the label [cleanup] on, at the level of the
    heap and the handles. *)
Lemma tutorial02_cleanup_state (vkPhysDev vkInst : Z) (s : state) :
  (vkPhysDev = NULL /\ heap s = ∅) \/
  (vkPhysDev <> NULL /\ exists b, heap s = <[vkPhysDev := b]> ∅) ->
  instances s = (if vkInst =? 0 then ∅ else {[vkInst]}) -> devices s = ∅ ->
  exists s', Tutorial02.cleanup vkPhysDev vkInst s = Done 0 s' /\ all_released s'.
Proof.
  intros Hp Hi Hd. unfold Tutorial02.cleanup.
  destruct (free_or_skip vkPhysDev s) as (s2 & Hrun2 & _ & Hh2 & Hi2 & Hd2 & _);
    [apply array_on_heap, Hp|].
  erewrite bind_Done by exact Hrun2.
  destruct (vkDestroyInstance_last vkInst s2) as (s3 & Hrun3 & _ & Hh3 & Hi3 & Hd3);
    [rewrite Hi2; exact Hi | rewrite Hd2; exact Hd |].
  erewrite bind_Done by exact Hrun3.
  erewrite bind_Done by apply printf_run.
  eexists. split; [reflexivity|].
  unfold all_released. cbn [heap instances devices log].
  split; [|split; assumption].
  rewrite Hh3. eapply array_given_back; [exact Hp | exact Hh2].
Qed.




End Programs.

(** X10: tutorial00 never faults.  It calls [vkCreateInstance] once,
    under the application name "vulkan-tut00" and the header's API
    version; the exit code is -1 exactly when that call does not return
    VK_SUCCESS; on success the handle it was given is destroyed before
    the exit; on both paths nothing is held at exit. *)
Theorem tutorial00_creates_and_destroys (native : Native) :
  exists (info : VkInstanceCreateInfo.t) (ai : VkApplicationInfo.t)
         (res : VkResult) (h : Z) (s : state),
    VkInstanceCreateInfo.pApplicationInfo info = Some ai /\
    VkApplicationInfo.pApplicationName ai = Some "vulkan-tut00" /\
    VkApplicationInfo.apiVersion ai = VK_API_VERSION native /\
    drv_vkCreateInstance native [] info = (res, h) /\
    Tutorial00.main native init = Done (if res =? VK_SUCCESS then 0 else -1) s /\
    trace s =
      (if res =? VK_SUCCESS
       then [EvCreateInstance info res h; EvPrintf "Instance created successfully\n" [];
             EvDestroyInstance h; EvPrintf "Instance destroyed\n" []]
       else [EvCreateInstance info res 0; EvPrintf "Failed to create instance: %d\n" [PInt res]]) /\
    all_released s.
Proof.
  unfold Tutorial00.main. cbv zeta.
  set (info := VkInstanceCreateInfo.set_enabledExtensionCount NULL _).
  destruct (drv_vkCreateInstance native [] info) as [res h] eqn:Hd.
  exists info. eexists. exists res, h.
  erewrite bind_Done by (apply vkCreateInstance_run; exact Hd). cbv beta iota.
  destruct (Z.eqb_spec res VK_SUCCESS) as [->|Hres]; cbn [negb andb].
  - erewrite bind_Done by apply printf_run.
    set (s1 := log _ (log _ _)).
    destruct (vkDestroyInstance_last h s1) as (s2 & Hrun & Ht & Hh & Hi & Hdv).
    { unfold s1. destruct (Z.eqb_spec h 0); cbn [negb instances log set_instances];
        [reflexivity | apply union_empty_r_L]. }
    { unfold s1. destruct (h =? 0); reflexivity. }
    erewrite bind_Done by exact Hrun.
    erewrite bind_Done by apply printf_run.
    eexists. do 3 (split; [reflexivity|]). split; [exact Hd|]. split; [reflexivity|].
    unfold all_released. cbn [trace heap instances devices log]. rewrite Ht, Hh.
    split.
    + unfold s1. destruct (h =? 0); reflexivity.
    + split; [|split; assumption]. unfold s1. destruct (h =? 0); reflexivity.
  - erewrite bind_Done by apply printf_run.
    eexists. do 3 (split; [reflexivity|]). split; [exact Hd|]. split; [reflexivity|].
    split; [reflexivity|]. repeat split.
Qed.

(** X11: tutorial01 never faults, and its exit code and what it still
    holds at exit are fixed by two results.  If the instance cannot be
    created the exit code is -1 and nothing is held.  If the device
    enumeration fails the exit code is -1, no free or destroy call was
    made, and the array (when one was allocated) and the instance are
    still held.  Otherwise the exit code is 0: the run ends with the
    free of the array (skipped for a null pointer) and the destruction
    of the instance, no free or destroy call comes before, and nothing
    is held at exit. *)
Theorem tutorial01_exit_and_holdings (native : Native) :
  exists (res : VkResult) (h : Z) (s1 : state),
    createInstance native Tutorial01.g_appName 0 init = Done (res, h) s1 /\
    ((res <> VK_SUCCESS /\
      exists s, Tutorial01.main native init = Done (-1) s /\ all_released s) \/
     (res = VK_SUCCESS /\
      exists (res2 : VkResult) (c p : Z) (s2 : state),
        createPhysicalDevicesArray native h 0 NULL s1 = Done (res2, c, p) s2 /\
        ((res2 <> VK_SUCCESS /\
          exists s,
            Tutorial01.main native init = Done (-1) s /\
            Forall (fun e => is_release_call e = false) (trace s) /\
            live (trace s) = held_block p ++ held_instance h /\
            (p <> NULL -> exists b, heap s !! p = Some b) /\
            instances s = (if h =? 0 then ∅ else {[h]})) \/
         (res2 = VK_SUCCESS /\
          exists (s : state) (pre : list event),
            Tutorial01.main native init = Done 0 s /\
            trace s = pre ++ (if p =? NULL then [] else [EvFree p]) ++ [EvDestroyInstance h] /\
            Forall (fun e => is_release_call e = false) pre /\
            live pre = held_block p ++ held_instance h /\
            all_released s)))).
Proof.
  unfold Tutorial01.main.
  destruct (createInstance_at_start native Tutorial01.g_appName)
    as (res & h & s1 & Hrun & Hwf1 & Hh1 & Hd1 & Hi1 & Hfail & Htail1).
  pose proof (createInstance_no_release native Tutorial01.g_appName 0 init (List.Forall_nil _)) as Hq1.
  rewrite Hrun in Hq1. cbn [final_state] in Hq1.
  exists res, h, s1. split; [exact Hrun|].
  erewrite bind_Done by exact Hrun. cbv beta iota.
  destruct (Z.eqb_spec res VK_SUCCESS) as [->|Hres]; cbn [negb].
  2:{ left. split; [exact Hres|].
      erewrite bind_Done by apply printf_run.
      eexists. split; [reflexivity|].
      unfold all_released. cbn [heap instances devices log].
      rewrite Hh1, Hd1, Hi1, (Hfail Hres). repeat split. }
  right. split; [reflexivity|].
  destruct (createPhysicalDevicesArray_summary native h s1 Hwf1)
    as (res2 & c & p & s2 & Hrun2 & Hwf2 & Hi2 & Hd2 & Htail2 & Hcase).
  pose proof (createPhysicalDevicesArray_no_release native h 0 NULL s1 Hq1) as Hq2.
  rewrite Hrun2 in Hq2. cbn [final_state] in Hq2.
  exists res2, c, p, s2. split; [exact Hrun2|].
  erewrite bind_Done by exact Hrun2. cbv beta iota.
  specialize (Htail2 _ Htail1).
  destruct (Z.eqb_spec res2 VK_SUCCESS) as [->|Hres2]; cbn [negb].
  2:{ left. split; [exact Hres2|].
      erewrite bind_Done by apply printf_run.
      eexists. split; [reflexivity|]. cbn [trace heap instances log].
      split; [apply Forall_app; split; [exact Hq2 | repeat constructor]|].
      split; [apply lifo_tail_live, lifo_tail_inert_event; [exact Htail2 | reflexivity]|].
      split; [|rewrite Hi2; exact Hi1].
      intros Hp. destruct Hcase as [(-> & _)|(_ & _ & bytes & devs & -> & _)];
        [contradiction | eexists; apply lookup_insert_eq]. }
  right. split; [reflexivity|].
  destruct (printPhysicalDevicesProperties_run native c p s2) as (ev & Hrun3 & Hin).
  { destruct Hcase as [(-> & _ & Hc)|(_ & _ & bytes & devs & -> & ->)].
    - left. split; [reflexivity | now apply Hc].
    - right. do 2 eexists. split; [apply lookup_insert_eq | reflexivity]. }
  erewrite bind_Done by exact Hrun3.
  destruct (free_or_skip p (extend ev s2)) as (s4 & Hrun4 & Ht4 & Hh4 & Hi4 & Hd4 & _).
  { cbn [heap extend].
    destruct Hcase as [(-> & _)|(_ & _ & bytes & devs & -> & _)]; [now left | right].
    eexists. apply lookup_insert_eq. }
  erewrite bind_Done by exact Hrun4.
  cbn [trace heap instances devices extend] in Ht4, Hh4, Hi4, Hd4.
  destruct (vkDestroyInstance_last h s4) as (s5 & Hrun5 & Ht5 & Hh5 & Hi5 & Hd5).
  { rewrite Hi4, Hi2. exact Hi1. }
  { rewrite Hd4, Hd2. exact Hd1. }
  erewrite bind_Done by exact Hrun5.
  exists s5, (trace s2 ++ ev). split; [reflexivity|].
  split; [rewrite Ht5, Ht4, <- !app_assoc; reflexivity|].
  split; [apply Forall_app; split;
            [exact Hq2 | eapply Forall_impl; [exact Hin | apply inert_not_release]]|].
  split.
  - apply lifo_tail_live. eapply lifo_tail_run; [exact Htail2 | apply tail_run_inert, Hin].
  - split; [|split; assumption].
    rewrite Hh5. eapply array_given_back; [|exact Hh4].
    eapply array_alone; [exact Hh1 | exact Hcase].
Qed.



(** With one device the same run goes through to the teardown. *)
Example tutorial03_one_gpu_exits :
  value (Tutorial03.main one_gpu init) = Some 0 /\
  heap (final_state (Tutorial03.main one_gpu init)) = ∅.
Proof. split; reflexivity. Qed.

(** X13: tutorial02 never faults and never leaks, whatever the native
    layer and the allocator answer: every run exits with code 0 or -1,
    and at exit no heap block is allocated and no instance is live. *)
Theorem tutorial02_holds_nothing_at_exit (native : Native) :
  exists (r : Z) (s : state),
    Tutorial02.main native init = Done r s /\ (r = 0 \/ r = -1) /\ all_released s.
Proof.
  unfold Tutorial02.main.
  destruct (createInstance_at_start native Tutorial02.g_appName)
    as (res & h & s1 & Hrun & Hwf1 & Hh1 & Hd1 & Hi1 & Hfail & _).
  erewrite bind_Done by exact Hrun. cbv beta iota.
  destruct (Z.eqb_spec res VK_SUCCESS) as [->|Hres]; cbn [negb].
  2:{ erewrite bind_Done by apply printf_run.
      do 2 eexists. split; [reflexivity|]. split; [now right|].
      unfold all_released. cbn [heap instances devices log].
      rewrite Hh1, Hd1, Hi1, (Hfail Hres). repeat split. }
  destruct (createPhysicalDevicesArray_summary native h s1 Hwf1)
    as (res2 & c & p & s2 & Hrun2 & Hwf2 & Hi2 & Hd2 & _ & Hcase).
  erewrite bind_Done by exact Hrun2. cbv beta iota.
  pose proof (array_alone p res2 c _ _ Hh1 Hcase) as Hheap2.
  destruct (Z.eqb_spec res2 VK_SUCCESS) as [->|Hres2]; cbn [negb].
  2:{ erewrite bind_Done by apply printf_run.
      destruct (tutorial02_cleanup_state p h (log (EvPrintf
                  "Failed to create physical devices list: %d\n" [PInt res2]) s2))
        as (s' & Hclean & Hrel).
      - exact Hheap2.
      - cbn [instances log]. rewrite Hi2. exact Hi1.
      - cbn [devices log]. rewrite Hd2. exact Hd1.
      - rewrite Hclean. do 2 eexists. split; [reflexivity|]. split; [now left | exact Hrel]. }
  destruct (printQueueFamilyInfo_run native p c s2 Hwf2)
    as (s3 & ev & Hrun3 & _ & Hh3 & Hi3 & Hd3 & _).
  { destruct Hcase as [(-> & _ & Hc)|(_ & _ & bytes & devs & -> & ->)].
    - left. split; [reflexivity | now apply Hc].
    - right. do 2 eexists. split; [apply lookup_insert_eq | reflexivity]. }
  erewrite bind_Done by exact Hrun3.
  destruct (tutorial02_cleanup_state p h s3) as (s' & Hclean & Hrel).
  - rewrite Hh3. exact Hheap2.
  - rewrite Hi3, Hi2. exact Hi1.
  - rewrite Hd3, Hd2. exact Hd1.
  - rewrite Hclean. do 2 eexists. split; [reflexivity|]. split; [now left | exact Hrel].
Qed.
